(** * Auric: the acquisition-and-playback pipeline of workingdesktopappdownloader.py

    A shallow embedding of the parts of the program that its specification
    talks about: filename sanitising, the ffmpeg normaliser, duration
    resolution, the batch download driver, the stream player with its
    pause/resume clock, and the window's time display and local playback.

    Conventions of the embedding.
    - A Python [str] is a list of Unicode code points ([N]); [bytes] is a
      list of [Byte.byte].
    - A Python float used as a time or a duration is an exact rational ([Q]).
    - The file system is an association list from paths to files, in the
      order [os.listdir] reports the names.  What [os.remove] does on a
      directory (it raises, and the program swallows the exception) is
      written out.  On a regular file it succeeds, except in the stream
      cache, whose files a download that is still running may hold open:
      there the environment says on which paths [os.remove] is refused.
    - External capabilities (yt_dlp, ffmpeg, mutagen, the Kivy sound handle,
      the wall clock, the flags set by the UI thread) are explicit
      environment records: every outcome they can have for the program is a
      value of the record, and theorems quantify over all of them.
    - Log lines and subprocess invocations are collected in a trace of
      events.  The activity log file (LOG_FILE_PATH, to which [log_safe]
      appends every line) is that trace: it is not a path of the modelled
      file system, which holds the media files and their directories.
    - Every function runs undisturbed: what another thread does meanwhile
      enters only where an environment record supplies it (the calls of the
      UI thread during a download or a playback). *)

From Stdlib Require Import List String Ascii NArith ZArith QArith Qminmax Qround Bool Lia Lqa.
From Stdlib Require Import DecimalFacts DecimalPos DecimalZ.
From Stdlib Require Import Strings.Byte DecimalString.
From Stdlib Require Import Permutation Sorted.
Import ListNotations.

Set Implicit Arguments.
Local Open Scope list_scope.

(** ** Python strings *)

Module Py.

Definition char := N.
Definition str := list char.

(** The code points of an ASCII literal. *)
Fixpoint codes (s : string) : str :=
  match s with
  | EmptyString => []
  | String a s' => N_of_ascii a :: codes s'
  end.

Fixpoint str_eqb (a b : str) : bool :=
  match a, b with
  | [], [] => true
  | x :: a', y :: b' => N.eqb x y && str_eqb a' b'
  | _, _ => false
  end.

(** [s.startswith(p)] *)
Fixpoint startswith (s p : str) : bool :=
  match p, s with
  | [], _ => true
  | y :: p', x :: s' => N.eqb x y && startswith s' p'
  | _ :: _, [] => false
  end.

(** [s.endswith(p)] *)
Definition endswith (s p : str) : bool := startswith (rev s) (rev p).

(** [c in chars] for a one-character string [c]. *)
Definition char_in (c : char) (chars : str) : bool := existsb (N.eqb c) chars.

(** [str.isspace] on one code point: the characters [str.strip()] removes
    (Unicode White_Space plus the separators U+001C..U+001F). *)
Definition isspace (c : char) : bool :=
  ((9 <=? c) && (c <=? 13) || (28 <=? c) && (c <=? 32) || (c =? 133)
   || (c =? 160) || (c =? 5760) || (8192 <=? c) && (c <=? 8202)
   || (c =? 8232) || (c =? 8233) || (c =? 8239) || (c =? 8287)
   || (c =? 12288))%N.

Fixpoint lstrip (s : str) : str :=
  match s with
  | [] => []
  | c :: s' => if isspace c then lstrip s' else s
  end.

Definition rstrip (s : str) : str := rev (lstrip (rev s)).

(** [s.strip()] *)
Definition strip (s : str) : str := rstrip (lstrip s).

(** The first character of [s], if any, is not whitespace. *)
Definition clean_head (s : str) : Prop :=
  match s with
  | [] => True
  | c :: _ => isspace c = false
  end.

(** [s] neither starts nor ends with whitespace. *)
Definition no_outer_space (s : str) : Prop := clean_head s /\ clean_head (rev s).

(** [str.lower] restricted to what the program asks of it: the test
    [fp.lower().endswith(".mp3")].  Only the capitals A..Z are mapped; no
    other code point lowercases to one of the characters of ".mp3". *)
Definition lower_char (c : char) : char :=
  if ((65 <=? c) && (c <=? 90))%N then (c + 32)%N else c.

Definition lower (s : str) : str := map lower_char s.

(** [os.path.join(d, f)] for a relative, slash-free [f]. *)
Definition join (d f : str) : str := d ++ codes "/" ++ f.

End Py.

(** ** sanitize_filename (line 117) *)

Module Sanitize.
Import Py.

Section WithIsalnum.

(** [str.isalnum] on one code point: Python's Unicode table, a
    parameter of the embedding. *)
Variable isalnum : char -> bool.

(** The characters of the literal " ._-()". *)
Definition extra_chars : str := codes " ._-()".

Definition kept (c : char) : bool := isalnum c || char_in c extra_chars.

Definition underscore : char := 95%N.

Definition sanitize_char (c : char) : char := if kept c then c else underscore.

(** ["".join(c if c.isalnum() or c in " ._-()" else "_" for c in name).strip()] *)
Definition sanitize_filename (name : str) : str :=
  strip (map sanitize_char name).

End WithIsalnum.

(** [isalnum] on the ASCII range, for running the function on literals. *)
Definition ascii_isalnum (c : char) : bool :=
  ((48 <=? c) && (c <=? 57) || (65 <=? c) && (c <=? 90)
   || (97 <=? c) && (c <=? 122))%N.

End Sanitize.

(** ** The file system *)

Module Fs.
Import Py.

(** A directory entry: a regular file ([f_isfile]) or a directory, its
    bytes and its modification time ([os.path.getmtime]). *)
Record file := mkfile { f_isfile : bool; f_data : list byte; f_mtime : Q }.

(** Paths to entries, in listing order. *)
Definition fs := list (str * file).

Fixpoint lookup (p : str) (t : fs) : option file :=
  match t with
  | [] => None
  | (k, f) :: t' => if str_eqb k p then Some f else lookup p t'
  end.

(** [os.path.exists(p)] *)
Definition exists_ (p : str) (t : fs) : bool :=
  match lookup p t with Some _ => true | None => false end.

(** [os.path.isfile(p)] *)
Definition isfile (p : str) (t : fs) : bool :=
  match lookup p t with Some f => f_isfile f | None => false end.

Definition size_of (f : file) : Z := Z.of_nat (List.length (f_data f)).

(** [os.path.getsize(p)]; [None] when it raises. *)
Definition getsize (p : str) (t : fs) : option Z := option_map size_of (lookup p t).

(** [os.path.getmtime(p)]; [None] when it raises. *)
Definition getmtime (p : str) (t : fs) : option Q := option_map f_mtime (lookup p t).

Definition drop (p : str) (t : fs) : fs :=
  filter (fun e => negb (str_eqb (fst e) p)) t.

(** [os.remove(p)]; [None] when it raises (no such file, or a directory). *)
Definition os_remove (p : str) (t : fs) : option fs :=
  match lookup p t with
  | Some f => if f_isfile f then Some (drop p t) else None
  | None => None
  end.

(** The file at [p] is created or overwritten. *)
Definition write (p : str) (f : file) (t : fs) : fs :=
  if exists_ p t
  then map (fun e => if str_eqb (fst e) p then (p, f) else e) t
  else t ++ [(p, f)].

(** [shutil.move(src, dst)] between file paths; [None] when it raises. *)
Definition move (src dst : str) (t : fs) : option fs :=
  match lookup src t with
  | Some f => Some (write dst f (drop src t))
  | None => None
  end.

(** [shutil.copy(src, dst)] *)
Definition copy (src dst : str) (t : fs) : option fs :=
  match lookup src t with
  | Some f => if f_isfile f then Some (write dst f t) else None
  | None => None
  end.

Fixpoint strip_prefix (p s : str) : option str :=
  match p, s with
  | [], _ => Some s
  | y :: p', x :: s' => if N.eqb x y then strip_prefix p' s' else None
  | _ :: _, [] => None
  end.

Definition slash : char := 47%N.

(** The name of [p] inside directory [d], when [p] is a direct child. *)
Definition child_name (d p : str) : option str :=
  match strip_prefix (d ++ [slash]) p with
  | Some [] => None
  | Some n => if char_in slash n then None else Some n
  | None => None
  end.

(** [os.listdir(d)] *)
Fixpoint listdir (d : str) (t : fs) : list str :=
  match t with
  | [] => []
  | (p, _) :: t' =>
      match child_name d p with
      | Some n => n :: listdir d t'
      | None => listdir d t'
      end
  end.

(** [open(p, "rb").read(n)]; [None] when the file cannot be opened. *)
Definition read_head (n : nat) (p : str) (t : fs) : option (list byte) :=
  match lookup p t with
  | Some f => if f_isfile f then Some (firstn n (f_data f)) else None
  | None => None
  end.

(** [os.path.splitext(p)[1]]: the extension of the last component, from its
    last dot, leading dots of the name not counting. *)
Fixpoint basename_rev (r : str) : str :=
  match r with
  | [] => []
  | c :: r' => if N.eqb c slash then [] else c :: basename_rev r'
  end.

Definition basename (p : str) : str := rev (basename_rev (rev p)).

Definition dot : char := 46%N.

Fixpoint drop_dots (s : str) : str :=
  match s with
  | c :: s' => if N.eqb c dot then drop_dots s' else s
  | [] => []
  end.

(** Scans a reversed name for its last dot, returning the extension. *)
Fixpoint ext_rev (r acc : str) : str :=
  match r with
  | [] => []
  | c :: r' => if N.eqb c dot then c :: acc else ext_rev r' (c :: acc)
  end.

Definition splitext_ext (p : str) : str :=
  ext_rev (rev (drop_dots (basename p))) [].

End Fs.

(** ** Entries, events and the effect monad *)

Module Media.
Import Py.

(** What [entry.get("duration")] holds: nothing (or a falsy value), a
    number, or a truthy value that [float()] rejects. *)
Inductive dur_value := DurMissing | DurNum (q : Q) | DurBad.

(** What an info dict holds under a key that an extractor may leave
    undetermined: no such key, Python's [None], or a string. *)
Inductive field := Missing | Null | Text (s : str).

(** A yt_dlp info dict, by the keys the program reads.  yt_dlp gives every
    entry a title string (it makes one up when the extractor found none), so
    for [title] the only cases are a missing key ([None]) and a string;
    [uploader] and [uploader_id] can also be present with the value [None].
    The two URLs are read with [or], which takes a stored [None] and a
    missing key alike: [None] stands for both. *)
Record entry := mkentry {
  e_title : option str;
  e_uploader : field;
  e_uploader_id : field;
  e_webpage_url : option str;
  e_url : option str;
  e_duration : dur_value
}.

(** [d.get(key, default)] on an optional field. *)
Definition get_or (A : Type) (v : option A) (default : A) : A :=
  match v with Some x => x | None => default end.

(** [d.get(key, default)] on a field that can hold [None]; the result is a
    Python value, [None] being Python's [None]. *)
Definition get (v : field) (default : option str) : option str :=
  match v with
  | Missing => default
  | Null => None
  | Text s => Some s
  end.

End Media.

Module Eff.
Import Py Fs.

(** What the program does to the outside world, in order. *)
Inductive event :=
| Log (msg : str)                    (* log_safe(ui_log, msg), emoji and details left out *)
| FfmpegProbe                        (* subprocess.run(["ffmpeg", "-version"]) *)
| FfmpegTranscode (src tgt : str)    (* subprocess.run(["ffmpeg", "-y", "-i", src, ..., tgt]) *)
| Removed (p : str)                  (* os.remove(p) deleted p *)
| EmbedMetadata (p : str)            (* embed_metadata(p, entry, log) *)
| Ui (call : str)                    (* Clock.schedule_once(lambda dt: self.ui.call()) *)
| Progress (percent elapsed total : Q). (* self.ui.update_playback_progress(p, e, d) *)

(** State (the file system) and output (the trace). *)
Definition M (A : Type) : Type := fs -> A * fs * list event.

Definition ret (A : Type) (a : A) : M A := fun t => (a, t, []).

Definition bind (A B : Type) (m : M A) (k : A -> M B) : M B :=
  fun t =>
    let '(a, t1, e1) := m t in
    let '(b, t2, e2) := k a t1 in
    (b, t2, e1 ++ e2).

Definition emit (e : event) : M unit := fun t => (tt, t, [e]).

Definition gets (A : Type) (f : fs -> A) : M A := fun t => (f t, t, []).

Definition put (t' : fs) : M unit := fun _ => (tt, t', []).

Definition log (msg : string) : M unit := emit (Log (codes msg)).

(** [try: os.remove(p) except Exception: pass] *)
Definition remove_quiet (p : str) : M unit :=
  fun t =>
    match os_remove p t with
    | Some t' => (tt, t', [Removed p])
    | None => (tt, t, [])
    end.

(** [try: if os.path.exists(p): os.remove(p) except Exception: pass] *)
Definition remove_if_exists (p : str) : M unit :=
  fun t => if exists_ p t then remove_quiet p t else (tt, t, []).

Definition result (A : Type) (r : A * fs * list event) : A := fst (fst r).
Definition final_fs (A : Type) (r : A * fs * list event) : fs := snd (fst r).
Definition trace (A : Type) (r : A * fs * list event) : list event := snd r.



End Eff.

Declare Scope eff_scope.
Delimit Scope eff_scope with eff.
Notation "x <- m ;; k" := (Eff.bind m (fun x => k))
  (at level 61, m at next level, right associativity) : eff_scope.
Notation "m ;; k" := (Eff.bind m (fun _ => k))
  (at level 61, right associativity) : eff_scope.

(** ** FFmpeg detection and conversion (lines 161-216) *)

Module Ffmpeg.
Import Py Fs Eff.
Local Open Scope eff_scope.

(** How [subprocess.run(["ffmpeg", "-version"], timeout=4)] ends:
    [FileNotFoundError], another exception (the timeout), or a completed
    process with its return code and whether stdout or stderr is
    non-empty. *)
Inductive probe_result :=
| ProbeNotFound
| ProbeRaises
| ProbeExit (rc : Z) (has_output : bool).

(** How the conversion subprocess ends: a completed process with its
    return code, or an exception ([TimeoutExpired] after 120 s, [OSError]).
    Either way the process may have left (part of) a file at the target
    path: [written]. *)
Inductive run_result :=
| RunExit (rc : Z) (written : option file)
| RunRaises (written : option file).

Record env := mkenv {
  probe : probe_result;
  run : str -> str -> fs -> run_result
}.

Definition ffmpeg_exists_value (e : env) : bool :=
  match probe e with
  | ProbeExit rc has_output => (rc =? 0)%Z || (rc =? 1)%Z || has_output
  | ProbeNotFound => false
  | ProbeRaises => false
  end.

(** [ffmpeg_exists()] *)
Definition ffmpeg_exists (e : env) : M bool :=
  emit FfmpegProbe ;; ret (ffmpeg_exists_value e).

Definition leave (p : str) (written : option file) : M unit :=
  fun t =>
    match written with
    | Some f => (tt, write p f t, [])
    | None => (tt, t, [])
    end.

(** [convert_to_mp3_with_ffmpeg(source_path, target_path)] *)
Definition convert_to_mp3_with_ffmpeg (e : env) (source_path target_path : str) : M bool :=
  log "Attempting ffmpeg conversion" ;;
  available <- ffmpeg_exists e ;;
  if negb available then
    log "ffmpeg not available on device." ;; ret false
  else
    emit (FfmpegTranscode source_path target_path) ;;
    outcome <- gets (run e source_path target_path) ;;
    match outcome with
    | RunExit rc written =>
        leave target_path written ;;
        there <- gets (exists_ target_path) ;;
        if (rc =? 0)%Z && there then
          log "ffmpeg conversion succeeded." ;; ret true
        else
          log "ffmpeg conversion failed" ;;
          remove_if_exists target_path ;;
          ret false
    | RunRaises written =>
        leave target_path written ;;
        log "ffmpeg conversion exception" ;;
        remove_if_exists target_path ;;
        ret false
    end.

(** The ways a conversion fails: the transcoder is absent, it exits with
    a non-zero code, or the call raises (the 120 s timeout included). *)
Definition normalization_fails (e : env) (source_path target_path : str) (t : fs) : Prop :=
  ffmpeg_exists_value e = false
  \/ (exists rc written, run e source_path target_path t = RunExit rc written /\ rc <> 0%Z)
  \/ (exists written, run e source_path target_path t = RunRaises written).

End Ffmpeg.

(** ** Format and duration helpers (lines 219-287) *)

Module Format.
Import Py Fs.

Definition byte_eqb (a b : byte) : bool := Byte.eqb a b.

Fixpoint bytes_startswith (s p : list byte) : bool :=
  match p, s with
  | [], _ => true
  | y :: p', x :: s' => byte_eqb x y && bytes_startswith s' p'
  | _ :: _, [] => false
  end.

(** b"ID3" *)
Definition magic_id3 : list byte := [x49; x44; x33].
(** b"\xff\xfb" *)
Definition magic_frame : list byte := [xff; xfb].

Fixpoint bytes_eqb (a b : list byte) : bool :=
  match a, b with
  | [], [] => true
  | x :: a', y :: b' => byte_eqb x y && bytes_eqb a' b'
  | _, _ => false
  end.

(** The tests on the (at most four) bytes read: [not header],
    [header.startswith(b"ID3")], [header[:2] == b"\xff\xfb"]. *)
Definition header_is_mp3 (header : list byte) : bool :=
  match header with
  | [] => false
  | _ => bytes_startswith header magic_id3
         || bytes_eqb (firstn 2 header) magic_frame
  end.

(** [f.endswith('.ytdl') or f.endswith('.part')]: a download in progress
    (lines 545 and 842). *)
Definition in_progress (f : str) : bool :=
  endswith f (codes ".ytdl") || endswith f (codes ".part").

(** [is_real_mp3(file_path)] *)
Definition is_real_mp3 (file_path : str) (t : fs) : bool :=
  match read_head 4 file_path t with
  | Some header => header_is_mp3 header
  | None => false
  end.

End Format.

Module Duration.
Import Py Fs Media.

(** What [mutagen.File(file_path)] gives: an exception, [None] (or an
    object without [info] or with no [length]), or [info.length]. *)
Inductive mutagen_result := MutRaises | MutNothing | MutLength (q : Q).

(** What [SoundLoader.load(file_path)] gives: an exception, [None], a
    sound whose [length] is missing, or a sound with its [length]. *)
Inductive sound_result := SndRaises | SndNone | SndNoLength | SndLength (q : Q).

Record env := mkenv {
  HAS_MUTAGEN : bool;
  mutagen_File : str -> mutagen_result;
  SoundLoader_load : str -> sound_result;
  os_path_getsize : str -> option Z      (* [None]: it raises *)
}.

(** Truth value of a Python number. *)
Definition truthy (q : Q) : bool := negb (Qeq_bool q 0).

(** [q > 0] *)
Definition positive (q : Q) : bool := negb (Qle_bool q 0).

(** [estimate_duration_from_size_bytes(file_path, assumed_bitrate_kbps)];
    [None] also stands for the division by zero the function catches. *)
Definition estimate_duration_from_size_bytes
    (e : env) (file_path : str) (assumed_bitrate_kbps : Q) : option Q :=
  match os_path_getsize e file_path with
  | None => None
  | Some size =>
      if (size <=? 0)%Z then None
      else if Qeq_bool (assumed_bitrate_kbps * 1000) 0 then None
      else Some ((inject_Z size * 8) / (assumed_bitrate_kbps * 1000))
  end.

(** Source 1: [entry_metadata.get("duration")]. *)
Definition from_entry (entry_metadata : option entry) : option Q :=
  match entry_metadata with
  | Some md =>
      match e_duration md with
      | DurNum dur => if truthy dur then Some dur else None
      | DurMissing => None
      | DurBad => None
      end
  | None => None
  end.

(** Source 2: [mutagen.File(file_path).info.length]. *)
Definition from_mutagen (e : env) (file_path : str) : option Q :=
  if HAS_MUTAGEN e then
    match mutagen_File e file_path with
    | MutLength len => if truthy len then Some len else None
    | MutNothing => None
    | MutRaises => None
    end
  else None.

(** Source 3: [SoundLoader.load(file_path).length]. *)
Definition from_sound (e : env) (file_path : str) : option Q :=
  match SoundLoader_load e file_path with
  | SndLength len => if truthy len && positive len then Some len else None
  | SndNoLength => None
  | SndNone => None
  | SndRaises => None
  end.

(** Source 4: the estimate from the size, at 128 kbps. *)
Definition from_size (e : env) (file_path : str) : option Q :=
  match estimate_duration_from_size_bytes e file_path 128 with
  | Some est => if truthy est then Some est else None
  | None => None
  end.

(** [get_duration_best_effort(file_path, entry_metadata)] *)
Definition get_duration_best_effort
    (e : env) (file_path : str) (entry_metadata : option entry) : option Q :=
  match from_entry entry_metadata with
  | Some d => Some d
  | None =>
      match from_mutagen e file_path with
      | Some d => Some d
      | None =>
          match from_sound e file_path with
          | Some d => Some d
          | None => from_size e file_path
          end
      end
  end.

(** The numbers the four sources yield, before any test on them. *)
Definition raw_entry (entry_metadata : option entry) : option Q :=
  match entry_metadata with
  | Some md => match e_duration md with DurNum dur => Some dur | _ => None end
  | None => None
  end.

Definition raw_mutagen (e : env) (file_path : str) : option Q :=
  if HAS_MUTAGEN e then
    match mutagen_File e file_path with MutLength len => Some len | _ => None end
  else None.

Definition raw_sound (e : env) (file_path : str) : option Q :=
  match SoundLoader_load e file_path with SndLength len => Some len | _ => None end.

(** The rule in words: the first source, in rank order, that yields a
    positive number. *)
Fixpoint first_positive (sources : list (option Q)) : option Q :=
  match sources with
  | [] => None
  | Some q :: rest => if positive q then Some q else first_positive rest
  | None :: rest => first_positive rest
  end.

Definition ranked_sources (e : env) (file_path : str) (entry_metadata : option entry)
    : list (option Q) :=
  [raw_entry entry_metadata; raw_mutagen e file_path; raw_sound e file_path;
   estimate_duration_from_size_bytes e file_path 128].

End Duration.

(** ** The batch download driver (lines 438-667) *)

Module DownloadManager.
Import Py Fs Media Eff Format.
Local Open Scope eff_scope.

(** What [ydl.extract_info(url, download=True)] returns: a dict with an
    "entries" key (a playlist, whose items may be [None]), a dict without
    one (a single track), or something that is not a dict. *)
Inductive info_value :=
| InfoPlaylist (self : entry) (entries : list (option entry))
| InfoSingle (self : entry)
| InfoOther.

(** What the tagging of lines 327-365 does to the file it is given: it
    saves the tags ([id3.save]), or it raises on the way; either way the
    file is on disk afterwards as mutagen left it. *)
Inductive tag_result :=
| TagSaved (left : file)
| TagRaises (left : file).

(** The call raises or returns; either way it has written to the disk. *)
Inductive fetch_result :=
| FetchRaises (t' : fs)
| FetchInfo (info : info_value) (t' : fs).

Record env := mkenv {
  isalnum : char -> bool;
  HAS_YTDLP : bool;
  HAS_MUTAGEN : bool;
  APP_DIR : str;
  temp_dir : str;                            (* get_writable_directory("temp_download") *)
  extract_info : str -> fs -> fetch_result;
  ffmpeg : Ffmpeg.env;
  download_stop_flag : nat -> bool;          (* the flag as iteration i reads it *)
  time_time : nat -> Z;                      (* int(time.time()) in iteration i *)
  utcnow : nat -> str;                       (* the strftime stamp in iteration i *)
  move_raises : str -> str -> bool;          (* shutil.move(src, dst) fails *)
  copy_raises : str -> str -> bool;          (* shutil.copy(src, dst) fails *)
  mutagen_save : str -> entry -> file -> tag_result
                                             (* lines 327-365 on the file at the path *)
}.

(** The candidate filter of lines 540-548, on one listed name. *)
Definition is_candidate (d : str) (t : fs) (f : str) : bool :=
  isfile (join d f) t && negb (in_progress f) && startswith f (codes "dl_").

Definition candidates (d : str) (t : fs) : list str :=
  map (join d) (filter (is_candidate d t) (listdir d t)).

(** The sort key [os.path.getmtime(p)]; every candidate was just listed,
    so the call does not raise. *)
Definition mtime_key (t : fs) (p : str) : Q :=
  match getmtime p t with Some m => m | None => 0 end.

Fixpoint insert_newest (key : str -> Q) (x : str) (l : list str) : list str :=
  match l with
  | [] => [x]
  | y :: l' => if Qle_bool (key y) (key x) then x :: l else y :: insert_newest key x l'
  end.

(** Order of a list sorted with [reverse=True]: later elements never have
    a larger key. *)
Definition newest_first (key : str -> Q) (a b : str) : Prop := key b <= key a.

(** [sorted(l, key=key, reverse=True)]: stable, largest key first. *)
Definition sorted_reverse (key : str -> Q) (l : list str) : list str :=
  fold_right (insert_newest key) [] l.

(** [os.path.exists(c) and os.path.getsize(c) > 0] *)
Definition has_content (t : fs) (c : str) : bool :=
  exists_ c t && match getsize c t with Some n => (0 <? n)%Z | None => false end.

(** The loop of lines 556-564: the first candidate with content. *)
Fixpoint first_with_content (t : fs) (cs : list str) : option str :=
  match cs with
  | [] => None
  | c :: cs' => if has_content t c then Some c else first_with_content t cs'
  end.

(** Lines 538-564: the file the batch driver takes for the download. *)
Definition find_downloaded (d : str) (t : fs) : option str :=
  first_with_content t (sorted_reverse (mtime_key t) (candidates d t)).

(** [shutil.move] and [shutil.copy] under [try]: [false] when they raise. *)
Definition shutil_move (e : env) (src dst : str) : M bool :=
  fun t =>
    if move_raises e src dst then (false, t, [])
    else match move src dst t with
         | Some t' => (true, t', [])
         | None => (false, t, [])
         end.

Definition shutil_copy (e : env) (src dst : str) : M bool :=
  fun t =>
    if copy_raises e src dst then (false, t, [])
    else match copy src dst t with
         | Some t' => (true, t', [])
         | None => (false, t, [])
         end.

Definition decimal (z : Z) : str := codes (NilZero.string_of_int (Z.to_int z)).


(** [embed_metadata(file_path, metadata, ui_log)] (lines 289-370).  The
    event marks the call.  The cover download of lines 307-324 touches no
    file and is left out; what mutagen then writes is the environment's. *)
Definition embed_metadata (e : env) (file_path : str) (metadata : entry) : M unit :=
  emit (EmbedMetadata file_path) ;;
  log "embed_metadata: Starting" ;;
  if negb (HAS_MUTAGEN e) then log "mutagen not installed - skipping metadata embedding."
  else
    current <- gets (lookup file_path) ;;
    match current with
    | None => log "File does not exist"
    | Some f =>
        real <- gets (is_real_mp3 file_path) ;;
        if negb real then log "File is not a valid MP3 (skipping tag embedding)."
        else
          t <- gets (fun t => t) ;;
          match mutagen_save e file_path metadata f with
          | TagSaved f' =>
              put (write file_path f' t) ;; log "Metadata and cover art saved to MP3"
          | TagRaises f' =>
              put (write file_path f' t) ;; log "Error embedding metadata"
          end
    end.

(** Lines 589-605: the download is already an MP3. *)
Definition save_mp3 (e : env) (item : entry) (downloaded final_mp3 : str) : M unit :=
  moved <- shutil_move e downloaded final_mp3 ;;
  if moved then
    log "Saved MP3" ;; embed_metadata e final_mp3 item
  else
    copied <- shutil_copy e downloaded final_mp3 ;;
    if copied then log "Copied MP3" ;; embed_metadata e final_mp3 item
    else log "Failed to save MP3".

(** Lines 608-630: [true] when the converted file was saved (the
    [continue] of line 625). *)
Definition convert_and_save (e : env) (i : nat) (item : entry) (downloaded final_mp3 : str)
    : M bool :=
  available <- Ffmpeg.ffmpeg_exists (ffmpeg e) ;;
  if available then
    let temp_mp3 := join (temp_dir e) (codes "conv_" ++ decimal (time_time e i) ++ codes ".mp3") in
    converted <- Ffmpeg.convert_to_mp3_with_ffmpeg (ffmpeg e) downloaded temp_mp3 ;;
    there <- gets (exists_ temp_mp3) ;;
    if converted && there then
      moved <- shutil_move e temp_mp3 final_mp3 ;;
      if moved then
        log "Converted & saved MP3" ;;
        embed_metadata e final_mp3 item ;;
        remove_if_exists downloaded ;;
        ret true
      else log "Error moving converted MP3" ;; ret false
    else ret false
  else log "ffmpeg not available - will keep original format." ;; ret false.

(** Lines 632-653: keep the original container. *)
Definition keep_original (e : env) (i : nat) (item : entry) (downloaded final_base : str)
    : M unit :=
  let ext := splitext_ext downloaded in
  let final_orig := join (APP_DIR e) (final_base ++ ext) in
  taken <- gets (exists_ final_orig) ;;
  let dest :=
    if taken then join (APP_DIR e) (final_base ++ codes "_" ++ utcnow e i ++ ext)
    else final_orig in
  moved <- shutil_move e downloaded dest ;;
  if moved then
    log "Saved original file (no mp3)" ;;
    if HAS_MUTAGEN e then
      if endswith (lower dest) (codes ".mp3") then embed_metadata e dest item
      else log "Skipping metadata embed (non-MP3)."
    else ret tt
  else log "Failed to save downloaded file".

(** [entry.get('title', 'unknown')] (line 582) *)
Definition title_of (item : entry) : str := get_or (e_title item) (codes "unknown").

(** [entry.get('uploader', entry.get('uploader_id', 'unknown'))] (line 583):
    the value handed to [sanitize_filename], which raises [TypeError] on
    Python's [None]. *)
Definition uploader_of (item : entry) : option str :=
  get (e_uploader item) (get (e_uploader_id item) (Some (codes "unknown"))).

(** Lines 582-585: the name of the file in the library, from the two
    strings read from the entry. *)
Definition final_base_of (e : env) (title uploader : str) : str :=
  let sanitize := Sanitize.sanitize_filename (isalnum e) in
  let title := sanitize title in
  let uploader := sanitize uploader in
  let base_name := uploader ++ codes " - " ++ title in
  sanitize base_name.

(** Line 586 *)
Definition final_mp3_of (e : env) (title uploader : str) : str :=
  join (APP_DIR e) (final_base_of e title uploader ++ codes ".mp3").

(** The body of the loop over the entries (lines 533-657). *)
Definition process_entry (e : env) (i : nat) (item : entry) : M unit :=
  found <- gets (find_downloaded (temp_dir e)) ;;
  match found with
  | None => log "Could not find completed download"
  | Some downloaded =>
      size <- gets (getsize downloaded) ;;
      match size with
      | None => log "Error checking file size"
      | Some 0%Z => log "Downloaded file is empty"
      | Some _ =>
          log "Found downloaded file" ;;
          match uploader_of item with
          | None =>
              (* sanitize_filename(None) raises; the handler of lines 655-657 *)
              log "Error processing entry"
          | Some uploader =>
              let final_base := final_base_of e (title_of item) uploader in
              let final_mp3 := final_mp3_of e (title_of item) uploader in
              real <- gets (is_real_mp3 downloaded) ;;
              if real then save_mp3 e item downloaded final_mp3
              else
                saved <- convert_and_save e i item downloaded final_mp3 ;;
                if saved then ret tt else keep_original e i item downloaded final_base
          end
      end
  end.

(** Lines 529-532: the loop, left on the stop flag. *)
Fixpoint process_entries (e : env) (i : nat) (entries : list entry) : M unit :=
  match entries with
  | [] => ret tt
  | item :: rest =>
      if download_stop_flag e i then log "Download stop flag set - exiting loop."
      else process_entry e i item ;; process_entries e (S i) rest
  end.

(** Lines 519-525. *)
Definition entries_of (info : info_value) : list entry :=
  match info with
  | InfoPlaylist self [] => [self]
  | InfoPlaylist _ items => flat_map (fun o => match o with Some x => [x] | None => [] end) items
  | InfoSingle self => [self]
  | InfoOther => []
  end.

Fixpoint remove_each (paths : list str) : M unit :=
  match paths with
  | [] => ret tt
  | p :: rest => remove_quiet p ;; remove_each rest
  end.

(** Lines 659-667: the cleanup of the temporary directory. *)
Definition cleanup_temp_files (e : env) : M unit :=
  names <- gets (listdir (temp_dir e)) ;;
  remove_each (map (join (temp_dir e)) names).

(** [DownloadManager._download_audio(url)] *)
Definition _download_audio (e : env) (url : str) : M unit :=
  log "Download request" ;;
  if negb (HAS_YTDLP e) then log "yt_dlp not installed - cannot download."
  else
    fetched <- gets (extract_info e url) ;;
    match fetched with
    | FetchRaises t' =>
        put t' ;; log "yt_dlp download error"
    | FetchInfo info t' =>
        put t' ;;
        log "Found item(s) to process." ;;
        process_entries e 0 (entries_of info) ;;
        cleanup_temp_files e
    end.

End DownloadManager.

(** ** The stream player (lines 670-1132) *)

Module StreamPlayer.
Import Py Fs Media Eff Format.
Local Open Scope eff_scope.

(** [sound.state] *)
Inductive sound_state := Playing | Stopped.

(** What [sound.get_pos()] does: a position, [None], or an exception. *)
Inductive pos_result := PosValue (q : Q) | PosNone | PosRaises.

(** A Kivy sound handle, by what its methods do when the program calls
    them. *)
Record handle := mkhandle {
  state : sound_state;
  get_pos : pos_result;
  stop_raises : bool;      (* sound.stop() raises *)
  play_raises : bool;      (* sound.play() raises *)
  has_seek : bool;         (* hasattr(sound, "seek") *)
  seek_raises : bool       (* sound.seek(position) raises *)
}.

Definition set_state (s : sound_state) (h : handle) : handle :=
  mkhandle s (get_pos h) (stop_raises h) (play_raises h) (has_seek h) (seek_raises h).

(** [try: sound.stop() except Exception: pass] *)
Definition stop_quiet (h : handle) : handle :=
  if stop_raises h then h else set_state Stopped h.

(** The fields of a [StreamPlayer] (lines 671-689). *)
Record player := mkplayer {
  sound : option handle;
  current_file : option str;
  current_entry : option entry;
  queue : list entry;
  current_index : nat;
  stop_flag : bool;
  pause_flag : bool;
  skip_flag : bool;
  progress_event : bool;
  play_start_time : Q;
  total_paused_time : Q;
  last_pause_time : Q;
  pause_position : Q;
  played_files : list str
}.

Definition set_sound (v : option handle) (p : player) : player :=
  mkplayer v (current_file p) (current_entry p) (queue p) (current_index p)
    (stop_flag p) (pause_flag p) (skip_flag p) (progress_event p) (play_start_time p)
    (total_paused_time p) (last_pause_time p) (pause_position p) (played_files p).

Definition set_current_file (v : option str) (p : player) : player :=
  mkplayer (sound p) v (current_entry p) (queue p) (current_index p) (stop_flag p)
    (pause_flag p) (skip_flag p) (progress_event p) (play_start_time p)
    (total_paused_time p) (last_pause_time p) (pause_position p) (played_files p).

Definition set_current_entry (v : option entry) (p : player) : player :=
  mkplayer (sound p) (current_file p) v (queue p) (current_index p) (stop_flag p)
    (pause_flag p) (skip_flag p) (progress_event p) (play_start_time p)
    (total_paused_time p) (last_pause_time p) (pause_position p) (played_files p).



Definition set_stop_flag (v : bool) (p : player) : player :=
  mkplayer (sound p) (current_file p) (current_entry p) (queue p) (current_index p) v
    (pause_flag p) (skip_flag p) (progress_event p) (play_start_time p)
    (total_paused_time p) (last_pause_time p) (pause_position p) (played_files p).

Definition set_pause_flag (v : bool) (p : player) : player :=
  mkplayer (sound p) (current_file p) (current_entry p) (queue p) (current_index p)
    (stop_flag p) v (skip_flag p) (progress_event p) (play_start_time p)
    (total_paused_time p) (last_pause_time p) (pause_position p) (played_files p).

Definition set_skip_flag (v : bool) (p : player) : player :=
  mkplayer (sound p) (current_file p) (current_entry p) (queue p) (current_index p)
    (stop_flag p) (pause_flag p) v (progress_event p) (play_start_time p)
    (total_paused_time p) (last_pause_time p) (pause_position p) (played_files p).

Definition set_progress_event (v : bool) (p : player) : player :=
  mkplayer (sound p) (current_file p) (current_entry p) (queue p) (current_index p)
    (stop_flag p) (pause_flag p) (skip_flag p) v (play_start_time p)
    (total_paused_time p) (last_pause_time p) (pause_position p) (played_files p).

Definition set_play_start_time (v : Q) (p : player) : player :=
  mkplayer (sound p) (current_file p) (current_entry p) (queue p) (current_index p)
    (stop_flag p) (pause_flag p) (skip_flag p) (progress_event p) v
    (total_paused_time p) (last_pause_time p) (pause_position p) (played_files p).

Definition set_total_paused_time (v : Q) (p : player) : player :=
  mkplayer (sound p) (current_file p) (current_entry p) (queue p) (current_index p)
    (stop_flag p) (pause_flag p) (skip_flag p) (progress_event p) (play_start_time p)
    v (last_pause_time p) (pause_position p) (played_files p).

Definition set_last_pause_time (v : Q) (p : player) : player :=
  mkplayer (sound p) (current_file p) (current_entry p) (queue p) (current_index p)
    (stop_flag p) (pause_flag p) (skip_flag p) (progress_event p) (play_start_time p)
    (total_paused_time p) v (pause_position p) (played_files p).

Definition set_pause_position (v : Q) (p : player) : player :=
  mkplayer (sound p) (current_file p) (current_entry p) (queue p) (current_index p)
    (stop_flag p) (pause_flag p) (skip_flag p) (progress_event p) (play_start_time p)
    (total_paused_time p) (last_pause_time p) v (played_files p).

Definition set_played_files (v : list str) (p : player) : player :=
  mkplayer (sound p) (current_file p) (current_entry p) (queue p) (current_index p)
    (stop_flag p) (pause_flag p) (skip_flag p) (progress_event p) (play_start_time p)
    (total_paused_time p) (last_pause_time p) (pause_position p) v.

(** [StreamPlayer.__init__] *)
Definition init : player :=
  mkplayer None None None [] 0 false false false false 0 0 0 0 [].

(** Truth value of [self.current_file]: a non-empty path. *)
Definition truthy_path (o : option str) : option str :=
  match o with
  | Some (c :: s) => Some (c :: s)
  | _ => None
  end.

(** What [SoundLoader.load(filepath)] does. *)
Inductive load_result := LoadRaises | LoadNone | Loaded (h : handle).

(** What [ydl.download([url])] does; either way it has written to the disk. *)
Inductive download_result := DownloadRaises (t' : fs) | DownloadDone (t' : fs).

(** The calls the UI thread makes on the player while the stream thread
    waits. *)
Inductive ui_call :=
| CallPause (now : Q)
| CallResume (now : Q)
| CallSkip
| CallStop
| CallTick (now : Q).

Record env := mkenv {
  isalnum : char -> bool;
  HAS_YTDLP : bool;
  temp_dir : str;                                (* get_writable_directory("stream_cache") *)
  os_path_abspath : str -> str;
  get_playlist_entries : str -> list entry;
  ydl_download : str -> str -> fs -> download_result;  (* url, output stem *)
  ffmpeg : Ffmpeg.env;
  durations : Duration.env;
  SoundLoader_load : str -> load_result;
  time_time : nat -> Q;                          (* the clock when item i starts playing *)
  calls_while_preparing : nat -> list ui_call;   (* UI calls during the download of item i *)
  calls_while_playing : nat -> Q -> list ui_call; (* UI calls until the playback loop of item i,
                                                     with the given timeout, is left *)
  os_remove_raises : str -> bool                 (* os.remove(path) is refused in the cache
                                                    although the file is there: a download
                                                    or the sound backend holds it open *)
}.

(** *** cleanup_temp (lines 691-702) *)

(** [self.current_file and os.path.abspath(fp) == os.path.abspath(self.current_file)] *)
Definition is_current (e : env) (p : player) (fp : str) : bool :=
  match truthy_path (current_file p) with
  | Some cf => str_eqb (os_path_abspath e fp) (os_path_abspath e cf)
  | None => false
  end.

(** [try: os.remove(fp) except Exception: pass] on a file of the cache
    (lines 697-700): the call can be refused although the file is there. *)
Definition remove_cached (e : env) (fp : str) : M unit :=
  if os_remove_raises e fp then ret tt else remove_quiet fp.

Fixpoint sweep (e : env) (p : player) (paths : list str) : M unit :=
  match paths with
  | [] => ret tt
  | fp :: rest =>
      (if is_current e p fp then ret tt else remove_cached e fp) ;;
      sweep e p rest
  end.

Definition cleanup_temp (e : env) (p : player) : M unit :=
  names <- gets (listdir (temp_dir e)) ;;
  sweep e p (map (join (temp_dir e)) names).

(** *** _prepare_for_stream (lines 755-893) *)

(** [entry.get("webpage_url") or entry.get("url")] *)
Definition stream_url (item : entry) : option str :=
  match truthy_path (e_webpage_url item) with
  | Some u => Some u
  | None => truthy_path (e_url item)
  end.

(** [os.path.isfile(fp) and os.path.getsize(fp) > 0] *)
Definition is_file_with_content (t : fs) (fp : str) : bool :=
  isfile fp t && match getsize fp t with Some n => (0 <? n)%Z | None => false end.

(** The loop of lines 840-850 over the listed names; [downloaded_path] is
    the variable it assigns, and a match ending in ".mp3" breaks out. *)
Fixpoint scan_names (d safe_title : str) (t : fs) (names : list str)
    (downloaded_path : option str) : option str :=
  match names with
  | [] => downloaded_path
  | f :: rest =>
      if in_progress f then scan_names d safe_title t rest downloaded_path
      else if startswith f safe_title then
        let fp := join d f in
        if is_file_with_content t fp then
          if endswith (lower fp) (codes ".mp3") then Some fp
          else scan_names d safe_title t rest (Some fp)
        else scan_names d safe_title t rest downloaded_path
      else scan_names d safe_title t rest downloaded_path
  end.

(** Lines 838-850: the file the stream driver takes for the download. *)
Definition find_stream_file (d safe_title : str) (t : fs) : option str :=
  scan_names d safe_title t (listdir d t) None.

(** A listed name the loop takes into account: not a download in
    progress, starting with the title, a regular file with content. *)
Definition qualifies (d safe_title : str) (t : fs) (f : str) : bool :=
  negb (in_progress f) && startswith f safe_title && is_file_with_content t (join d f).

(** [fp.lower().endswith(".mp3")] for the path of a listed name. *)
Definition path_is_mp3 (d f : str) : bool := endswith (lower (join d f)) (codes ".mp3").

Fixpoint last_error (A : Type) (l : list A) : option A :=
  match l with
  | [] => None
  | x :: l' => match last_error l' with Some y => Some y | None => Some x end
  end.

(** The choice in words: the first qualifying name whose path ends in
    ".mp3", or else the last qualifying name, in listing order. *)
Definition first_mp3_else_last (d safe_title : str) (t : fs) : option str :=
  let qs := filter (qualifies d safe_title t) (listdir d t) in
  match find (path_is_mp3 d) qs with
  | Some f => Some (join d f)
  | None => option_map (join d) (last_error qs)
  end.

(** Lines 875-886: [Some] path when the converted file is to be played. *)
Definition convert_for_stream (e : env) (safe_title downloaded_path : str) : M (option str) :=
  available <- Ffmpeg.ffmpeg_exists (ffmpeg e) ;;
  if available then
    let temp_mp3 := join (temp_dir e) (safe_title ++ codes "_conv.mp3") in
    converted <- Ffmpeg.convert_to_mp3_with_ffmpeg (ffmpeg e) downloaded_path temp_mp3 ;;
    there <- gets (exists_ temp_mp3) ;;
    if converted && there then
      log "Stream ready (converted MP3)" ;; ret (Some temp_mp3)
    else
      log "ffmpeg conversion failed for stream; will attempt to play original format." ;;
      ret None
  else
    log "ffmpeg not available; using original file format for streaming." ;;
    ret None.

(** Lines 859-893: from the located file to the path returned. *)
Definition finish_prepare (e : env) (safe_title downloaded_path : str) : M (option str) :=
  size <- gets (getsize downloaded_path) ;;
  match size with
  | None => log "Error verifying file" ;; ret None
  | Some 0%Z => log "Downloaded file is empty" ;; ret None
  | Some _ =>
      log "Stream file ready" ;;
      real <- gets (is_real_mp3 downloaded_path) ;;
      if real then
        log "Stream ready (MP3)" ;; ret (Some downloaded_path)
      else
        converted <- convert_for_stream e safe_title downloaded_path ;;
        match converted with
        | Some temp_mp3 => ret (Some temp_mp3)
        | None =>
            still <- gets (exists_ downloaded_path) ;;
            if still then
              log "Stream ready (original format)" ;; ret (Some downloaded_path)
            else ret None
        end
  end.

Definition safe_title_of (e : env) (item : entry) : str :=
  Sanitize.sanitize_filename (isalnum e) (get_or (e_title item) (codes "stream_item")).

Definition _prepare_for_stream (e : env) (item : entry) : M (option str) :=
  if negb (HAS_YTDLP e) then
    log "yt_dlp missing - cannot stream/download." ;; ret None
  else
    match stream_url item with
    | None => ret None
    | Some url =>
        let safe_title := safe_title_of e item in
        fetched <- gets (ydl_download e url (join (temp_dir e) safe_title)) ;;
        match fetched with
        | DownloadRaises t' =>
            put t' ;; log "yt_dlp stream download error" ;; ret None
        | DownloadDone t' =>
            put t' ;;
            found <- gets (find_stream_file (temp_dir e) safe_title) ;;
            match found with
            | None =>
                log "No completed file found after download for streaming." ;;
                ret None
            | Some downloaded_path => finish_prepare e safe_title downloaded_path
            end
        end
    end.

(** *** The playback clock (lines 1024-1098) *)

(** The elapsed time [_progress_tick] computes at wall-clock time [now]
    (lines 1029-1032). *)
Definition elapsed (now : Q) (p : player) : Q :=
  if pause_flag p && Duration.positive (last_pause_time p)
  then last_pause_time p - play_start_time p - total_paused_time p
  else now - play_start_time p - total_paused_time p.

(** [min(100.0, (elapsed / duration) * 100.0)] *)
Definition percent (el duration : Q) : Q := Qmin 100 ((el / duration) * 100).

(** [_progress_tick(dt)]: the progress event it schedules, if any. *)
Definition _progress_tick (e : env) (now : Q) (p : player) : list event :=
  match truthy_path (current_file p) with
  | None => []
  | Some cf =>
      let el := elapsed now p in
      let known :=
        match Duration.get_duration_best_effort (durations e) cf (current_entry p) with
        | Some duration =>
            if Duration.truthy duration && Duration.positive duration
            then Some duration else None
        | None => None
        end in
      match known with
      | Some duration => [Progress (percent el duration) el duration]
      | None =>
          match Duration.from_size (durations e) cf with
          | Some estimated =>
              [Progress (if Duration.positive estimated then percent el estimated else 0)
                        el estimated]
          | None => [Progress 0 el 0]
          end
      end
  end.

(** The position [pause] captures (lines 1058-1063). *)
Definition captured_position (now : Q) (p : player) (h : handle) : Q :=
  match get_pos h with
  | PosValue pos => pos
  | PosNone => pause_position p
  | PosRaises => now - play_start_time p - total_paused_time p
  end.

(** [pause()] at wall-clock time [now]: the value of [time.time()] during
    the call (the two reads of lines 1063 and 1070 are taken as one
    instant). *)
Definition pause (now : Q) (p : player) : player * list event :=
  match sound p with
  | Some h =>
      match state h with
      | Playing =>
          let p1 := set_pause_position (captured_position now p h) p in
          let p2 := set_sound (Some (stop_quiet h)) p1 in
          let p3 := set_pause_flag true p2 in
          let p4 := if Qeq_bool (last_pause_time p3) 0
                    then set_last_pause_time now p3 else p3 in
          (p4, [Ui (codes "update_playback_state(Paused)");
                Log (codes "Playback paused.")])
      | Stopped => (p, [])
      end
  | None => (p, [])
  end.

(** Lines 1080-1082: the paused span is added to the total. *)
Definition account_pause (now : Q) (p : player) : player :=
  if Duration.positive (last_pause_time p) then
    set_last_pause_time 0
      (set_total_paused_time (total_paused_time p + (now - last_pause_time p)) p)
  else p.

(** Lines 1085-1092: seek back to the captured position, or move the start
    time when the seek raises. *)
Definition seek_or_adjust (now : Q) (h : handle) (p : player) : player :=
  if Duration.truthy (pause_position p) && has_seek h then
    if seek_raises h then
      set_pause_position 0
        (set_play_start_time (now - (pause_position p + total_paused_time p)) p)
    else set_pause_position 0 p
  else p.

(** [resume()] at wall-clock time [now], read once as in [pause]. *)
Definition resume (now : Q) (p : player) : player * list event :=
  match sound p with
  | Some h =>
      if pause_flag p then
        let p1 := account_pause now p in
        if play_raises h then (p1, [Log (codes "Resume error")])
        else
          let p2 := set_sound (Some (set_state Playing h)) p1 in
          let p3 := seek_or_adjust now h p2 in
          (set_pause_flag false p3,
           [Ui (codes "update_playback_state(Playing)");
            Log (codes "Playback resumed.")])
      else (p, [])
  | None => (p, [])
  end.

(** A session that is playing: the handle reports "play", the player is
    not paused and no pause is pending in [last_pause_time] (what
    [play_song] and [resume] leave behind). *)
Definition playing_session (p : player) (h : handle) : Prop :=
  sound p = Some h /\ state h = Playing /\ pause_flag p = false
  /\ last_pause_time p == 0.

(** [resume] reaches the [except] branch of lines 1089-1092: a position
    was captured, the handle has a [seek], and calling it raises. *)
Definition seek_fallback (captured : Q) (h : handle) : bool :=
  negb (play_raises h) && Duration.truthy captured && has_seek h && seek_raises h.


(** [skip()] *)
Definition skip (p : player) : player :=
  set_sound (option_map stop_quiet (sound p)) (set_skip_flag true p).

(** [stop()] *)
Definition stop (e : env) (p : player) : M player :=
  let p1 := set_skip_flag false (set_pause_flag false (set_stop_flag true p)) in
  let p2 := set_sound None (set_progress_event false p1) in
  cleanup_temp e p2 ;; ret p2.

Definition emit_all (evs : list event) : M unit := fun t => (tt, t, evs).

Definition apply_call (e : env) (c : ui_call) (p : player) : M player :=
  match c with
  | CallPause now => let '(p', evs) := pause now p in emit_all evs ;; ret p'
  | CallResume now => let '(p', evs) := resume now p in emit_all evs ;; ret p'
  | CallSkip => ret (skip p)
  | CallStop => stop e p
  | CallTick now =>
      (if progress_event p then emit_all (_progress_tick e now p) else ret tt) ;; ret p
  end.

Fixpoint apply_calls (e : env) (cs : list ui_call) (p : player) : M player :=
  match cs with
  | [] => ret p
  | c :: rest => p' <- apply_call e c p ;; apply_calls e rest p'
  end.

(** *** play_song (lines 895-1007) *)

(** [self.played_files.add(name)] *)
Definition add_played (name : str) (l : list str) : list str :=
  if existsb (str_eqb name) l then l else name :: l.

(** Lines 984-1007, after the playback loop is left. *)
Definition after_playback (filepath : str) (p : player) : M (bool * player) :=
  let p1 := set_sound None (set_progress_event false p) in
  let p2 := set_played_files (add_played (basename filepath) (played_files p1)) p1 in
  if skip_flag p2 then
    log "Song skipped by user." ;;
    ret (negb (stop_flag p2), set_skip_flag false p2)
  else ret (negb (stop_flag p2), p2).

(** [play_song(filepath, entry_metadata)] for item [i] of the run; the
    polling loop of lines 967-979 changes no field itself: what happens
    during it is the UI thread's calls. *)
Definition play_song (e : env) (i : nat) (filepath : str) (entry_metadata : option entry)
    (p : player) : M (bool * player) :=
  there <- gets (exists_ filepath) ;;
  match filepath, there with
  | [], _ | _, false => log "play_song called but file missing." ;; ret (false, p)
  | _, true =>
      let p1 := set_current_entry entry_metadata
                  (set_current_file (Some filepath) (set_sound None p)) in
      match SoundLoader_load e filepath with
      | LoadRaises => log "Error loading sound" ;; ret (false, p1)
      | LoadNone => log "Could not load audio for playing" ;; ret (false, p1)
      | Loaded h =>
          emit (Ui (codes "update_current_track")) ;;
          if play_raises h then
            log "Error during play()" ;; ret (false, set_sound (Some h) p1)
          else
            log "Playing" ;;
            let p2 := set_sound (Some (set_state Playing h)) p1 in
            let p3 :=
              set_skip_flag false (set_pause_flag false
                (set_pause_position 0 (set_last_pause_time 0
                  (set_total_paused_time 0 (set_play_start_time (time_time e i) p2))))) in
            let p4 := set_progress_event true p3 in
            let duration :=
              match Duration.get_duration_best_effort (durations e) filepath entry_metadata with
              | Some d => d
              | None => 300
              end in
            let timeout := Qmax 10 (duration + 30) in
            p5 <- apply_calls e (calls_while_playing e i timeout) p4 ;;
            after_playback filepath p5
      end
  end.

(** *** stream_playlist (lines 704-753) *)

(** Lines 738-743: the played file is deleted when it lies in the cache. *)
Definition delete_cached (e : env) (filename : str) : M unit :=
  there <- gets (exists_ filename) ;;
  if startswith filename (temp_dir e) && there then
    if os_remove_raises e filename then ret tt
    else
      removed <- gets (os_remove filename) ;;
      match removed with
      | Some t' => put t' ;; emit (Removed filename) ;; log "Deleted cached stream file"
      | None => ret tt
      end
  else ret tt.

(** The body of the loop for item [i] (lines 721-748); [next] is the
    entry after it.  The prefetch thread of lines 731-734 runs
    [_prepare_for_stream] on [next]; it is placed here in the schedule in
    which it finishes before playback starts. *)
Definition stream_item (e : env) (i : nat) (item : entry) (next : option entry)
    (p : player) : M player :=
  emit (Ui (codes "show_stream_progress")) ;;
  emit (Ui (codes "update_stream_progress")) ;;
  filename <- _prepare_for_stream e item ;;
  p1 <- apply_calls e (calls_while_preparing e i) p ;;
  emit (Ui (codes "hide_stream_progress")) ;;
  match filename with
  | None => log "Could not prepare entry" ;; ret p1
  | Some filename =>
      match next with
      | Some next_entry => _prepare_for_stream e next_entry ;; ret tt
      | None => ret tt
      end ;;
      emit (Ui (codes "update_queue_display")) ;;
      played <- play_song e i filename (Some item) p1 ;;
      let '(success, p2) := played in
      delete_cached e filename ;;
      (if negb success && negb (stop_flag p2) then log "Skipping" else ret tt) ;;
      ret p2
  end.



End StreamPlayer.

(** ** What an action leaves alone, and what it emits *)

Module Frame.
Import Py Fs Eff.

(** Running [m] leaves the entry at path [q] as it was. *)
Definition keeps (q : str) (A : Type) (m : M A) : Prop :=
  forall t, lookup q (final_fs (m t)) = lookup q t.

(** Every event [m] emits satisfies [P]. *)
Definition emits (P : event -> Prop) (A : Type) (m : M A) : Prop :=
  forall t, Forall P (trace (m t)).

(** What a conversion from [src] to [tgt] does to the outside world besides
    what it leaves at [tgt]: it appends a line to the activity log, probes
    for ffmpeg, runs the transcoder from [src] to [tgt], deletes [tgt]. *)
Definition conversion_event (src tgt : str) (ev : event) : Prop :=
  match ev with
  | Log _ => True
  | FfmpegProbe => True
  | FfmpegTranscode s t => s = src /\ t = tgt
  | Removed p => p = tgt
  | EmbedMetadata _ => False
  | Ui _ => False
  | Progress _ _ _ => False
  end.

(** If the event is a call of the tagger, the path it is given has a name
    ending in ".mp3". *)
Definition tags_mp3 (ev : event) : Prop :=
  match ev with
  | EmbedMetadata p => endswith (lower p) (codes ".mp3") = true
  | _ => True
  end.

End Frame.

(** ** The player's controls *)

Module StreamControls.
Import Py Fs Media Eff StreamPlayer.

(** [StreamPlayer.toggle_pause()] (lines 1100-1104) *)
Definition toggle_pause (now : Q) (p : player) : player * list event :=
  if pause_flag p then resume now p else pause now p.



End StreamControls.

(** ** The window: formatting, the skip button, local playback *)

Module DownloaderUI.
Import Py Fs Media Eff StreamPlayer.

(** Python's [round(x)] of a float: the nearest integer, a tie going to
    the even one. *)
Definition py_round (x : Q) : Z :=
  let f := Qfloor x in
  match Qcompare (x - inject_Z f) (1 # 2) with
  | Lt => f
  | Gt => (f + 1)%Z
  | Eq => if Z.even f then f else (f + 1)%Z
  end.

(** [f"{n:02d}"]: the decimal numeral, with a zero in front when it has
    fewer than two characters. *)
Definition two_digits (n : Z) : str :=
  let s := DownloadManager.decimal n in
  if (List.length s <? 2)%nat then codes "0" ++ s else s.

(** [format_time(seconds)] (lines 1821-1829) for a finite float. *)
Definition format_time (seconds : Q) : str :=
  let s := py_round seconds in
  let m := (s / 60)%Z in
  let ss := (s mod 60)%Z in
  two_digits m ++ codes ":" ++ two_digits ss.

(** [skip_song()] (lines 1564-1568), on the streamer. *)
Definition skip_song (p : player) : player * list event :=
  match sound p with
  | Some h =>
      match state h with
      | Playing => (skip p, [])
      | Stopped => (p, [Log (codes "No active stream to skip.")])
      end
  | None => (p, [Log (codes "No active stream to skip.")])
  end.

(** The fields of the window that local playback uses (lines 1140-1144). *)
Record local := mklocal {
  current_sound : option handle;
  local_play_start_time : Q;
  local_total_paused_time : Q;
  local_last_pause_time : Q;
  local_is_paused : bool
}.

(** [try: sound.play() except Exception: pass] *)
Definition play_quiet (h : handle) : handle :=
  if play_raises h then h else set_state Playing h.

(** [toggle_local_pause()] (lines 1538-1562) at wall-clock time [now]. *)
Definition toggle_local_pause (now : Q) (u : local) : local * list event :=
  if local_is_paused u then
    let s := option_map play_quiet (current_sound u) in
    if Duration.positive (local_last_pause_time u) then
      (mklocal s (local_play_start_time u)
         (local_total_paused_time u + (now - local_last_pause_time u)) 0 false,
       [Ui (codes "pause_btn.icon = pause")])
    else
      (mklocal s (local_play_start_time u) (local_total_paused_time u)
         (local_last_pause_time u) false,
       [Ui (codes "pause_btn.icon = pause")])
  else
    (mklocal (option_map stop_quiet (current_sound u)) (local_play_start_time u)
       (local_total_paused_time u) now true,
     [Ui (codes "pause_btn.icon = play")]).

(** What [update_local_progress] writes: the progress bar (when it
    assigns it) and the two labels. *)
Record display := mkdisplay {
  progress_bar_value : option Q;
  time_label_text : str;
  track_duration_text : str
}.

(** [update_local_progress(filepath, metadata)] (lines 1517-1536) at
    wall-clock time [now]; [None] when it returns before writing. *)
Definition update_local_progress (d : Duration.env) (now : Q) (filepath : str)
    (metadata : option entry) (u : local) : option display :=
  match current_sound u with
  | None => None
  | Some h =>
      let playing := match state h with Playing => true | Stopped => false end in
      if negb playing && negb (local_is_paused u) then None
      else
        let elapsed := now - local_play_start_time u - local_total_paused_time u in
        let unknown :=
          mkdisplay None (format_time elapsed ++ codes " / --:--")
            (codes "Duration: Unknown") in
        match Duration.get_duration_best_effort d filepath metadata with
        | Some duration =>
            if Duration.truthy duration && Duration.positive duration then
              Some (mkdisplay
                      (Some (Qmin 100 ((elapsed / duration) * 100)))
                      (format_time elapsed ++ codes " / " ++ format_time duration)
                      (codes "Duration: " ++ format_time duration ++ codes "   Left: "
                       ++ format_time (Qmax 0 (duration - elapsed))))
            else Some unknown
        | None => Some unknown
        end
  end.

(** *** The file list (lines 1617-1646) *)

Definition audio_extensions : list str :=
  map codes
    [".mp3"; ".m4a"; ".webm"; ".opus"; ".ogg"; ".wav"; ".flac";
     ".aac"; ".wma"; ".mp4"; ".m4b"; ".oga"; ".spx"; ".ape";
     ".wv"; ".mpc"; ".aiff"; ".aif"; ".au"; ".mid"; ".midi"]%string.

(** [f.lower().endswith(audio_extensions)] *)
Definition is_audio_name (f : str) : bool :=
  existsb (endswith (lower f)) audio_extensions.

(** [a <= b] on Python strings: by code points, a prefix first. *)
Fixpoint str_leb (a b : str) : bool :=
  match a, b with
  | [], _ => true
  | _ :: _, [] => false
  | x :: a', y :: b' => (x <? y)%N || ((x =? y)%N && str_leb a' b')
  end.

Fixpoint insert_sorted (x : str) (l : list str) : list str :=
  match l with
  | [] => [x]
  | y :: l' => if str_leb x y then x :: l else y :: insert_sorted x l'
  end.

(** [sorted(names)] *)
Definition sorted (names : list str) : list str := fold_right insert_sorted [] names.

(** [refresh_file_list()]: the file names of the cards it builds, in
    order; each card plays and deletes [os.path.join(APP_DIR, file)]. *)
Definition refresh_file_list (app_dir : str) (t : fs) : list str :=
  sorted (filter is_audio_name (listdir app_dir t)).

(** *** The activity log (lines 1595-1607) *)

Definition newline : char := 10%N.

(** [text.split('\n')] *)
Fixpoint split_lines (text : str) : list str :=
  match text with
  | [] => [[]]
  | c :: rest =>
      if (c =? newline)%N then [] :: split_lines rest
      else match split_lines rest with
           | l :: ls => (c :: l) :: ls
           | [] => [[c]]
           end
  end.

(** ['\n'.join(lines)] *)
Fixpoint join_lines (lines : list str) : str :=
  match lines with
  | [] => []
  | [l] => l
  | l :: rest => l ++ [newline] ++ join_lines rest
  end.

(** [lines[-n:]] for [n > 0] *)
Definition last_lines (n : nat) (lines : list str) : list str :=
  skipn (List.length lines - n) lines.

(** [log(message)]: the new text of the log label, from the old one. *)
Definition log_label (text message : str) : str :=
  let lines := match text with [] => [] | _ => split_lines text end in
  let lines := if (300 <? List.length lines)%nat then last_lines 200 lines else lines in
  join_lines (lines ++ [message]).

End DownloaderUI.

(** ** Concrete inputs *)

Module Examples.
Import Py Fs Media.

(** An ffmpeg that exits with code 0 and leaves an empty file. *)
Definition empty_output_env : Ffmpeg.env :=
  Ffmpeg.mkenv (Ffmpeg.ProbeExit 0 true)
    (fun _ _ _ => Ffmpeg.RunExit 0 (Some (mkfile true [] 5))).

(** An ffmpeg that is not installed. *)
Definition no_ffmpeg : Ffmpeg.env :=
  Ffmpeg.mkenv Ffmpeg.ProbeNotFound (fun _ _ _ => Ffmpeg.RunRaises None).

(** mutagen and Kivy both read 200 s from the file. *)
Definition two_hundred_seconds : Duration.env :=
  Duration.mkenv true (fun _ => Duration.MutLength 200)
    (fun _ => Duration.SndLength 200) (fun _ => Some 3200000%Z).

(** An entry whose metadata declares a duration of -5. *)
Definition negative_duration_entry : entry :=
  mkentry (Some (codes "Song")) Missing Missing None None (DurNum (-5)).

(** A sound that reports position 3 and whose [seek] raises. *)
Definition drifting_sound : StreamPlayer.handle :=
  StreamPlayer.mkhandle StreamPlayer.Playing (StreamPlayer.PosValue 3)
    false false true true.

(** The player 10 s into a song started at clock time 100. *)
Definition ten_seconds_in : StreamPlayer.player :=
  StreamPlayer.mkplayer (Some drifting_sound) (Some (codes "/cache/Song.m4a")) None
    [] 0 false false false true 100 0 0 0 [].

(** A sound that reports its position and seeks without complaint. *)
Definition steady_sound : StreamPlayer.handle :=
  StreamPlayer.mkhandle StreamPlayer.Playing (StreamPlayer.PosValue 10)
    false false true false.

Definition ten_seconds_in_steady : StreamPlayer.player :=
  StreamPlayer.set_sound (Some steady_sound) ten_seconds_in.

(** A stream player whose cache holds the current file and a stale one. *)
Definition cache_env : StreamPlayer.env :=
  StreamPlayer.mkenv Sanitize.ascii_isalnum false (codes "/cache") (fun path => path)
    (fun _ => []) (fun _ _ t => StreamPlayer.DownloadDone t) no_ffmpeg
    two_hundred_seconds (fun _ => StreamPlayer.LoadNone) (fun _ => 0)
    (fun _ => []) (fun _ _ => []) (fun _ => false).

(** The same player on a machine where the stale file is still held
    open. *)
Definition busy_cache_env : StreamPlayer.env :=
  StreamPlayer.mkenv Sanitize.ascii_isalnum false (codes "/cache") (fun path => path)
    (fun _ => []) (fun _ _ t => StreamPlayer.DownloadDone t) no_ffmpeg
    two_hundred_seconds (fun _ => StreamPlayer.LoadNone) (fun _ => 0)
    (fun _ => []) (fun _ _ => []) (fun path => str_eqb path (codes "/cache/Old.webm")).

Definition cache_files : fs :=
  [(codes "/cache/Song.m4a", mkfile true [x00; x01] 7);
   (codes "/cache/Old.webm", mkfile true [x1a] 3)].

(** A directory with an older converted MP3 and a newer download. *)
Definition two_downloads : fs :=
  [(codes "/tmp/dl_a_conv.mp3", mkfile true [x49; x44; x33; x03] 5);
   (codes "/tmp/dl_a.webm", mkfile true [x1a; x45; xdf; xa3] 9)].

Definition id3_file (mtime : Q) : file := mkfile true [x49; x44; x33; x03; x00] mtime.

Definition song : entry :=
  mkentry (Some (codes "Song")) (Text (codes "Band")) Missing
    (Some (codes "https://example.org/watch?v=1")) None DurMissing.



(** A tagger that appends a title frame to the file it is given. *)
Definition tagging (path : str) (metadata : entry) (f : file) : DownloadManager.tag_result :=
  DownloadManager.TagSaved (mkfile true (f_data f ++ [x54; x49; x54; x32]) 11).

(** A batch run whose fetch leaves [files] in the temporary directory and
    then returns [info] or, for [None], raises. *)
Definition batch_env (files : fs) (info : option DownloadManager.info_value)
    : DownloadManager.env :=
  DownloadManager.mkenv Sanitize.ascii_isalnum true true (codes "/music") (codes "/tmp")
    (fun _ t =>
       match info with
       | Some i => DownloadManager.FetchInfo i (t ++ files)
       | None => DownloadManager.FetchRaises (t ++ files)
       end)
    no_ffmpeg (fun _ => false) (fun _ => 1700000000%Z) (fun _ => codes "20240101000000")
    (fun _ _ => false) (fun _ _ => false) tagging.

Definition partial_download : fs :=
  [(codes "/tmp/dl_1.webm.part", mkfile true [x1a; x45] 9)].

Definition mp3_download : fs := [(codes "/tmp/dl_1.mp3", id3_file 9)].

(** A stream run over [entries]: every download leaves [files] in the
    cache, and every file loads as [loaded]. *)
Definition stream_env (has_ytdlp : bool) (entries : list entry) (files : fs)
    (loaded : StreamPlayer.load_result) : StreamPlayer.env :=
  StreamPlayer.mkenv Sanitize.ascii_isalnum has_ytdlp (codes "/cache") (fun path => path)
    (fun _ => entries)
    (fun _ _ t =>
       StreamPlayer.DownloadDone (fold_right (fun pf acc => write (fst pf) (snd pf) acc) t files))
    no_ffmpeg two_hundred_seconds (fun _ => loaded) (fun _ => 100)
    (fun _ => []) (fun _ _ => []) (fun _ => false).

Definition mp3_in_cache : fs := [(codes "/cache/Song.mp3", id3_file 9)].

(** No duration source answers; the file has 1,000,000 bytes. *)
Definition silent_sources : Duration.env :=
  Duration.mkenv true (fun _ => Duration.MutRaises) (fun _ => Duration.SndNone)
    (fun _ => Some 1000000%Z).

(** An entry whose title and uploader try to climb out of the directory. *)
Definition traversal_entry : entry :=
  mkentry (Some (codes "../../etc/passwd")) (Text (codes "../../evil")) Missing
    (Some (codes "https://example.org/watch?v=3")) None DurMissing.

Definition webm_file : file := mkfile true [x1a; x45; xdf; xa3] 9.

Definition webm_download : fs := [(codes "/tmp/dl_1.webm", webm_file)].

(** An ffmpeg that converts whatever it is given into an MP3. *)
Definition working_ffmpeg : Ffmpeg.env :=
  Ffmpeg.mkenv (Ffmpeg.ProbeExit 0 true)
    (fun _ _ _ => Ffmpeg.RunExit 0 (Some (id3_file 10))).

(** A batch run with that ffmpeg. *)
Definition batch_env_converting (files : fs) : DownloadManager.env :=
  DownloadManager.mkenv Sanitize.ascii_isalnum true true (codes "/music") (codes "/tmp")
    (fun _ t => DownloadManager.FetchInfo (DownloadManager.InfoSingle song) (t ++ files))
    working_ffmpeg (fun _ => false) (fun _ => 1700000000%Z) (fun _ => codes "20240101000000")
    (fun _ _ => false) (fun _ _ => false) tagging.

(** A library file next to a leftover in the temporary directory. *)
Definition library_and_temp : fs :=
  [(codes "/music/Band - Song.mp3", id3_file 3); (codes "/tmp/dl_1.webm", webm_file)].

(** A cache with a file in a sub-directory. *)
Definition nested_cache : fs :=
  [(codes "/cache/Old.webm", webm_file); (codes "/cache/keep/Old.webm", webm_file)].

Definition webm_in_cache : fs := [(codes "/cache/Song.webm", webm_file)].

(** A stream run in which the user pauses, resumes and then skips the
    song. *)
Definition skipping_env : StreamPlayer.env :=
  StreamPlayer.mkenv Sanitize.ascii_isalnum true (codes "/cache") (fun path => path)
    (fun _ => [song])
    (fun _ _ t => StreamPlayer.DownloadDone t)
    no_ffmpeg two_hundred_seconds (fun _ => StreamPlayer.Loaded steady_sound) (fun _ => 100)
    (fun _ => [])
    (fun _ _ => [StreamPlayer.CallPause 110; StreamPlayer.CallResume 120;
                 StreamPlayer.CallSkip])
    (fun _ => false).

End Examples.

(** * Properties *)

Unset Implicit Arguments.

(** ** Strings *)

Section StringFacts.
Import Py.

Lemma str_eqb_eq (a b : str) : str_eqb a b = true <-> a = b.
Proof.
  revert b; induction a as [|x a IH]; intros [|y b]; simpl; split;
    try congruence; try discriminate; auto.
  - rewrite andb_true_iff, N.eqb_eq, IH. intros [-> ->]; reflexivity.
  - intros H; injection H as -> ->. rewrite N.eqb_refl. simpl. apply IH; reflexivity.
Qed.


Lemma str_eqb_neq (a b : str) : str_eqb a b = false <-> a <> b.
Proof.
  split.
  - intros H E. apply str_eqb_eq in E. congruence.
  - intros H. destruct (str_eqb a b) eqn:E; [|reflexivity].
    apply str_eqb_eq in E. contradiction.
Qed.

Lemma lstrip_clean (s : str) : clean_head (lstrip s).
Proof.
  induction s as [|c s IH]; simpl; [exact I|].
  destruct (isspace c) eqn:E; [exact IH|exact E].
Qed.

Lemma clean_lstrip (s : str) : clean_head s -> lstrip s = s.
Proof. destruct s as [|c s]; simpl; [reflexivity|]. intros ->; reflexivity. Qed.

(** What [lstrip] removes is a block in front. *)
Lemma lstrip_split (s : str) : exists ws, s = ws ++ lstrip s.
Proof.
  induction s as [|c s [ws IH]]; simpl.
  - exists []; reflexivity.
  - destruct (isspace c).
    + exists (c :: ws). simpl. f_equal. exact IH.
    + exists []; reflexivity.
Qed.

Lemma rstrip_clean_head (s : str) : clean_head s -> clean_head (rstrip s).
Proof.
  intros H. unfold rstrip.
  destruct (lstrip_split (rev s)) as [ws E].
  apply (f_equal (@rev char)) in E. rewrite rev_involutive, rev_app_distr in E.
  destruct (rev (lstrip (rev s))) as [|c r]; [exact I|].
  rewrite E in H. exact H.
Qed.

Lemma strip_no_outer_space (s : str) : no_outer_space (strip s).
Proof.
  split.
  - apply rstrip_clean_head, lstrip_clean.
  - unfold strip, rstrip. rewrite rev_involutive. apply lstrip_clean.
Qed.

Lemma strip_fixed (s : str) : no_outer_space s -> strip s = s.
Proof.
  intros [Hh Ht]. unfold strip, rstrip.
  rewrite (clean_lstrip _ Hh), (clean_lstrip _ Ht). apply rev_involutive.
Qed.

(** What [lstrip] removes is whitespace. *)
Lemma lstrip_spaces (s : str) :
  exists ws, s = ws ++ lstrip s /\ Forall (fun c => isspace c = true) ws.
Proof.
  induction s as [|c s [ws [IH Hw]]]; simpl.
  - exists []. split; [reflexivity|constructor].
  - destruct (isspace c) eqn:E.
    + exists (c :: ws). split; [simpl; f_equal; exact IH|constructor; assumption].
    + exists []. split; [reflexivity|constructor].
Qed.

(** [strip] takes a block of whitespace off each end and nothing else. *)
Lemma strip_spaces (s : str) :
  exists before after,
    s = before ++ strip s ++ after
    /\ Forall (fun c => isspace c = true) before
    /\ Forall (fun c => isspace c = true) after.
Proof.
  destruct (lstrip_spaces s) as [b [Hb Wb]].
  destruct (lstrip_spaces (rev (lstrip s))) as [a [Ha Wa]].
  exists b, (rev a). split; [|split; [exact Wb|apply Forall_rev, Wa]].
  apply (f_equal (@rev char)) in Ha. rewrite rev_involutive, rev_app_distr in Ha.
  unfold strip, rstrip. rewrite <- Ha. exact Hb.
Qed.

Lemma Forall_lstrip (P : char -> Prop) (s : str) : Forall P s -> Forall P (lstrip s).
Proof.
  induction 1 as [|c s Hc Hs IH]; simpl; [constructor|].
  destruct (isspace c); [exact IH|constructor; assumption].
Qed.

Lemma Forall_strip (P : char -> Prop) (s : str) : Forall P s -> Forall P (strip s).
Proof.
  intros H. unfold strip, rstrip.
  apply Forall_rev, Forall_lstrip, Forall_rev, Forall_lstrip, H.
Qed.

End StringFacts.

(** ** sanitize_filename *)

Section SanitizeFacts.
Import Py Sanitize.
Variable isalnum : char -> bool.

Lemma sanitize_char_kept (c : char) : kept isalnum (sanitize_char isalnum c) = true.
Proof.
  unfold sanitize_char. destruct (kept isalnum c) eqn:E; [exact E|].
  unfold kept. apply orb_true_iff. right. reflexivity.
Qed.

Lemma sanitize_char_fixed (c : char) : kept isalnum c = true -> sanitize_char isalnum c = c.
Proof. unfold sanitize_char. intros ->; reflexivity. Qed.

Lemma map_sanitize_fixed (s : str) :
  Forall (fun c => kept isalnum c = true) s -> map (sanitize_char isalnum) s = s.
Proof.
  induction 1 as [|c s Hc Hs IH]; simpl; [reflexivity|].
  rewrite (sanitize_char_fixed _ Hc), IH. reflexivity.
Qed.

Lemma sanitize_all_kept (name : str) :
  Forall (fun c => kept isalnum c = true) (sanitize_filename isalnum name).
Proof.
  unfold sanitize_filename. apply Forall_strip.
  apply Forall_forall. intros c Hc. apply in_map_iff in Hc.
  destruct Hc as [c0 [<- _]]. apply sanitize_char_kept.
Qed.

Lemma kept_spec (c : char) :
  kept isalnum c = true <-> isalnum c = true \/ In c (codes " ._-()").
Proof.
  unfold kept, char_in, extra_chars. rewrite orb_true_iff, existsb_exists.
  split; intros [H|H]; auto; right.
  - destruct H as [x [Hx E]]. apply N.eqb_eq in E. subst x. exact Hx.
  - exists c. split; [exact H|apply N.eqb_refl].
Qed.

End SanitizeFacts.

(** C10. [sanitize_filename] is idempotent; its output holds only
    alphanumeric characters and characters of " ._-()", and neither starts
    nor ends with whitespace.  The output is the input with every other
    character replaced by an underscore, less a block of whitespace at each
    end: nothing else is dropped, added or reordered.  This holds whatever
    table [str.isalnum] follows. *)
Theorem sanitize_filename_idempotent (isalnum : Py.char -> bool) (name : Py.str) :
  let out := Sanitize.sanitize_filename isalnum name in
  let replaced :=
    map (fun c => if isalnum c || Py.char_in c (Py.codes " ._-()") then c else 95%N) name in
  Sanitize.sanitize_filename isalnum out = out
  /\ Forall (fun c => isalnum c = true \/ In c (Py.codes " ._-()")) out
  /\ Py.no_outer_space out
  /\ exists before after,
       replaced = before ++ out ++ after
       /\ Forall (fun c => Py.isspace c = true) before
       /\ Forall (fun c => Py.isspace c = true) after.
Proof.
  intros out replaced.
  assert (Hk : Forall (fun c => Sanitize.kept isalnum c = true) out)
    by apply sanitize_all_kept.
  assert (Hs : Py.no_outer_space out) by apply strip_no_outer_space.
  split; [|split; [|split]].
  - unfold Sanitize.sanitize_filename at 1.
    rewrite map_sanitize_fixed by exact Hk. apply strip_fixed, Hs.
  - eapply Forall_impl; [|exact Hk]. intros c Hc. apply kept_spec, Hc.
  - exact Hs.
  - apply (strip_spaces replaced).
Qed.

(** A title with a separator, reserved characters and outer blanks: the
    blanks go, every disallowed character becomes an underscore, the rest
    stays in place. *)
Example sanitize_filename_runs :
  Sanitize.sanitize_filename Sanitize.ascii_isalnum (Py.codes "  AC/DC: Back in Black? ")
  = Py.codes "AC_DC_ Back in Black_".
Proof. reflexivity. Qed.

(** ** The file system *)

Section FsFacts.
Import Py Fs.

Lemma lookup_drop_same (p : str) (t : fs) : lookup p (drop p t) = None.
Proof.
  induction t as [|[k f] t IH]; simpl; [reflexivity|].
  destruct (str_eqb k p) eqn:E; simpl; [exact IH|].
  rewrite E. exact IH.
Qed.

Lemma lookup_drop_other (p q : str) (t : fs) :
  p <> q -> lookup q (drop p t) = lookup q t.
Proof.
  intros Hpq. induction t as [|[k f] t IH]; simpl; [reflexivity|].
  destruct (str_eqb k p) eqn:E; simpl.
  - apply str_eqb_eq in E. subst k.
    apply str_eqb_neq in Hpq. rewrite Hpq. exact IH.
  - destruct (str_eqb k q); [reflexivity|exact IH].
Qed.


Lemma strip_prefix_app (pre s n : str) : strip_prefix pre s = Some n -> s = pre ++ n.
Proof.
  revert s. induction pre as [|y pre IH]; intros s; simpl.
  - intros H; injection H as ->; reflexivity.
  - destruct s as [|x s]; [discriminate|].
    destruct (N.eqb x y) eqn:E; [|discriminate].
    apply N.eqb_eq in E. subst y. intros H. f_equal. apply IH, H.
Qed.

Lemma child_name_join (d p n : str) : child_name d p = Some n -> p = join d n.
Proof.
  unfold child_name, join.
  destruct (strip_prefix (d ++ [slash]) p) as [m|] eqn:E; [|discriminate].
  apply strip_prefix_app in E. rewrite <- app_assoc in E.
  destruct m as [|c m]; [discriminate|].
  destruct (char_in slash (c :: m)); [discriminate|].
  intros H; injection H as <-. exact E.
Qed.

Lemma listdir_In (d n : str) (t : fs) :
  In n (listdir d t) <-> exists p f, In (p, f) t /\ child_name d p = Some n.
Proof.
  induction t as [|[q g] t IH]; simpl.
  - split; [intros []|intros [p [f [[] _]]]].
  - destruct (child_name d q) as [m|] eqn:E; simpl; rewrite IH; split.
    + intros [<-|[p [f [H1 H2]]]]; [exists q, g; auto|exists p, f; auto].
    + intros [p [f [[H|H] H2]]].
      * injection H as <- <-. left. congruence.
      * right. exists p, f; auto.
    + intros [p [f [H1 H2]]]. exists p, f; auto.
    + intros [p [f [[H|H] H2]]]; [injection H as <- <-; congruence|].
      exists p, f; auto.
Qed.

Lemma listdir_incl (d : str) (t t' : fs) :
  incl t' t -> incl (listdir d t') (listdir d t).
Proof.
  intros H n Hn. apply listdir_In in Hn. destruct Hn as [p [f [H1 H2]]].
  apply listdir_In. exists p, f. split; [apply H, H1|exact H2].
Qed.

End FsFacts.

(** ** The effect monad *)

Ltac unfold_eff :=
  unfold Eff.bind, Eff.ret, Eff.emit, Eff.gets, Eff.put, Eff.log,
    Eff.result, Eff.final_fs, Eff.trace in *.

Section EffFacts.
Import Py Fs Eff.

Lemma bind_result (A B : Type) (m : M A) (k : A -> M B) (t : fs) :
  result (bind m k t) = result (k (result (m t)) (final_fs (m t))).
Proof.
  unfold bind, result, final_fs. destruct (m t) as [[a t1] e1]. simpl.
  destruct (k a t1) as [[b t2] e2]. reflexivity.
Qed.

Lemma bind_final_fs (A B : Type) (m : M A) (k : A -> M B) (t : fs) :
  final_fs (bind m k t) = final_fs (k (result (m t)) (final_fs (m t))).
Proof.
  unfold bind, result, final_fs. destruct (m t) as [[a t1] e1]. simpl.
  destruct (k a t1) as [[b t2] e2]. reflexivity.
Qed.

Lemma bind_trace (A B : Type) (m : M A) (k : A -> M B) (t : fs) :
  trace (bind m k t) = trace (m t) ++ trace (k (result (m t)) (final_fs (m t))).
Proof.
  unfold bind, result, final_fs, trace. destruct (m t) as [[a t1] e1]. simpl.
  destruct (k a t1) as [[b t2] e2]. reflexivity.
Qed.

Lemma bind_gets (A B : Type) (f : fs -> A) (k : A -> M B) (t : fs) :
  bind (gets f) k t = k (f t) t.
Proof.
  unfold bind, gets. destruct (k (f t) t) as [[b t2] e2]. reflexivity.
Qed.

Lemma bind_put (B : Type) (t' : fs) (k : unit -> M B) (t : fs) :
  bind (put t') k t = k tt t'.
Proof.
  unfold bind, put. destruct (k tt t') as [[b t2] e2]. reflexivity.
Qed.


Lemma bind_log_final_fs (B : Type) (msg : string) (k : unit -> M B) (t : fs) :
  final_fs (bind (log msg) k t) = final_fs (k tt t).
Proof. rewrite bind_final_fs. reflexivity. Qed.


Lemma bind_log_result (B : Type) (msg : string) (k : unit -> M B) (t : fs) :
  result (bind (log msg) k t) = result (k tt t).
Proof. rewrite bind_result. reflexivity. Qed.

Lemma isfile_drop (p q : str) (t : fs) :
  isfile q t = false -> isfile q (drop p t) = false.
Proof.
  unfold isfile. intros H.
  destruct (str_eqb p q) eqn:E.
  - apply str_eqb_eq in E. subst q. rewrite lookup_drop_same. reflexivity.
  - apply str_eqb_neq in E. rewrite (lookup_drop_other p q t E). exact H.
Qed.

Lemma remove_quiet_keeps_gone (p q : str) (t : fs) :
  isfile q t = false -> isfile q (final_fs (remove_quiet p t)) = false.
Proof.
  intros H. unfold remove_quiet, os_remove, final_fs.
  destruct (lookup p t) as [f|]; simpl; [|exact H].
  destruct (f_isfile f); simpl; [apply isfile_drop|]; exact H.
Qed.

Lemma remove_quiet_isfile (p : str) (t : fs) :
  isfile p (final_fs (remove_quiet p t)) = false.
Proof.
  unfold remove_quiet, os_remove, isfile, final_fs.
  destruct (lookup p t) as [f|] eqn:L; simpl.
  - destruct (f_isfile f) eqn:F; simpl.
    + rewrite lookup_drop_same. reflexivity.
    + rewrite L. exact F.
  - rewrite L. reflexivity.
Qed.

Lemma remove_quiet_incl (p : str) (t : fs) : incl (final_fs (remove_quiet p t)) t.
Proof.
  unfold remove_quiet, os_remove, final_fs.
  destruct (lookup p t) as [f|]; simpl; [|apply incl_refl].
  destruct (f_isfile f); simpl; [|apply incl_refl].
  unfold drop. intros x Hx. apply filter_In in Hx. apply Hx.
Qed.

Lemma remove_if_exists_isfile (p : str) (t : fs) :
  isfile p (final_fs (remove_if_exists p t)) = false.
Proof.
  unfold remove_if_exists, remove_quiet, os_remove, exists_, isfile, final_fs.
  destruct (lookup p t) as [f|] eqn:L; simpl.
  - destruct (f_isfile f) eqn:F; simpl.
    + rewrite lookup_drop_same. reflexivity.
    + rewrite L. exact F.
  - rewrite L. reflexivity.
Qed.

End EffFacts.

(** ** The format normaliser *)

(** C4. When the conversion fails (ffmpeg absent, a non-zero exit, a timeout
    or another exception), [convert_to_mp3_with_ffmpeg] returns [False] and
    leaves no file at the target path that was not there before the call; if
    ffmpeg was run, no file at all is left at the target path; if ffmpeg is
    absent, the conversion is never started and the disk is left as it was,
    so no target file is created. *)
Theorem convert_failure_leaves_no_target
    (e : Ffmpeg.env) (source_path target_path : Py.str) (t : Fs.fs) :
  Ffmpeg.normalization_fails e source_path target_path t ->
  let r := Ffmpeg.convert_to_mp3_with_ffmpeg e source_path target_path t in
  Eff.result r = false
  /\ (Fs.isfile target_path t = false -> Fs.isfile target_path (Eff.final_fs r) = false)
  /\ (Ffmpeg.ffmpeg_exists_value e = true -> Fs.isfile target_path (Eff.final_fs r) = false)
  /\ (Ffmpeg.ffmpeg_exists_value e = false ->
      Eff.final_fs r = t
      /\ ~ In (Eff.FfmpegTranscode source_path target_path) (Eff.trace r)).
Proof.
  intros Hfail r. subst r.
  unfold Ffmpeg.convert_to_mp3_with_ffmpeg, Ffmpeg.ffmpeg_exists, Ffmpeg.leave.
  unfold_eff.
  destruct (Ffmpeg.ffmpeg_exists_value e) eqn:Hav; simpl.
  - destruct Hfail as [Habs | [[rc [w [Hrun Hrc]]] | [w Hrun]]]; [congruence| |];
      rewrite Hrun.
    + assert (Hz : (rc =? 0)%Z = false) by (apply Z.eqb_neq; exact Hrc).
      rewrite Hz. simpl.
      destruct w as [f|]; simpl;
        match goal with
        | |- context [Eff.remove_if_exists ?p ?u] =>
            pose proof (remove_if_exists_isfile p u) as Hrm;
            unfold Eff.final_fs in Hrm;
            destruct (Eff.remove_if_exists p u) as [[[] u'] ev]
        end; simpl in *; (split; [reflexivity|split; [auto|split; [auto|discriminate]]]).
    + destruct w as [f|]; simpl;
        match goal with
        | |- context [Eff.remove_if_exists ?p ?u] =>
            pose proof (remove_if_exists_isfile p u) as Hrm;
            unfold Eff.final_fs in Hrm;
            destruct (Eff.remove_if_exists p u) as [[[] u'] ev]
        end; simpl in *; (split; [reflexivity|split; [auto|split; [auto|discriminate]]]).
  - split; [reflexivity|split; [auto|split; [discriminate|]]].
    intros _. split; [reflexivity|].
    intros [H|[H|[H|[]]]]; discriminate.
Qed.

(** A run that exits with code 1 after writing half a file. *)
Lemma convert_failure_leaves_no_target_witness :
  let e := Ffmpeg.mkenv (Ffmpeg.ProbeExit 0 true)
             (fun _ _ _ => Ffmpeg.RunExit 1 (Some (Fs.mkfile true [xff] 5))) in
  let src := Py.codes "/tmp/dl_a.webm" in
  let tgt := Py.codes "/tmp/conv_1.mp3" in
  let t := [(src, Fs.mkfile true [x1a; x45] 4)] in
  let r := Ffmpeg.convert_to_mp3_with_ffmpeg e src tgt t in
  Eff.result r = false
  /\ (Fs.isfile tgt t = false -> Fs.isfile tgt (Eff.final_fs r) = false)
  /\ (Ffmpeg.ffmpeg_exists_value e = true -> Fs.isfile tgt (Eff.final_fs r) = false)
  /\ (Ffmpeg.ffmpeg_exists_value e = false ->
      Eff.final_fs r = t /\ ~ In (Eff.FfmpegTranscode src tgt) (Eff.trace r)).
Proof.
  intros e src tgt t.
  apply (convert_failure_leaves_no_target e src tgt t).
  right; left. exists 1%Z, (Some (Fs.mkfile true [xff] 5)).
  split; [reflexivity|discriminate].
Defined.

(** C5, as the code has it: a conversion that returns [True] was run by an
    ffmpeg that exited with code 0, and the target path exists.  The size of
    the target is not looked at. *)
Theorem convert_success_target_exists
    (e : Ffmpeg.env) (source_path target_path : Py.str) (t : Fs.fs) :
  let r := Ffmpeg.convert_to_mp3_with_ffmpeg e source_path target_path t in
  Eff.result r = true ->
  Fs.exists_ target_path (Eff.final_fs r) = true
  /\ Ffmpeg.ffmpeg_exists_value e = true
  /\ exists written, Ffmpeg.run e source_path target_path t = Ffmpeg.RunExit 0 written.
Proof.
  intros r. subst r.
  unfold Ffmpeg.convert_to_mp3_with_ffmpeg, Ffmpeg.ffmpeg_exists, Ffmpeg.leave.
  unfold_eff.
  destruct (Ffmpeg.ffmpeg_exists_value e) eqn:Hav; simpl; [|discriminate].
  destruct (Ffmpeg.run e source_path target_path t) as [rc w|w] eqn:Hrun.
  - destruct w as [f|]; simpl.
    + destruct ((rc =? 0)%Z && Fs.exists_ target_path (Fs.write target_path f t)) eqn:Hok;
        simpl.
      * apply andb_true_iff in Hok. destruct Hok as [Hrc Hex].
        apply Z.eqb_eq in Hrc. subst rc. intros _. repeat split; eauto.
      * destruct (Eff.remove_if_exists target_path (Fs.write target_path f t))
          as [[[] u'] ev]. simpl. discriminate.
    + destruct ((rc =? 0)%Z && Fs.exists_ target_path t) eqn:Hok; simpl.
      * apply andb_true_iff in Hok. destruct Hok as [Hrc Hex].
        apply Z.eqb_eq in Hrc. subst rc. intros _. repeat split; eauto.
      * destruct (Eff.remove_if_exists target_path t) as [[[] u'] ev]. simpl. discriminate.
  - destruct w as [f|]; simpl;
      match goal with
      | |- context [Eff.remove_if_exists ?p ?u] =>
          destruct (Eff.remove_if_exists p u) as [[[] u'] ev]
      end; simpl; discriminate.
Qed.

Lemma convert_success_target_exists_witness :
  let src := Py.codes "/tmp/dl_a.webm" in
  let tgt := Py.codes "/tmp/conv_1.mp3" in
  let t := [(src, Fs.mkfile true [x1a; x45] 4)] in
  let r := Ffmpeg.convert_to_mp3_with_ffmpeg Examples.empty_output_env src tgt t in
  Fs.exists_ tgt (Eff.final_fs r) = true
  /\ Ffmpeg.ffmpeg_exists_value Examples.empty_output_env = true
  /\ exists written, Ffmpeg.run Examples.empty_output_env src tgt t = Ffmpeg.RunExit 0 written.
Proof.
  intros src tgt t.
  apply (convert_success_target_exists Examples.empty_output_env src tgt t).
  reflexivity.
Defined.

(** C5 as stated fails: with an ffmpeg that exits 0 on an empty output file,
    the conversion returns [True] and the target has size 0. *)
Lemma convert_success_with_empty_target :
  let src := Py.codes "/tmp/dl_a.webm" in
  let tgt := Py.codes "/tmp/conv_1.mp3" in
  let t := [(src, Fs.mkfile true [x1a; x45] 4)] in
  let r := Ffmpeg.convert_to_mp3_with_ffmpeg Examples.empty_output_env src tgt t in
  Eff.result r = true /\ Fs.getsize tgt (Eff.final_fs r) = Some 0%Z.
Proof. split; reflexivity. Qed.

(** ** Duration resolution *)

Section DurationFacts.
Import Py Media Duration.

(** The ranked chain: the first source that answers gives the result. *)
Lemma get_duration_ranked (e : env) (file_path : str) (md : option entry) :
  get_duration_best_effort e file_path md =
    match from_entry md, from_mutagen e file_path, from_sound e file_path with
    | Some d, _, _ => Some d
    | None, Some d, _ => Some d
    | None, None, Some d => Some d
    | None, None, None => from_size e file_path
    end.
Proof.
  unfold get_duration_best_effort.
  destruct (from_entry md), (from_mutagen e file_path), (from_sound e file_path);
    reflexivity.
Qed.

(** The playback source and the size estimate only answer with positive
    numbers. *)
Lemma from_sound_positive (e : env) (file_path : str) (d : Q) :
  from_sound e file_path = Some d -> 0 < d.
Proof.
  unfold from_sound, positive.
  destruct (SoundLoader_load e file_path) as [| | |len]; try discriminate.
  destruct (truthy len); simpl; [|discriminate].
  destruct (Qle_bool len 0) eqn:L; simpl; [discriminate|].
  intros H; injection H as <-.
  apply Qnot_le_lt. intros Hle. apply Qle_bool_iff in Hle. congruence.
Qed.

(** Scenario D: only the size is known, and it is 1,000,000 bytes. *)
Lemma size_estimate_one_megabyte (e : env) (file_path : str) (md : option entry) :
  from_entry md = None ->
  from_mutagen e file_path = None ->
  from_sound e file_path = None ->
  os_path_getsize e file_path = Some 1000000%Z ->
  exists d, get_duration_best_effort e file_path md = Some d /\ d == 62.5.
Proof.
  intros H1 H2 H3 H4.
  rewrite get_duration_ranked, H1, H2, H3.
  unfold from_size, estimate_duration_from_size_bytes. rewrite H4.
  eexists. split; [reflexivity|reflexivity].
Qed.

Lemma truthy_nonneg_positive (q : Q) : 0 <= q -> truthy q = positive q.
Proof.
  intros H. unfold truthy, positive. f_equal.
  destruct (Qeq_bool q 0) eqn:E, (Qle_bool q 0) eqn:L; try reflexivity.
  - apply Qeq_bool_iff in E. assert (Hle : q <= 0) by (rewrite E; apply Qle_refl).
    apply Qle_bool_iff in Hle. congruence.
  - apply Qle_bool_iff in L. assert (Hq : q == 0) by (apply Qle_antisym; assumption).
    apply Qeq_bool_iff in Hq. congruence.
Qed.

Lemma positive_truthy (q : Q) : positive q = true -> truthy q = true.
Proof.
  unfold truthy, positive. intros H. apply negb_true_iff in H. apply negb_true_iff.
  destruct (Qeq_bool q 0) eqn:E; [|reflexivity].
  apply Qeq_bool_iff in E. assert (Hle : q <= 0) by (rewrite E; apply Qle_refl).
  apply Qle_bool_iff in Hle. congruence.
Qed.

Lemma estimate_positive (e : env) (file_path : str) (d : Q) :
  estimate_duration_from_size_bytes e file_path 128 = Some d -> positive d = true.
Proof.
  unfold estimate_duration_from_size_bytes.
  destruct (os_path_getsize e file_path) as [size|]; [|discriminate].
  destruct (size <=? 0)%Z eqn:Hs; [discriminate|]. simpl.
  intros H; injection H as <-. apply Z.leb_gt in Hs.
  unfold positive. apply negb_true_iff.
  destruct (Qle_bool _ 0) eqn:L; [|reflexivity].
  apply Qle_bool_iff in L. unfold Qle in L. simpl in L. lia.
Qed.

(** Where no source yields a negative number, the code follows the rule in
    words: it returns the first positive number in rank order. *)
Lemma get_duration_first_positive (e : env) (file_path : str) (md : option entry) :
  (forall q, raw_entry md = Some q -> 0 <= q) ->
  (forall q, raw_mutagen e file_path = Some q -> 0 <= q) ->
  get_duration_best_effort e file_path md = first_positive (ranked_sources e file_path md).
Proof.
  intros H1 H2. rewrite get_duration_ranked.
  unfold ranked_sources, first_positive.
  assert (E1 : from_entry md = match raw_entry md with
                               | Some q => if positive q then Some q else None
                               | None => None
                               end).
  { unfold from_entry, raw_entry in *. destruct md as [m|]; [|reflexivity].
    destruct (e_duration m) as [|q|]; try reflexivity.
    rewrite (truthy_nonneg_positive q (H1 q eq_refl)). reflexivity. }
  assert (E2 : from_mutagen e file_path = match raw_mutagen e file_path with
                                          | Some q => if positive q then Some q else None
                                          | None => None
                                          end).
  { unfold from_mutagen, raw_mutagen in *. destruct (HAS_MUTAGEN e); [|reflexivity].
    destruct (mutagen_File e file_path) as [| |q]; try reflexivity.
    rewrite (truthy_nonneg_positive q (H2 q eq_refl)). reflexivity. }
  assert (E3 : from_sound e file_path = match raw_sound e file_path with
                                        | Some q => if positive q then Some q else None
                                        | None => None
                                        end).
  { unfold from_sound, raw_sound. destruct (SoundLoader_load e file_path) as [| | |q];
      try reflexivity.
    destruct (positive q) eqn:P; [rewrite (positive_truthy q P)|rewrite andb_false_r];
      reflexivity. }
  assert (E4 : from_size e file_path =
               match estimate_duration_from_size_bytes e file_path 128 with
               | Some q => if positive q then Some q else None
               | None => None
               end).
  { unfold from_size.
    destruct (estimate_duration_from_size_bytes e file_path 128) as [q|] eqn:E;
      [|reflexivity].
    pose proof (estimate_positive e file_path q E) as P.
    rewrite P, (positive_truthy q P). reflexivity. }
  rewrite E1, E2, E3, E4.
  destruct (raw_entry md) as [q1|]; [destruct (positive q1); [reflexivity|]|];
    (destruct (raw_mutagen e file_path) as [q2|];
       [destruct (positive q2); [reflexivity|]|]);
    (destruct (raw_sound e file_path) as [q3|];
       [destruct (positive q3); [reflexivity|]|]);
    destruct (estimate_duration_from_size_bytes e file_path 128) as [q4|];
    try destruct (positive q4); reflexivity.
Qed.

End DurationFacts.

(** C3, at the input where the code departs from it: the entry declares a
    duration of -5 and both mutagen and the sound loader report 200 s.  The
    first source that yields a positive number is mutagen, yet the declared
    value is returned: lines 260-261 test its truth value, not its sign. *)
Theorem negative_declared_duration_is_returned :
  Duration.get_duration_best_effort Examples.two_hundred_seconds
    (Py.codes "/cache/Song.m4a") (Some Examples.negative_duration_entry)
  = Some (-5)
  /\ Duration.from_mutagen Examples.two_hundred_seconds (Py.codes "/cache/Song.m4a")
     = Some 200.
Proof. split; reflexivity. Qed.

(** ** The playback clock *)

Section ClockFacts.
Import StreamPlayer.

Lemma positive_true (q : Q) : 0 < q -> Duration.positive q = true.
Proof.
  intros H. unfold Duration.positive.
  destruct (Qle_bool q 0) eqn:L; [|reflexivity].
  apply Qle_bool_iff in L. exfalso. apply (Qlt_not_le _ _ H L).
Qed.

Lemma elapsed_running (now : Q) (p : player) :
  pause_flag p = false ->
  elapsed now p = now - play_start_time p - total_paused_time p.
Proof. intros H. unfold elapsed. rewrite H. reflexivity. Qed.

End ClockFacts.

(** C1, as the code has it.  On a playing session, [pause()] at time [t1]
    followed by [resume()] at time [t2] leaves the elapsed time where it was
    at the pause, however long the pause lasted: a tick at any later time
    [t3] computes the elapsed time of the pause plus [t3 - t2].  The one
    exception is the branch taken when [seek] raises: there the start time is
    rewritten so that the elapsed time restarts from the position captured
    at the pause (the handle's [get_pos()], or the elapsed time when
    [get_pos()] raised). *)
Theorem pause_resume_elapsed
    (p : StreamPlayer.player) (h : StreamPlayer.handle) (t1 t2 t3 : Q) :
  StreamPlayer.playing_session p h ->
  0 < t1 ->
  let p1 := fst (StreamPlayer.pause t1 p) in
  let p2 := fst (StreamPlayer.resume t2 p1) in
  let captured := StreamPlayer.captured_position t1 p h in
  StreamPlayer.elapsed t3 p1 == StreamPlayer.elapsed t1 p
  /\ StreamPlayer.elapsed t3 p2 ==
       (if StreamPlayer.seek_fallback captured h then captured
        else StreamPlayer.elapsed t1 p) + (t3 - t2).
Proof.
  intros [Hs [Hst [Hpf Hlp]]] Ht1.
  rewrite !(elapsed_running t1 p Hpf).
  unfold StreamPlayer.pause. rewrite Hs, Hst. simpl.
  assert (Hz : Qeq_bool (StreamPlayer.last_pause_time p) 0 = true)
    by (apply Qeq_bool_iff; exact Hlp).
  rewrite Hz. simpl.
  split.
  { unfold StreamPlayer.elapsed. simpl. rewrite (positive_true t1 Ht1). reflexivity. }
  unfold StreamPlayer.resume. simpl.
  unfold StreamPlayer.account_pause. simpl. rewrite (positive_true t1 Ht1). simpl.
  assert (Hq : StreamPlayer.play_raises (StreamPlayer.stop_quiet h)
               = StreamPlayer.play_raises h
               /\ StreamPlayer.has_seek (StreamPlayer.stop_quiet h)
                  = StreamPlayer.has_seek h
               /\ StreamPlayer.seek_raises (StreamPlayer.stop_quiet h)
                  = StreamPlayer.seek_raises h)
    by (unfold StreamPlayer.stop_quiet; destruct (StreamPlayer.stop_raises h);
        repeat split; reflexivity).
  destruct Hq as [Hq1 [Hq2 Hq3]]. rewrite Hq1.
  unfold StreamPlayer.seek_fallback.
  destruct (StreamPlayer.play_raises h) eqn:Hpr; simpl.
  - unfold StreamPlayer.elapsed. simpl. ring.
  - unfold StreamPlayer.seek_or_adjust. simpl. rewrite Hq2, Hq3.
    destruct (Duration.truthy (StreamPlayer.captured_position t1 p h)); simpl.
    + destruct (StreamPlayer.has_seek h); simpl.
      * destruct (StreamPlayer.seek_raises h); simpl;
          unfold StreamPlayer.elapsed; simpl; ring.
      * unfold StreamPlayer.elapsed; simpl; ring.
    + unfold StreamPlayer.elapsed; simpl; ring.
Qed.

(** Scenario C: pause at 10 s, wait 5 s, resume; the tick at the moment of
    the resume computes 10 s. *)
Lemma pause_resume_elapsed_witness :
  let p := Examples.ten_seconds_in_steady in
  let p1 := fst (StreamPlayer.pause 110 p) in
  let p2 := fst (StreamPlayer.resume 115 p1) in
  let captured := StreamPlayer.captured_position 110 p Examples.steady_sound in
  StreamPlayer.elapsed 115 p1 == StreamPlayer.elapsed 110 p
  /\ StreamPlayer.elapsed 115 p2 ==
       (if StreamPlayer.seek_fallback captured Examples.steady_sound then captured
        else StreamPlayer.elapsed 110 p) + (115 - 115).
Proof.
  apply (pause_resume_elapsed Examples.ten_seconds_in_steady Examples.steady_sound
           110 115 115).
  - repeat split; reflexivity.
  - reflexivity.
Defined.

(** C1 as stated fails: the sound reports position 3 when 10 s have elapsed
    (as a backend does whose [play()] restarted the audio after an earlier
    pause) and its [seek] raises; after a 5 s pause the elapsed time is 3 s,
    seven seconds away from where it was. *)
Lemma pause_resume_elapsed_jumps :
  let p := Examples.ten_seconds_in in
  let p2 := fst (StreamPlayer.resume 115 (fst (StreamPlayer.pause 110 p))) in
  StreamPlayer.playing_session p Examples.drifting_sound
  /\ StreamPlayer.elapsed 110 p == 10
  /\ StreamPlayer.elapsed 115 p2 == 3.
Proof. repeat split; reflexivity. Qed.

(** ** cleanup_temp *)

Section CleanupFacts.
Import Py Fs Eff StreamPlayer.

Variable e : env.
Variable p : player.
Variable cf : str.
Hypothesis Hcf : truthy_path (current_file p) = Some cf.

Lemma is_current_spec (fp : str) :
  is_current e p fp = false -> os_path_abspath e fp <> os_path_abspath e cf.
Proof.
  unfold is_current. rewrite Hcf. intros H. apply str_eqb_neq. exact H.
Qed.

Lemma sweep_spares_current (paths : list str) (t : fs) :
  (forall fp, In (Removed fp) (trace (sweep e p paths t)) ->
              os_path_abspath e fp <> os_path_abspath e cf)
  /\ lookup cf (final_fs (sweep e p paths t)) = lookup cf t.
Proof.
  revert t. induction paths as [|fp rest IH]; intros t; simpl.
  - unfold_eff. simpl. split; [intros fp []|reflexivity].
  - unfold bind.
    destruct (is_current e p fp) eqn:Hc.
    + unfold ret. cbv beta iota.
      specialize (IH t). unfold trace, final_fs in *.
      destruct (sweep e p rest t) as [[[] t2] ev]. simpl in *. exact IH.
    + pose proof (is_current_spec fp Hc) as Hne.
      unfold remove_cached, remove_quiet.
      destruct (os_remove_raises e fp);
        [unfold ret; cbv beta iota;
         specialize (IH t); unfold trace, final_fs in *;
         destruct (sweep e p rest t) as [[[] t2] ev]; simpl in *; exact IH|].
      destruct (os_remove fp t) as [t1|] eqn:Hrm; cbv beta iota.
      * specialize (IH t1). unfold trace, final_fs in *.
        destruct (sweep e p rest t1) as [[[] t2] ev]. simpl in *.
        destruct IH as [IH1 IH2]. split.
        -- intros fp0 [H|H]; [injection H as <-; exact Hne|apply IH1, H].
        -- rewrite IH2. unfold os_remove in Hrm.
           destruct (lookup fp t) as [f|]; [|discriminate].
           destruct (f_isfile f); [|discriminate].
           injection Hrm as <-. apply lookup_drop_other.
           intros ->. apply Hne. reflexivity.
      * specialize (IH t). unfold trace, final_fs in *.
        destruct (sweep e p rest t) as [[[] t2] ev]. simpl in *. exact IH.
Qed.

End CleanupFacts.

(** C9. [cleanup_temp] never deletes the file the session refers to: every
    path it removes has an absolute path different from that of
    [current_file], and the current file is on disk after the cleanup exactly
    as before it. *)
Theorem cleanup_temp_spares_current_file
    (e : StreamPlayer.env) (p : StreamPlayer.player) (cf : Py.str) (t : Fs.fs) :
  StreamPlayer.truthy_path (StreamPlayer.current_file p) = Some cf ->
  let r := StreamPlayer.cleanup_temp e p t in
  (forall fp, In (Eff.Removed fp) (Eff.trace r) ->
              StreamPlayer.os_path_abspath e fp <> StreamPlayer.os_path_abspath e cf)
  /\ Fs.lookup cf (Eff.final_fs r) = Fs.lookup cf t.
Proof.
  intros Hcf r. subst r. unfold StreamPlayer.cleanup_temp.
  unfold Eff.bind, Eff.gets.
  pose proof (sweep_spares_current e p cf Hcf
                (map (Py.join (StreamPlayer.temp_dir e))
                     (Fs.listdir (StreamPlayer.temp_dir e) t)) t) as H.
  unfold Eff.trace, Eff.final_fs in *.
  destruct (StreamPlayer.sweep e p _ t) as [[[] t2] ev]. simpl in *. exact H.
Qed.

(** The stale file goes, the current one stays. *)
Lemma cleanup_temp_spares_current_file_witness :
  let e := Examples.cache_env in
  let p := Examples.ten_seconds_in in
  let cf := Py.codes "/cache/Song.m4a" in
  let r := StreamPlayer.cleanup_temp e p Examples.cache_files in
  (forall fp, In (Eff.Removed fp) (Eff.trace r) ->
              StreamPlayer.os_path_abspath e fp <> StreamPlayer.os_path_abspath e cf)
  /\ Fs.lookup cf (Eff.final_fs r) = Fs.lookup cf Examples.cache_files.
Proof.
  apply (cleanup_temp_spares_current_file Examples.cache_env Examples.ten_seconds_in
           (Py.codes "/cache/Song.m4a") Examples.cache_files).
  reflexivity.
Defined.

Example cleanup_temp_runs :
  Eff.trace (StreamPlayer.cleanup_temp Examples.cache_env Examples.ten_seconds_in
               Examples.cache_files)
  = [Eff.Removed (Py.codes "/cache/Old.webm")].
Proof. reflexivity. Qed.

(** ** Locating the downloaded file *)

Section SelectionFacts.
Import Py Fs DownloadManager.

Variable key : str -> Q.

Lemma insert_newest_In (x y : str) (l : list str) :
  In y (insert_newest key x l) <-> y = x \/ In y l.
Proof.
  induction l as [|z l IH]; simpl.
  - intuition.
  - destruct (Qle_bool (key z) (key x)); simpl; [intuition|].
    rewrite IH. intuition.
Qed.

Lemma sorted_reverse_In (y : str) (l : list str) :
  In y (sorted_reverse key l) <-> In y l.
Proof.
  induction l as [|x l IH]; simpl; [reflexivity|].
  rewrite insert_newest_In, IH. intuition.
Qed.

Lemma insert_newest_sorted (x : str) (l : list str) :
  StronglySorted (newest_first key) l -> StronglySorted (newest_first key) (insert_newest key x l).
Proof.
  induction 1 as [|z l Hs IH Hz]; simpl.
  - constructor; constructor.
  - destruct (Qle_bool (key z) (key x)) eqn:L.
    + apply Qle_bool_iff in L. constructor; [constructor; assumption|].
      constructor; [exact L|].
      eapply Forall_impl; [|exact Hz]. intros a Ha. unfold newest_first in *.
      eapply Qle_trans; eassumption.
    + constructor; [exact IH|].
      apply Forall_forall. intros a Ha. apply insert_newest_In in Ha.
      destruct Ha as [->|Ha].
      * unfold newest_first. apply Qlt_le_weak, Qnot_le_lt.
        intros Hle. apply Qle_bool_iff in Hle. congruence.
      * rewrite Forall_forall in Hz. apply Hz, Ha.
Qed.

Lemma sorted_reverse_sorted (l : list str) :
  StronglySorted (newest_first key) (sorted_reverse key l).
Proof.
  induction l as [|x l IH]; simpl; [constructor|].
  apply insert_newest_sorted, IH.
Qed.

Variable t : fs.

Lemma first_with_content_newest (l : list str) (p : str) :
  StronglySorted (newest_first key) l ->
  first_with_content t l = Some p ->
  In p l /\ has_content t p = true
  /\ forall q, In q l -> has_content t q = true -> key q <= key p.
Proof.
  induction 1 as [|x l Hs IH Hx]; simpl; [discriminate|].
  destruct (has_content t x) eqn:Hc.
  - intros H; injection H as <-. repeat split; auto.
    intros q [<-|Hq] _; [apply Qle_refl|].
    rewrite Forall_forall in Hx. apply Hx, Hq.
  - intros H. destruct (IH H) as [Hin [Hp Hmax]]. repeat split; auto.
    intros q [<-|Hq] Hq'; [congruence|]. apply Hmax; assumption.
Qed.

Lemma first_with_content_none (l : list str) :
  first_with_content t l = None -> forall q, In q l -> has_content t q = false.
Proof.
  induction l as [|x l IH]; simpl; [intros _ q []|].
  destruct (has_content t x) eqn:Hc; [discriminate|].
  intros H q [<-|Hq]; [exact Hc|apply IH; assumption].
Qed.

End SelectionFacts.

Section StreamSelectionFacts.
Import Py Fs Format StreamPlayer.

Variables (d safe_title : str) (t : fs).

Lemma scan_names_spec (names : list str) (acc : option str) :
  scan_names d safe_title t names acc =
    match find (path_is_mp3 d) (filter (qualifies d safe_title t) names) with
    | Some f => Some (join d f)
    | None => match last_error (filter (qualifies d safe_title t) names) with
              | Some f => Some (join d f)
              | None => acc
              end
    end.
Proof.
  revert acc. induction names as [|f rest IH]; intros acc; [reflexivity|].
  cbn [scan_names filter].
  destruct (qualifies d safe_title t f) eqn:Hq; unfold qualifies in Hq.
  - apply andb_true_iff in Hq. destruct Hq as [Hq Hcont].
    apply andb_true_iff in Hq. destruct Hq as [Hprog Hstart].
    apply negb_true_iff in Hprog. rewrite Hprog, Hstart, Hcont.
    cbn [find last_error]. fold (path_is_mp3 d f).
    destruct (path_is_mp3 d f); [reflexivity|].
    rewrite IH.
    destruct (find (path_is_mp3 d) (filter (qualifies d safe_title t) rest));
      [reflexivity|].
    destruct (last_error (filter (qualifies d safe_title t) rest)); reflexivity.
  - destruct (in_progress f); simpl in Hq; [apply IH|].
    destruct (startswith f safe_title); simpl in Hq; [|apply IH].
    rewrite Hq. apply IH.
Qed.

Lemma find_stream_file_spec :
  find_stream_file d safe_title t = first_mp3_else_last d safe_title t.
Proof.
  unfold find_stream_file, first_mp3_else_last. rewrite scan_names_spec.
  destruct (find (path_is_mp3 d) _); [reflexivity|].
  destruct (last_error _); reflexivity.
Qed.

Lemma last_error_In (A : Type) (l : list A) (x : A) : last_error l = Some x -> In x l.
Proof.
  induction l as [|y l IH]; simpl; [discriminate|].
  destruct (last_error l) as [z|].
  - intros H. right. apply IH. exact H.
  - intros H; injection H as <-. left; reflexivity.
Qed.

(** What the stream driver takes is a regular file with content. *)
Lemma find_stream_file_content (p : str) :
  find_stream_file d safe_title t = Some p -> is_file_with_content t p = true.
Proof.
  rewrite find_stream_file_spec. unfold first_mp3_else_last.
  set (qs := filter (qualifies d safe_title t) (listdir d t)).
  assert (Hq : forall f, In f qs -> is_file_with_content t (join d f) = true).
  { intros f Hf. apply filter_In in Hf. destruct Hf as [_ Hf].
    unfold qualifies in Hf. apply andb_true_iff in Hf. apply Hf. }
  destruct (find (path_is_mp3 d) qs) as [f|] eqn:Hfind.
  - intros H; injection H as <-. apply Hq. apply find_some in Hfind. apply Hfind.
  - destruct (last_error qs) as [f|] eqn:Hl; simpl; [|discriminate].
    intros H; injection H as <-. apply Hq. apply last_error_In. exact Hl.
Qed.

End StreamSelectionFacts.

(** What the batch driver takes. *)
Lemma find_downloaded_spec (d : Py.str) (t : Fs.fs) :
  match DownloadManager.find_downloaded d t with
  | Some p =>
      exists f, p = Py.join d f
        /\ In f (Fs.listdir d t)
        /\ DownloadManager.is_candidate d t f = true
        /\ DownloadManager.has_content t p = true
        /\ forall f', In f' (Fs.listdir d t) ->
              DownloadManager.is_candidate d t f' = true ->
              DownloadManager.has_content t (Py.join d f') = true ->
              DownloadManager.mtime_key t (Py.join d f') <= DownloadManager.mtime_key t p
  | None =>
      forall f, In f (Fs.listdir d t) ->
        DownloadManager.is_candidate d t f = true ->
        DownloadManager.has_content t (Py.join d f) = false
  end.
Proof.
  unfold DownloadManager.find_downloaded.
  assert (Hc : forall f, In f (Fs.listdir d t) ->
                 DownloadManager.is_candidate d t f = true ->
                 In (Py.join d f) (DownloadManager.candidates d t)).
  { intros f Hf Hcand. unfold DownloadManager.candidates.
    apply in_map, filter_In. split; assumption. }
  destruct (DownloadManager.first_with_content t _) as [p|] eqn:Hfind.
  - apply (first_with_content_newest (DownloadManager.mtime_key t)) in Hfind;
      [|apply sorted_reverse_sorted].
    destruct Hfind as [Hin [Hp Hmax]].
    apply sorted_reverse_In in Hin. unfold DownloadManager.candidates in Hin.
    apply in_map_iff in Hin. destruct Hin as [f [<- Hf]].
    apply filter_In in Hf. destruct Hf as [Hf Hcand].
    exists f. repeat split; auto.
    intros f' Hf' Hcand' Hcont'. apply Hmax; [|exact Hcont'].
    apply sorted_reverse_In, Hc; assumption.
  - intros f Hf Hcand.
    apply (first_with_content_none _ _ Hfind).
    apply sorted_reverse_In, Hc; assumption.
Qed.

(** C6, as the code has it.  Both drivers scan the temporary directory and
    pass over names ending in .ytdl or .part and files without content.  The
    batch driver takes, among the regular files named dl_..., the most
    recently modified one with content.  The stream driver takes, among the
    files whose name starts with the sanitised title, the first whose path
    ends in .mp3, or else the last one in listing order: it never looks at
    modification times. *)
Theorem download_selection :
  (forall (d : Py.str) (t : Fs.fs),
      match DownloadManager.find_downloaded d t with
      | Some p =>
          exists f, p = Py.join d f
            /\ In f (Fs.listdir d t)
            /\ DownloadManager.is_candidate d t f = true
            /\ DownloadManager.has_content t p = true
            /\ forall f', In f' (Fs.listdir d t) ->
                  DownloadManager.is_candidate d t f' = true ->
                  DownloadManager.has_content t (Py.join d f') = true ->
                  DownloadManager.mtime_key t (Py.join d f') <= DownloadManager.mtime_key t p
      | None =>
          forall f, In f (Fs.listdir d t) ->
            DownloadManager.is_candidate d t f = true ->
            DownloadManager.has_content t (Py.join d f) = false
      end)
  /\ (forall (d safe_title : Py.str) (t : Fs.fs),
        StreamPlayer.find_stream_file d safe_title t
        = StreamPlayer.first_mp3_else_last d safe_title t).
Proof.
  split; [apply find_downloaded_spec|intros; apply find_stream_file_spec].
Qed.

(** C6 as stated fails: in a directory with an older converted MP3 and a
    newer download, the batch driver takes the newer file and the stream
    driver the older one. *)
Lemma download_selection_differs :
  let d := Py.codes "/tmp" in
  let t := Examples.two_downloads in
  DownloadManager.find_downloaded d t = Some (Py.codes "/tmp/dl_a.webm")
  /\ StreamPlayer.find_stream_file d (Py.codes "dl_a") t = Some (Py.codes "/tmp/dl_a_conv.mp3")
  /\ Fs.getmtime (Py.codes "/tmp/dl_a_conv.mp3") t = Some 5
  /\ Fs.getmtime (Py.codes "/tmp/dl_a.webm") t = Some 9.
Proof. repeat split; reflexivity. Qed.

(** ** A download that is already an MP3 *)

Section Mp3Facts.
Import Py Fs Eff Format.











End Mp3Facts.


(** ** The cleanup of the batch driver *)

Section BatchCleanupFacts.
Import Py Fs Eff DownloadManager.

Lemma remove_each_keeps_gone (paths : list str) (q : str) (t : fs) :
  isfile q t = false -> isfile q (final_fs (remove_each paths t)) = false.
Proof.
  revert t. induction paths as [|p rest IH]; intros t H; simpl; [exact H|].
  rewrite bind_final_fs. apply IH, remove_quiet_keeps_gone, H.
Qed.

Lemma remove_each_isfile (paths : list str) (p : str) (t : fs) :
  In p paths -> isfile p (final_fs (remove_each paths t)) = false.
Proof.
  revert t. induction paths as [|q rest IH]; intros t Hin; [destruct Hin|].
  simpl. rewrite bind_final_fs. destruct Hin as [->|Hin].
  - apply remove_each_keeps_gone, remove_quiet_isfile.
  - apply IH, Hin.
Qed.

Lemma remove_each_incl (paths : list str) (t : fs) :
  incl (final_fs (remove_each paths t)) t.
Proof.
  revert t. induction paths as [|q rest IH]; intros t; simpl; [apply incl_refl|].
  rewrite bind_final_fs. eapply incl_tran; [apply IH|apply remove_quiet_incl].
Qed.

(** After the cleanup loop no regular file is left in the temporary
    directory. *)
Lemma cleanup_temp_files_purges (e : env) (t : fs) (n : str) :
  In n (listdir (temp_dir e) (final_fs (cleanup_temp_files e t))) ->
  isfile (join (temp_dir e) n) (final_fs (cleanup_temp_files e t)) = false.
Proof.
  unfold cleanup_temp_files. rewrite bind_final_fs.
  change (final_fs (gets (listdir (temp_dir e)) t)) with t.
  change (result (gets (listdir (temp_dir e)) t)) with (listdir (temp_dir e) t).
  intros Hn. apply remove_each_isfile, in_map.
  eapply listdir_incl; [apply remove_each_incl|exact Hn].
Qed.

(** Once the fetch has returned, the run ends with the cleanup, whatever
    happens to the entries and whenever the stop flag is set. *)
Lemma download_audio_purges_after_fetch
    (e : env) (url : str) (t t1 : fs) (info : info_value) (n : str) :
  HAS_YTDLP e = true ->
  extract_info e url t = FetchInfo info t1 ->
  let t' := final_fs (_download_audio e url t) in
  In n (listdir (temp_dir e) t') -> isfile (join (temp_dir e) n) t' = false.
Proof.
  intros Hy Hf t'. subst t'. unfold _download_audio.
  rewrite Hy. simpl negb. cbv iota.
  rewrite bind_final_fs, bind_final_fs.
  change (result (gets (extract_info e url) (final_fs (log "Download request" t))))
    with (extract_info e url t).
  rewrite Hf.
  rewrite !bind_final_fs.
  apply cleanup_temp_files_purges.
Qed.

End BatchCleanupFacts.

(** C7, at the input where the code departs from it: the fetch raises after
    writing a partial download.  The [except] branch of lines 510-513
    returns, the cleanup loop of lines 659-667 is never reached, and the
    partial file is still in the temporary directory when the run ends. *)
Theorem fetch_failure_skips_cleanup :
  let e := Examples.batch_env Examples.partial_download None in
  let r := DownloadManager._download_audio e (Py.codes "https://example.org/list") [] in
  Eff.final_fs r = Examples.partial_download
  /\ Fs.listdir (DownloadManager.temp_dir e) (Eff.final_fs r) = [Py.codes "dl_1.webm.part"]
  /\ Fs.isfile (Py.codes "/tmp/dl_1.webm.part") (Eff.final_fs r) = true
  /\ Eff.trace r = [Eff.Log (Py.codes "Download request");
                    Eff.Log (Py.codes "yt_dlp download error")].
Proof. repeat split; reflexivity. Qed.

(** ** The queue during a streaming run *)

Section StreamRunFacts.
Import Py Fs Media Eff StreamPlayer.

Variable e : env.













End StreamRunFacts.



(** ** Runs on concrete inputs *)



(** The batch run on a single MP3 download: the file ends up in the
    library, tagged, and the temporary directory is empty. *)
Example batch_run_saves_mp3 :
  let e := Examples.batch_env Examples.mp3_download
             (Some (DownloadManager.InfoSingle Examples.song)) in
  let r := DownloadManager._download_audio e (Py.codes "https://example.org/watch?v=1") [] in
  Eff.final_fs r
  = [(Py.codes "/music/Band - Song.mp3",
      Fs.mkfile true [x49; x44; x33; x03; x00; x54; x49; x54; x32] 11)]
  /\ Eff.trace r = [Eff.Log (Py.codes "Download request");
                    Eff.Log (Py.codes "Found item(s) to process.");
                    Eff.Log (Py.codes "Found downloaded file");
                    Eff.Log (Py.codes "Saved MP3");
                    Eff.EmbedMetadata (Py.codes "/music/Band - Song.mp3");
                    Eff.Log (Py.codes "embed_metadata: Starting");
                    Eff.Log (Py.codes "Metadata and cover art saved to MP3")].
Proof. split; reflexivity. Qed.

(** Scenario D on a concrete environment. *)
Example one_megabyte_estimate :
  Duration.estimate_duration_from_size_bytes
    (Duration.mkenv false (fun _ => Duration.MutNothing) (fun _ => Duration.SndNone)
       (fun _ => Some 1000000%Z))
    (Py.codes "/cache/Song.m4a") 128
  = Some (8000000 # 128000).
Proof. reflexivity. Qed.

Example is_real_mp3_reads_the_header :
  Format.header_is_mp3 [x49; x44; x33; x04] = true
  /\ Format.header_is_mp3 [xff; xfb; x90; x00] = true
  /\ Format.header_is_mp3 [xff] = false
  /\ Format.header_is_mp3 [x1a; x45; xdf; xa3] = false.
Proof. repeat split; reflexivity. Qed.

(** * Further properties of the code *)

(** ** Files that an operation leaves alone *)

Section UntouchedFacts.
Import Py Fs Eff.

Lemma lookup_app_miss (q : str) (t u : fs) :
  lookup q t = None -> lookup q (t ++ u) = lookup q u.
Proof.
  induction t as [|[k f] t IH]; simpl; [reflexivity|].
  destruct (str_eqb k q); [discriminate|exact IH].
Qed.

Lemma lookup_app_hit (q : str) (t u : fs) (f : file) :
  lookup q t = Some f -> lookup q (t ++ u) = Some f.
Proof.
  induction t as [|[k g] t IH]; simpl; [discriminate|].
  destruct (str_eqb k q); [auto|exact IH].
Qed.

Lemma lookup_write_other (p q : str) (f : file) (t : fs) :
  p <> q -> lookup q (write p f t) = lookup q t.
Proof.
  intros Hpq. apply str_eqb_neq in Hpq. unfold write.
  destruct (exists_ p t).
  - induction t as [|[k g] t IH]; simpl; [reflexivity|].
    destruct (str_eqb k p) eqn:E; simpl.
    + apply str_eqb_eq in E. subst k. rewrite Hpq. exact IH.
    + destruct (str_eqb k q); [reflexivity|exact IH].
  - destruct (lookup q t) as [g|] eqn:L.
    + apply lookup_app_hit, L.
    + rewrite (lookup_app_miss q t _ L). simpl. rewrite Hpq. reflexivity.
Qed.

Lemma remove_quiet_lookup_other (p q : str) (t : fs) :
  p <> q -> lookup q (final_fs (remove_quiet p t)) = lookup q t.
Proof.
  intros Hpq. unfold remove_quiet, os_remove, final_fs.
  destruct (lookup p t) as [f|]; simpl; [|reflexivity].
  destruct (f_isfile f); simpl; [|reflexivity].
  apply lookup_drop_other, Hpq.
Qed.

Lemma remove_if_exists_lookup_other (p q : str) (t : fs) :
  p <> q -> lookup q (final_fs (remove_if_exists p t)) = lookup q t.
Proof.
  intros Hpq. unfold remove_if_exists.
  destruct (exists_ p t); [apply remove_quiet_lookup_other, Hpq|reflexivity].
Qed.

Lemma keeps_ret (q : str) (A : Type) (a : A) : Frame.keeps q (ret a).
Proof. intros t. reflexivity. Qed.

Lemma keeps_emit (q : str) (ev : event) : Frame.keeps q (emit ev).
Proof. intros t. reflexivity. Qed.

Lemma keeps_log (q : str) (msg : string) : Frame.keeps q (log msg).
Proof. intros t. reflexivity. Qed.

Lemma keeps_gets (q : str) (A : Type) (f : fs -> A) : Frame.keeps q (gets f).
Proof. intros t. reflexivity. Qed.

Lemma keeps_bind (q : str) (A B : Type) (m : M A) (k : A -> M B) :
  Frame.keeps q m -> (forall a, Frame.keeps q (k a)) -> Frame.keeps q (bind m k).
Proof.
  intros Hm Hk t. rewrite bind_final_fs, Hk. apply Hm.
Qed.

Lemma keeps_remove_quiet (p q : str) : p <> q -> Frame.keeps q (remove_quiet p).
Proof. intros H t. apply remove_quiet_lookup_other, H. Qed.

Lemma keeps_remove_if_exists (p q : str) : p <> q -> Frame.keeps q (remove_if_exists p).
Proof. intros H t. apply remove_if_exists_lookup_other, H. Qed.

Lemma keeps_leave (p q : str) (w : option file) : p <> q -> Frame.keeps q (Ffmpeg.leave p w).
Proof.
  intros H t. unfold Ffmpeg.leave, final_fs.
  destruct w as [f|]; simpl; [apply lookup_write_other, H|reflexivity].
Qed.

Lemma keeps_ffmpeg_exists (q : str) (e : Ffmpeg.env) : Frame.keeps q (Ffmpeg.ffmpeg_exists e).
Proof. intros t. reflexivity. Qed.

Lemma keeps_convert (e : Ffmpeg.env) (src tgt q : str) :
  tgt <> q -> Frame.keeps q (Ffmpeg.convert_to_mp3_with_ffmpeg e src tgt).
Proof.
  intros Hq. unfold Ffmpeg.convert_to_mp3_with_ffmpeg.
  apply keeps_bind; [apply keeps_log|intros _].
  apply keeps_bind; [apply keeps_ffmpeg_exists|intros available].
  destruct available; simpl negb; cbv iota.
  - apply keeps_bind; [apply keeps_emit|intros _].
    apply keeps_bind; [apply keeps_gets|intros outcome].
    destruct outcome as [rc w|w].
    + apply keeps_bind; [apply keeps_leave, Hq|intros _].
      apply keeps_bind; [apply keeps_gets|intros there].
      destruct ((rc =? 0)%Z && there).
      * apply keeps_bind; [apply keeps_log|intros _; apply keeps_ret].
      * apply keeps_bind; [apply keeps_log|intros _].
        apply keeps_bind; [apply keeps_remove_if_exists, Hq|intros _; apply keeps_ret].
    + apply keeps_bind; [apply keeps_leave, Hq|intros _].
      apply keeps_bind; [apply keeps_log|intros _].
      apply keeps_bind; [apply keeps_remove_if_exists, Hq|intros _; apply keeps_ret].
  - apply keeps_bind; [apply keeps_log|intros _; apply keeps_ret].
Qed.

Lemma Forall_trace_bind (P : event -> Prop) (A B : Type) (m : M A) (k : A -> M B) (t : fs) :
  Forall P (trace (m t)) ->
  (forall a u, Forall P (trace (k a u))) ->
  Forall P (trace (bind m k t)).
Proof.
  intros Hm Hk. rewrite bind_trace. apply Forall_app. split; [exact Hm|apply Hk].
Qed.

Lemma remove_if_exists_events (P : event -> Prop) (p : str) (t : fs) :
  P (Removed p) -> Forall P (trace (remove_if_exists p t)).
Proof.
  intros HP. unfold remove_if_exists, remove_quiet.
  destruct (exists_ p t); [|constructor].
  destruct (os_remove p t); repeat constructor. exact HP.
Qed.

Lemma convert_events (e : Ffmpeg.env) (src tgt : str) (t : fs) :
  Forall (Frame.conversion_event src tgt)
    (trace (Ffmpeg.convert_to_mp3_with_ffmpeg e src tgt t)).
Proof.
  assert (Hlog : forall msg u, Forall (Frame.conversion_event src tgt) (trace (log msg u))).
  { intros msg u. repeat constructor. }
  assert (Hret : forall (b : bool) u,
            Forall (Frame.conversion_event src tgt) (trace (ret b u))).
  { intros b u. constructor. }
  assert (Hrm : forall u, Forall (Frame.conversion_event src tgt)
                            (trace (remove_if_exists tgt u))).
  { intros u. apply remove_if_exists_events. reflexivity. }
  unfold Ffmpeg.convert_to_mp3_with_ffmpeg.
  apply Forall_trace_bind; [apply Hlog|intros _ u].
  apply Forall_trace_bind; [repeat constructor|intros available u1].
  destruct available; cbn [negb].
  - apply Forall_trace_bind; [repeat constructor|intros _ u2].
    apply Forall_trace_bind; [constructor|intros outcome u3].
    destruct outcome as [rc w|w].
    + apply Forall_trace_bind; [destruct w; constructor|intros _ u4].
      apply Forall_trace_bind; [constructor|intros there u5].
      destruct ((rc =? 0)%Z && there).
      * apply Forall_trace_bind; [apply Hlog|intros _ u6; apply Hret].
      * apply Forall_trace_bind; [apply Hlog|intros _ u6].
        apply Forall_trace_bind; [apply Hrm|intros _ u7; apply Hret].
    + apply Forall_trace_bind; [destruct w; constructor|intros _ u4].
      apply Forall_trace_bind; [apply Hlog|intros _ u5].
      apply Forall_trace_bind; [apply Hrm|intros _ u6; apply Hret].
  - apply Forall_trace_bind; [apply Hlog|intros _ u2; apply Hret].
Qed.

End UntouchedFacts.

(** X1. What a conversion does to the outside world, whether ffmpeg
    succeeds, fails, times out or is missing.  Of the media files it changes
    the target path only: every other path, the source file included, holds
    after the call what it held before.  Besides that it appends lines to the
    activity log, probes for ffmpeg, runs the transcoder from the source to
    the target, and deletes the target; it does nothing else.  The ffmpeg
    process itself is taken to write its output file and no other. *)
Theorem convert_touches_only_target
    (e : Ffmpeg.env) (source_path target_path : Py.str) (t : Fs.fs) :
  let r := Ffmpeg.convert_to_mp3_with_ffmpeg e source_path target_path t in
  (forall q, q <> target_path -> Fs.lookup q (Eff.final_fs r) = Fs.lookup q t)
  /\ Forall (Frame.conversion_event source_path target_path) (Eff.trace r).
Proof.
  split.
  - intros q H. apply keeps_convert. intros E. apply H. symmetry. exact E.
  - apply convert_events.
Qed.

Lemma convert_touches_only_target_witness :
  let src := Py.codes "/tmp/dl_a.webm" in
  let tgt := Py.codes "/tmp/conv_1.mp3" in
  let t := [(src, Fs.mkfile true [x1a; x45] 4)] in
  let r := Ffmpeg.convert_to_mp3_with_ffmpeg Examples.empty_output_env src tgt t in
  Fs.lookup src (Eff.final_fs r) = Fs.lookup src t
  /\ Forall (Frame.conversion_event src tgt) (Eff.trace r).
Proof.
  split.
  - apply (proj1 (convert_touches_only_target Examples.empty_output_env
                    (Py.codes "/tmp/dl_a.webm") (Py.codes "/tmp/conv_1.mp3")
                    [(Py.codes "/tmp/dl_a.webm", Fs.mkfile true [x1a; x45] 4)])).
    discriminate.
  - apply (proj2 (convert_touches_only_target Examples.empty_output_env
                    (Py.codes "/tmp/dl_a.webm") (Py.codes "/tmp/conv_1.mp3")
                    [(Py.codes "/tmp/dl_a.webm", Fs.mkfile true [x1a; x45] 4)])).
Defined.

(** ** The signature test and the duration resolver *)

Section HeaderFacts.
Import Py Fs Format.

Lemma byte_eqb_eq (a b : byte) : byte_eqb a b = true <-> a = b.
Proof.
  unfold byte_eqb. split; [apply Byte.byte_dec_bl|apply Byte.byte_dec_lb].
Qed.

Lemma bytes_startswith_spec (s p : list byte) :
  bytes_startswith s p = true <-> exists rest, s = p ++ rest.
Proof.
  revert s. induction p as [|y p IH]; intros s; simpl.
  - destruct s; simpl; (split; [intros _; eexists; reflexivity|reflexivity]).
  - destruct s as [|x s].
    + split; [discriminate|intros [r H]; discriminate].
    + simpl. rewrite andb_true_iff, byte_eqb_eq, IH. split.
      * intros [-> [r ->]]. exists r. reflexivity.
      * intros [r H]. injection H as -> ->. split; [reflexivity|exists r; reflexivity].
Qed.

Lemma bytes_eqb_eq (a b : list byte) : bytes_eqb a b = true <-> a = b.
Proof.
  revert b. induction a as [|x a IH]; intros [|y b]; simpl;
    try (split; [discriminate|discriminate]); [split; reflexivity|].
  rewrite andb_true_iff, byte_eqb_eq, IH. split.
  - intros [-> ->]; reflexivity.
  - intros H; injection H as -> ->. auto.
Qed.

Lemma header_is_mp3_spec (data : list byte) :
  header_is_mp3 (firstn 4 data) = true <->
  exists rest, data = x49 :: x44 :: x33 :: rest \/ data = xff :: xfb :: rest.
Proof.
  unfold header_is_mp3.
  destruct (firstn 4 data) as [|h0 hs] eqn:Hd.
  - destruct data; [|discriminate].
    split; [discriminate|intros [r [H|H]]; discriminate].
  - rewrite <- Hd. clear Hd h0 hs.
    rewrite orb_true_iff, bytes_startswith_spec, bytes_eqb_eq. unfold magic_id3, magic_frame.
    split.
    + intros [[r H]|H].
      * destruct data as [|a [|b [|c rest]]]; try discriminate.
        simpl in H. injection H as -> -> -> _. exists rest. left; reflexivity.
      * destruct data as [|a [|b rest]]; try discriminate.
        simpl in H. injection H as -> ->. exists rest. right; reflexivity.
    + intros [r [-> | ->]].
      * left. simpl. exists (firstn 1 r). reflexivity.
      * right. reflexivity.
Qed.

End HeaderFacts.

(** X2. [is_real_mp3] accepts a path exactly when it is a regular file whose
    content starts with the bytes "ID3" or with 0xff 0xfb: the answer depends
    on the content alone, never on the name, and a missing or unreadable
    file is not an MP3. *)
Theorem is_real_mp3_by_content (file_path : Py.str) (t : Fs.fs) :
  Format.is_real_mp3 file_path t = true <->
  exists f, Fs.lookup file_path t = Some f
    /\ Fs.f_isfile f = true
    /\ exists rest, Fs.f_data f = x49 :: x44 :: x33 :: rest
                    \/ Fs.f_data f = xff :: xfb :: rest.
Proof.
  unfold Format.is_real_mp3, Fs.read_head.
  destruct (Fs.lookup file_path t) as [f|].
  - destruct (Fs.f_isfile f) eqn:F.
    + rewrite header_is_mp3_spec. split.
      * intros H. exists f. auto.
      * intros [g [E [_ H]]]. injection E as <-. exact H.
    + split; [discriminate|]. intros [g [E [H _]]]. injection E as <-. congruence.
  - split; [discriminate|]. intros [g [E _]]. discriminate.
Qed.

Section MoreDurationFacts.
Import Py Media Duration.

Lemma truthy_nonzero (q : Q) : truthy q = true -> ~ q == 0.
Proof.
  unfold truthy. intros H E. apply Qeq_bool_iff in E. rewrite E in H. discriminate.
Qed.

Lemma from_entry_nonzero (md : option entry) (d : Q) : from_entry md = Some d -> ~ d == 0.
Proof.
  unfold from_entry. destruct md as [m|]; [|discriminate].
  destruct (e_duration m) as [|q|]; try discriminate.
  destruct (truthy q) eqn:T; [|discriminate].
  intros H; injection H as <-. apply truthy_nonzero, T.
Qed.

Lemma from_mutagen_nonzero (e : env) (p : str) (d : Q) :
  from_mutagen e p = Some d -> ~ d == 0.
Proof.
  unfold from_mutagen. destruct (HAS_MUTAGEN e); [|discriminate].
  destruct (mutagen_File e p) as [| |q]; try discriminate.
  destruct (truthy q) eqn:T; [|discriminate].
  intros H; injection H as <-. apply truthy_nonzero, T.
Qed.

Lemma from_size_positive (e : env) (p : str) (d : Q) : from_size e p = Some d -> 0 < d.
Proof.
  unfold from_size.
  destruct (estimate_duration_from_size_bytes e p 128) as [q|] eqn:E; [|discriminate].
  destruct (truthy q); [|discriminate]. intros H; injection H as <-.
  pose proof (estimate_positive e p q E) as P. unfold positive in P.
  apply negb_true_iff in P. apply Qnot_le_lt. intros L.
  apply Qle_bool_iff in L. congruence.
Qed.

Lemma from_size_total (e : env) (p : str) (n : Z) :
  os_path_getsize e p = Some n -> (0 < n)%Z -> exists d, from_size e p = Some d.
Proof.
  intros Hn Hpos. unfold from_size.
  destruct (estimate_duration_from_size_bytes e p 128) as [q|] eqn:E.
  - pose proof (estimate_positive e p q E) as P.
    rewrite (positive_truthy q P). eauto.
  - exfalso. unfold estimate_duration_from_size_bytes in E. rewrite Hn in E.
    destruct (n <=? 0)%Z eqn:L; [apply Z.leb_le in L; lia|]. discriminate.
Qed.

End MoreDurationFacts.

(** X3. The duration resolver never answers zero: whatever the entry,
    mutagen, the sound loader and the file size say, a duration it returns
    is a non-zero number (zero and missing values are passed over). *)
Theorem get_duration_never_zero
    (e : Duration.env) (file_path : Py.str) (md : option Media.entry) (d : Q) :
  Duration.get_duration_best_effort e file_path md = Some d -> ~ d == 0.
Proof.
  rewrite get_duration_ranked.
  destruct (Duration.from_entry md) as [d1|] eqn:E1.
  { intros H; injection H as <-. apply (from_entry_nonzero md d1 E1). }
  destruct (Duration.from_mutagen e file_path) as [d2|] eqn:E2.
  { intros H; injection H as <-. apply (from_mutagen_nonzero e file_path d2 E2). }
  destruct (Duration.from_sound e file_path) as [d3|] eqn:E3.
  { intros H; injection H as <-. intros Z0.
    pose proof (from_sound_positive e file_path d3 E3) as P. rewrite Z0 in P.
    apply (Qlt_irrefl 0 P). }
  intros H Z0. pose proof (from_size_positive e file_path d H) as P.
  rewrite Z0 in P. apply (Qlt_irrefl 0 P).
Qed.

Lemma get_duration_never_zero_witness :
  Duration.get_duration_best_effort Examples.two_hundred_seconds
    (Py.codes "/cache/Song.m4a") None = Some 200
  /\ ~ 200 == 0.
Proof.
  split; [reflexivity|].
  apply (get_duration_never_zero Examples.two_hundred_seconds
           (Py.codes "/cache/Song.m4a") None 200).
  reflexivity.
Defined.

(** X4. The resolver gives up only on a file whose size it cannot read or
    whose size is not positive: for a file of positive size it always
    returns a duration, even when the entry, mutagen and the sound loader
    all fail. *)
Theorem get_duration_known_for_nonempty_file
    (e : Duration.env) (file_path : Py.str) (md : option Media.entry) (n : Z) :
  Duration.os_path_getsize e file_path = Some n ->
  (0 < n)%Z ->
  exists d, Duration.get_duration_best_effort e file_path md = Some d.
Proof.
  intros Hn Hpos. rewrite get_duration_ranked.
  destruct (Duration.from_entry md); [eauto|].
  destruct (Duration.from_mutagen e file_path); [eauto|].
  destruct (Duration.from_sound e file_path); [eauto|].
  apply (from_size_total e file_path n Hn Hpos).
Qed.

Lemma get_duration_known_for_nonempty_file_witness :
  exists d, Duration.get_duration_best_effort Examples.silent_sources
              (Py.codes "/cache/Song.m4a") None = Some d.
Proof.
  apply (get_duration_known_for_nonempty_file Examples.silent_sources
           (Py.codes "/cache/Song.m4a") None 1000000%Z).
  - reflexivity.
  - reflexivity.
Defined.

(** ** Paths built from titles *)

Section PathFacts.
Import Py Fs.

Lemma strip_prefix_same (pre n : str) : strip_prefix pre (pre ++ n) = Some n.
Proof.
  induction pre as [|y pre IH]; simpl; [reflexivity|].
  rewrite N.eqb_refl. exact IH.
Qed.

Lemma child_name_of_join (d n : str) :
  n <> [] -> char_in slash n = false -> child_name d (join d n) = Some n.
Proof.
  intros Hn Hs. unfold child_name, join.
  change (codes "/") with [slash]. rewrite app_assoc, strip_prefix_same.
  destruct n as [|c n]; [contradiction Hn; reflexivity|].
  rewrite Hs. reflexivity.
Qed.

Lemma char_in_app (c : char) (a b : str) : char_in c (a ++ b) = char_in c a || char_in c b.
Proof. unfold char_in. apply existsb_app. Qed.

Lemma char_in_false (c : char) (l : str) :
  Forall (fun x => x <> c) l -> char_in c l = false.
Proof.
  induction 1 as [|x l Hx Hl IH]; simpl; [reflexivity|].
  rewrite IH, orb_false_r. apply N.eqb_neq. intros E. apply Hx. symmetry. exact E.
Qed.

Lemma sanitize_no_slash (isalnum : char -> bool) (name : str) :
  isalnum slash = false ->
  char_in slash (Sanitize.sanitize_filename isalnum name) = false.
Proof.
  intros H. apply char_in_false.
  eapply Forall_impl; [|apply sanitize_all_kept].
  intros c Hc E. subst c. unfold Sanitize.kept in Hc. rewrite H in Hc.
  discriminate.
Qed.

Lemma listed_child (d n : str) (t : fs) :
  In n (listdir d t) -> child_name d (join d n) = Some n.
Proof.
  intros H. apply listdir_In in H. destruct H as [p [f [_ Hc]]].
  rewrite <- (child_name_join d p n Hc). exact Hc.
Qed.

End PathFacts.

(** X5. Whatever strings the title and the uploader of an entry are, the
    path under which the batch driver saves its MP3 is a direct child of the
    library directory, and the path the stream driver converts to is a
    direct child of the cache directory: sanitising leaves no path separator
    in a name.  (It needs the slash not to count as alphanumeric, as in
    Python.) *)
Theorem saved_paths_stay_in_their_directory :
  (forall (e : DownloadManager.env) (title uploader : Py.str),
      DownloadManager.isalnum e Fs.slash = false ->
      Fs.child_name (DownloadManager.APP_DIR e)
        (DownloadManager.final_mp3_of e title uploader)
      = Some (DownloadManager.final_base_of e title uploader ++ Py.codes ".mp3"))
  /\ (forall (e : StreamPlayer.env) (item : Media.entry),
        StreamPlayer.isalnum e Fs.slash = false ->
        Fs.child_name (StreamPlayer.temp_dir e)
          (Py.join (StreamPlayer.temp_dir e)
                   (StreamPlayer.safe_title_of e item ++ Py.codes "_conv.mp3"))
        = Some (StreamPlayer.safe_title_of e item ++ Py.codes "_conv.mp3")).
Proof.
  split; [intros e title uploader H|intros e item H].
  - unfold DownloadManager.final_mp3_of. apply child_name_of_join.
    + intros E. apply app_eq_nil in E. destruct E as [_ E]. discriminate.
    + rewrite char_in_app. unfold DownloadManager.final_base_of.
      rewrite (sanitize_no_slash _ _ H). reflexivity.
  - apply child_name_of_join.
    + intros E. apply app_eq_nil in E. destruct E as [_ E]. discriminate.
    + rewrite char_in_app. unfold StreamPlayer.safe_title_of.
      rewrite (sanitize_no_slash _ _ H). reflexivity.
Qed.

Lemma saved_paths_stay_in_their_directory_witness :
  (let e := Examples.batch_env Examples.mp3_download None in
   Fs.child_name (DownloadManager.APP_DIR e)
     (DownloadManager.final_mp3_of e (Py.codes "../../etc/passwd") (Py.codes "../../evil"))
   = Some (DownloadManager.final_base_of e (Py.codes "../../etc/passwd")
             (Py.codes "../../evil") ++ Py.codes ".mp3"))
  /\ (let e := Examples.cache_env in
      Fs.child_name (StreamPlayer.temp_dir e)
        (Py.join (StreamPlayer.temp_dir e)
           (StreamPlayer.safe_title_of e Examples.traversal_entry ++ Py.codes "_conv.mp3"))
      = Some (StreamPlayer.safe_title_of e Examples.traversal_entry ++ Py.codes "_conv.mp3")).
Proof.
  split.
  - apply (proj1 saved_paths_stay_in_their_directory
             (Examples.batch_env Examples.mp3_download None)
             (Py.codes "../../etc/passwd") (Py.codes "../../evil")).
    reflexivity.
  - apply (proj2 saved_paths_stay_in_their_directory
             Examples.cache_env Examples.traversal_entry).
    reflexivity.
Defined.

Example traversal_title_is_defused :
  DownloadManager.uploader_of Examples.traversal_entry = Some (Py.codes "../../evil")
  /\ DownloadManager.final_mp3_of (Examples.batch_env Examples.mp3_download None)
       (DownloadManager.title_of Examples.traversal_entry) (Py.codes "../../evil")
     = Py.codes "/music/.._.._evil - .._.._etc_passwd.mp3".
Proof. split; reflexivity. Qed.

(** ** The batch driver after the signature test *)

Section BatchFallbackFacts.
Import Py Fs Media Eff Format DownloadManager.

Variable e : env.
Variable i : nat.

(** The temporary target of the conversion in iteration [i] (line 612). *)
Let temp_mp3 : str :=
  join (temp_dir e) (codes "conv_" ++ decimal (time_time e i) ++ codes ".mp3").

Lemma convert_fails_result (fe : Ffmpeg.env) (src tgt : str) (t : fs) :
  Ffmpeg.normalization_fails fe src tgt t ->
  result (Ffmpeg.convert_to_mp3_with_ffmpeg fe src tgt t) = false.
Proof.
  intros Hfail.
  unfold Ffmpeg.convert_to_mp3_with_ffmpeg, Ffmpeg.ffmpeg_exists, Ffmpeg.leave.
  unfold_eff.
  destruct (Ffmpeg.ffmpeg_exists_value fe) eqn:Hav; simpl; [|reflexivity].
  destruct Hfail as [Habs | [[rc [w [Hrun Hrc]]] | [w Hrun]]]; [congruence| |];
    rewrite Hrun.
  - apply Z.eqb_neq in Hrc. rewrite Hrc. simpl.
    destruct w as [f|]; simpl;
      match goal with
      | |- context [remove_if_exists ?p ?u] =>
          destruct (remove_if_exists p u) as [[[] u'] ev]
      end; reflexivity.
  - destruct w as [f|]; simpl;
      match goal with
      | |- context [remove_if_exists ?p ?u] =>
          destruct (remove_if_exists p u) as [[[] u'] ev]
      end; reflexivity.
Qed.



Lemma keeps_embed_metadata (p q : str) (md : entry) :
  p <> q -> Frame.keeps q (embed_metadata e p md).
Proof.
  intros Hne. unfold embed_metadata.
  apply keeps_bind; [apply keeps_emit|]. intros _.
  apply keeps_bind; [apply keeps_log|]. intros _.
  destruct (negb (HAS_MUTAGEN e)); [apply keeps_log|].
  apply keeps_bind; [apply keeps_gets|]. intros [f|]; [|apply keeps_log].
  apply keeps_bind; [apply keeps_gets|]. intros real.
  destruct (negb real); [apply keeps_log|].
  intros t. rewrite bind_gets.
  destruct (mutagen_save e p md f); rewrite bind_put;
    cbn [log emit final_fs fst snd]; apply lookup_write_other, Hne.
Qed.








End BatchFallbackFacts.



Example batch_fallback_runs :
  Eff.final_fs (DownloadManager.process_entry
                  (Examples.batch_env Examples.webm_download None) 0 Examples.song
                  Examples.webm_download)
  = [(Py.codes "/music/Band - Song.webm", Examples.webm_file)].
Proof. reflexivity. Qed.



Example batch_conversion_runs :
  Eff.final_fs (DownloadManager.process_entry
                  (Examples.batch_env_converting Examples.webm_download) 0 Examples.song
                  Examples.webm_download)
  = [(Py.codes "/music/Band - Song.mp3",
      Fs.mkfile true [x49; x44; x33; x03; x00; x54; x49; x54; x32] 11)].
Proof. reflexivity. Qed.

(** ** The cleanup loops *)

Section CleanupFrameFacts.
Import Py Fs Eff.

Lemma keeps_remove_each (q : str) (paths : list str) :
  (forall x, In x paths -> x <> q) -> Frame.keeps q (DownloadManager.remove_each paths).
Proof.
  induction paths as [|x rest IH]; intros H; simpl.
  - apply keeps_ret.
  - apply keeps_bind.
    + apply keeps_remove_quiet, H. left. reflexivity.
    + intros _. apply IH. intros y Hy. apply H. right. exact Hy.
Qed.

Lemma keeps_sweep (e : StreamPlayer.env) (p : StreamPlayer.player) (q : str)
    (paths : list str) :
  (forall x, In x paths -> x <> q) -> Frame.keeps q (StreamPlayer.sweep e p paths).
Proof.
  induction paths as [|x rest IH]; intros H; simpl.
  - apply keeps_ret.
  - apply keeps_bind.
    + destruct (StreamPlayer.is_current e p x); [apply keeps_ret|].
      unfold StreamPlayer.remove_cached.
      destruct (StreamPlayer.os_remove_raises e x); [apply keeps_ret|].
      apply keeps_remove_quiet, H. left. reflexivity.
    + intros _. apply IH. intros y Hy. apply H. right. exact Hy.
Qed.

Lemma listed_paths_are_children (d q : str) (t : fs) :
  child_name d q = None -> forall x, In x (map (join d) (listdir d t)) -> x <> q.
Proof.
  intros Hq x Hx. apply in_map_iff in Hx. destruct Hx as [n [<- Hn]].
  intros E. apply listed_child in Hn. rewrite E in Hn. congruence.
Qed.

Lemma sweep_keeps_gone (e : StreamPlayer.env) (p : StreamPlayer.player) (paths : list str)
    (q : str) (t : fs) :
  isfile q t = false -> isfile q (final_fs (StreamPlayer.sweep e p paths t)) = false.
Proof.
  revert t. induction paths as [|x rest IH]; intros t H; simpl; [exact H|].
  rewrite bind_final_fs. apply IH.
  destruct (StreamPlayer.is_current e p x); [exact H|].
  unfold StreamPlayer.remove_cached.
  destruct (StreamPlayer.os_remove_raises e x); [exact H|].
  apply remove_quiet_keeps_gone, H.
Qed.

Lemma sweep_isfile (e : StreamPlayer.env) (p : StreamPlayer.player) (paths : list str)
    (x : str) (t : fs) :
  In x paths -> StreamPlayer.is_current e p x = false ->
  StreamPlayer.os_remove_raises e x = false ->
  isfile x (final_fs (StreamPlayer.sweep e p paths t)) = false.
Proof.
  revert t. induction paths as [|y rest IH]; intros t Hin Hc Hr; [destruct Hin|].
  simpl. rewrite bind_final_fs. destruct Hin as [->|Hin].
  - rewrite Hc. unfold StreamPlayer.remove_cached. rewrite Hr.
    apply sweep_keeps_gone, remove_quiet_isfile.
  - apply IH; assumption.
Qed.

End CleanupFrameFacts.

(** X8. Neither cleanup loop reaches outside its directory: a path that is
    not a direct child of the temporary directory (a file of the library, a
    file in a sub-directory, the directory itself) is on disk after
    [cleanup_temp_files] and after [StreamPlayer.cleanup_temp] exactly as
    before. *)
Theorem cleanup_touches_only_direct_children :
  (forall (e : DownloadManager.env) (q : Py.str) (t : Fs.fs),
      Fs.child_name (DownloadManager.temp_dir e) q = None ->
      Fs.lookup q (Eff.final_fs (DownloadManager.cleanup_temp_files e t)) = Fs.lookup q t)
  /\ (forall (e : StreamPlayer.env) (p : StreamPlayer.player) (q : Py.str) (t : Fs.fs),
      Fs.child_name (StreamPlayer.temp_dir e) q = None ->
      Fs.lookup q (Eff.final_fs (StreamPlayer.cleanup_temp e p t)) = Fs.lookup q t).
Proof.
  split.
  - intros e q t Hq. unfold DownloadManager.cleanup_temp_files. rewrite bind_gets.
    apply keeps_remove_each. apply listed_paths_are_children, Hq.
  - intros e p q t Hq. unfold StreamPlayer.cleanup_temp. rewrite bind_gets.
    apply keeps_sweep. apply listed_paths_are_children, Hq.
Qed.

Lemma cleanup_touches_only_direct_children_witness :
  Fs.lookup (Py.codes "/music/Band - Song.mp3")
    (Eff.final_fs (DownloadManager.cleanup_temp_files
                     (Examples.batch_env [] None) Examples.library_and_temp))
  = Some (Examples.id3_file 3)
  /\ Fs.lookup (Py.codes "/cache/keep/Old.webm")
       (Eff.final_fs (StreamPlayer.cleanup_temp Examples.cache_env StreamPlayer.init
                        Examples.nested_cache))
     = Some Examples.webm_file.
Proof.
  split.
  - apply (proj1 cleanup_touches_only_direct_children
             (Examples.batch_env [] None) (Py.codes "/music/Band - Song.mp3")
             Examples.library_and_temp).
    reflexivity.
  - apply (proj2 cleanup_touches_only_direct_children
             Examples.cache_env StreamPlayer.init (Py.codes "/cache/keep/Old.webm")
             Examples.nested_cache).
    reflexivity.
Defined.

(** X9. [StreamPlayer.cleanup_temp], left to run undisturbed, empties the
    cache of everything it is able to delete but the current file: a name
    listed in the cache directory whose path is not the current file's, and
    on which [os.remove] is not refused, is no regular file afterwards.  (A
    file that is still held open, by a download that goes on or by the sound
    backend, can make [os.remove] raise; lines 699-700 swallow that and the
    file stays.) *)
Theorem cleanup_temp_purges_all_but_current
    (e : StreamPlayer.env) (p : StreamPlayer.player) (t : Fs.fs) (n : Py.str) :
  In n (Fs.listdir (StreamPlayer.temp_dir e) t) ->
  StreamPlayer.is_current e p (Py.join (StreamPlayer.temp_dir e) n) = false ->
  StreamPlayer.os_remove_raises e (Py.join (StreamPlayer.temp_dir e) n) = false ->
  Fs.isfile (Py.join (StreamPlayer.temp_dir e) n)
    (Eff.final_fs (StreamPlayer.cleanup_temp e p t)) = false.
Proof.
  intros Hn Hc Hr. unfold StreamPlayer.cleanup_temp. rewrite bind_gets.
  apply sweep_isfile; [apply in_map, Hn|exact Hc|exact Hr].
Qed.

Lemma cleanup_temp_purges_all_but_current_witness :
  Fs.isfile (Py.join (StreamPlayer.temp_dir Examples.cache_env) (Py.codes "Old.webm"))
    (Eff.final_fs (StreamPlayer.cleanup_temp Examples.cache_env Examples.ten_seconds_in
                     Examples.cache_files)) = false.
Proof.
  apply (cleanup_temp_purges_all_but_current Examples.cache_env Examples.ten_seconds_in
           Examples.cache_files (Py.codes "Old.webm")).
  - right. left. reflexivity.
  - reflexivity.
  - reflexivity.
Defined.

(** A stale file that a download still holds open stays where it is. *)
Example cleanup_temp_leaves_a_held_file :
  Eff.final_fs (StreamPlayer.cleanup_temp Examples.busy_cache_env Examples.ten_seconds_in
                  Examples.cache_files)
  = Examples.cache_files.
Proof. reflexivity. Qed.

(** ** Preparing an entry for streaming *)

Section PrepareFacts.
Import Py Fs Media Eff Format StreamPlayer.

Variable e : env.

Lemma getsize_exists (p : str) (t : fs) (n : Z) : getsize p t = Some n -> exists_ p t = true.
Proof.
  unfold getsize, exists_. destruct (lookup p t); [reflexivity|discriminate].
Qed.

Lemma convert_for_stream_some (safe_title d : str) (t : fs) (x : str) :
  result (convert_for_stream e safe_title d t) = Some x ->
  exists_ x (final_fs (convert_for_stream e safe_title d t)) = true.
Proof.
  unfold convert_for_stream, Ffmpeg.ffmpeg_exists. unfold_eff.
  destruct (Ffmpeg.ffmpeg_exists_value (ffmpeg e)); simpl; [|discriminate].
  destruct (Ffmpeg.convert_to_mp3_with_ffmpeg (ffmpeg e) d _ t) as [[c t1] e1]. simpl.
  destruct (exists_ _ t1) eqn:E; destruct c; simpl; try discriminate.
  intros H; injection H as <-. exact E.
Qed.

Lemma finish_prepare_exists (safe_title d : str) (t : fs) (x : str) :
  result (finish_prepare e safe_title d t) = Some x ->
  exists_ x (final_fs (finish_prepare e safe_title d t)) = true.
Proof.
  unfold finish_prepare. rewrite bind_gets.
  destruct (getsize d t) as [n|] eqn:Hs; [|discriminate].
  apply getsize_exists in Hs.
  assert (Hbody :
    forall m : M (option str),
      m = bind (log "Stream file ready") (fun _ =>
            bind (gets (is_real_mp3 d)) (fun real =>
              if real then bind (log "Stream ready (MP3)") (fun _ => ret (Some d))
              else bind (convert_for_stream e safe_title d) (fun converted =>
                     match converted with
                     | Some temp_mp3 => ret (Some temp_mp3)
                     | None =>
                         bind (gets (exists_ d)) (fun still =>
                           if still
                           then bind (log "Stream ready (original format)")
                                  (fun _ => ret (Some d))
                           else ret None)
                     end))) ->
      result (m t) = Some x -> exists_ x (final_fs (m t)) = true).
  { intros m ->. rewrite bind_log_result, bind_log_final_fs, !bind_gets.
    destruct (is_real_mp3 d t).
    - rewrite bind_log_result, bind_log_final_fs.
      intros H; injection H as <-. exact Hs.
    - rewrite bind_result, bind_final_fs.
      pose proof (convert_for_stream_some safe_title d t) as Hc.
      destruct (result (convert_for_stream e safe_title d t)) as [tm|].
      + intros H; injection H as <-. apply Hc. reflexivity.
      + rewrite bind_gets.
        destruct (exists_ d (final_fs (convert_for_stream e safe_title d t))) eqn:E.
        * rewrite bind_log_result, bind_log_final_fs.
          intros H; injection H as <-. exact E.
        * discriminate. }
  destruct n as [|n|n]; [discriminate| |]; apply Hbody; reflexivity.
Qed.

Lemma convert_for_stream_fails (safe_title d : str) (t : fs) :
  Ffmpeg.normalization_fails (ffmpeg e) d (join (temp_dir e) (safe_title ++ codes "_conv.mp3")) t ->
  d <> join (temp_dir e) (safe_title ++ codes "_conv.mp3") ->
  result (convert_for_stream e safe_title d t) = None
  /\ lookup d (final_fs (convert_for_stream e safe_title d t)) = lookup d t.
Proof.
  intros Hfail Hne. split.
  - unfold convert_for_stream, Ffmpeg.ffmpeg_exists. unfold_eff.
    destruct (Ffmpeg.ffmpeg_exists_value (ffmpeg e)); simpl; [|reflexivity].
    pose proof (convert_fails_result (ffmpeg e) d _ t Hfail) as Hr.
    unfold result in Hr.
    destruct (Ffmpeg.convert_to_mp3_with_ffmpeg (ffmpeg e) d _ t) as [[c t1] e1].
    simpl in Hr. subst c. simpl. reflexivity.
  - assert (K : Frame.keeps d (convert_for_stream e safe_title d)).
    { unfold convert_for_stream. apply keeps_bind; [apply keeps_ffmpeg_exists|].
      intros [|].
      - apply keeps_bind.
        + apply keeps_convert. intros E. apply Hne. symmetry. exact E.
        + intros c. apply keeps_bind; [apply keeps_gets|].
          intros th. destruct (c && th); (apply keeps_bind; [apply keeps_log|]);
            intros _; apply keeps_ret.
      - apply keeps_bind; [apply keeps_log|]. intros _. apply keeps_ret. }
    apply K.
Qed.

End PrepareFacts.

(** X10. Whatever [_prepare_for_stream] returns is there to be played: when
    it returns a path, something exists at that path on the disk it leaves
    behind (the download itself, or the converted copy). *)
Theorem prepared_path_exists
    (e : StreamPlayer.env) (item : Media.entry) (t : Fs.fs) (path : Py.str) :
  Eff.result (StreamPlayer._prepare_for_stream e item t) = Some path ->
  Fs.exists_ path (Eff.final_fs (StreamPlayer._prepare_for_stream e item t)) = true.
Proof.
  unfold StreamPlayer._prepare_for_stream.
  destruct (StreamPlayer.HAS_YTDLP e); simpl; [|discriminate].
  destruct (StreamPlayer.stream_url item) as [url|]; [|discriminate].
  rewrite bind_gets.
  destruct (StreamPlayer.ydl_download e url _ t) as [t'|t']; [discriminate|].
  rewrite bind_put, bind_gets.
  destruct (StreamPlayer.find_stream_file (StreamPlayer.temp_dir e)
              (StreamPlayer.safe_title_of e item) t') as [d|]; [|discriminate].
  apply finish_prepare_exists.
Qed.

Lemma prepared_path_exists_witness :
  Fs.exists_ (Py.codes "/cache/Song.mp3")
    (Eff.final_fs (StreamPlayer._prepare_for_stream
                     (Examples.stream_env true [Examples.song] Examples.mp3_in_cache
                        StreamPlayer.LoadNone)
                     Examples.song [])) = true.
Proof.
  apply (prepared_path_exists
           (Examples.stream_env true [Examples.song] Examples.mp3_in_cache
              StreamPlayer.LoadNone)
           Examples.song [] (Py.codes "/cache/Song.mp3")).
  reflexivity.
Defined.

(** X11. A stream entry whose download is not an MP3 is played in its
    original format when the conversion fails in any way: the download is
    returned, and it is on disk as the download left it.  (The download must
    not itself carry the name of the conversion target.) *)
Theorem stream_falls_back_to_original
    (e : StreamPlayer.env) (item : Media.entry) (t t' : Fs.fs) (url d : Py.str) :
  let safe_title := StreamPlayer.safe_title_of e item in
  let temp_mp3 := Py.join (StreamPlayer.temp_dir e) (safe_title ++ Py.codes "_conv.mp3") in
  StreamPlayer.HAS_YTDLP e = true ->
  StreamPlayer.stream_url item = Some url ->
  StreamPlayer.ydl_download e url (Py.join (StreamPlayer.temp_dir e) safe_title) t
  = StreamPlayer.DownloadDone t' ->
  StreamPlayer.find_stream_file (StreamPlayer.temp_dir e) safe_title t' = Some d ->
  Format.is_real_mp3 d t' = false ->
  Ffmpeg.normalization_fails (StreamPlayer.ffmpeg e) d temp_mp3 t' ->
  d <> temp_mp3 ->
  let r := StreamPlayer._prepare_for_stream e item t in
  Eff.result r = Some d /\ Fs.lookup d (Eff.final_fs r) = Fs.lookup d t'.
Proof.
  intros safe_title temp_mp3 Hy Hurl Hdl Hfind Hreal Hfail Hne r. subst r.
  pose proof (find_stream_file_content _ _ _ _ Hfind) as Hc.
  unfold StreamPlayer.is_file_with_content in Hc.
  apply andb_true_iff in Hc. destruct Hc as [Hfile Hsz].
  destruct (convert_for_stream_fails e safe_title d t' Hfail Hne) as [Hr Hk].
  assert (Hex : Fs.exists_ d (Eff.final_fs (StreamPlayer.convert_for_stream e safe_title d t'))
                = true).
  { unfold Fs.exists_. rewrite Hk. unfold Fs.isfile in Hfile.
    destruct (Fs.lookup d t'); [reflexivity|discriminate]. }
  unfold StreamPlayer._prepare_for_stream. rewrite Hy, Hurl. cbn [negb].
  fold safe_title. rewrite bind_gets, Hdl.
  rewrite bind_put, bind_gets, Hfind.
  unfold StreamPlayer.finish_prepare. rewrite bind_gets.
  destruct (Fs.getsize d t') as [n|]; [|discriminate].
  destruct n as [|n|n]; try discriminate.
  rewrite bind_log_result, bind_log_final_fs, !bind_gets, Hreal.
  rewrite bind_result, bind_final_fs, Hr, !bind_gets, Hex.
  rewrite bind_log_result, bind_log_final_fs.
  split; [reflexivity|exact Hk].
Qed.

Lemma stream_falls_back_to_original_witness :
  let e := Examples.stream_env true [Examples.song] Examples.webm_in_cache
             StreamPlayer.LoadNone in
  let r := StreamPlayer._prepare_for_stream e Examples.song [] in
  Eff.result r = Some (Py.codes "/cache/Song.webm")
  /\ Fs.lookup (Py.codes "/cache/Song.webm") (Eff.final_fs r)
     = Fs.lookup (Py.codes "/cache/Song.webm") Examples.webm_in_cache.
Proof.
  apply (stream_falls_back_to_original
           (Examples.stream_env true [Examples.song] Examples.webm_in_cache
              StreamPlayer.LoadNone)
           Examples.song [] Examples.webm_in_cache
           (Py.codes "https://example.org/watch?v=1") (Py.codes "/cache/Song.webm")).
  - reflexivity.
  - reflexivity.
  - reflexivity.
  - reflexivity.
  - reflexivity.
  - left. reflexivity.
  - discriminate.
Defined.

(** ** The playback of one song *)

Section PlaybackFacts.
Import Py Fs Media Eff StreamPlayer.

Variable e : env.







End PlaybackFacts.



Example skipped_song_counts_as_played :
  fst (Eff.result (StreamPlayer.play_song Examples.skipping_env 0
                     (Py.codes "/cache/Song.mp3") (Some Examples.song) StreamPlayer.init
                     Examples.mp3_in_cache)) = true.
Proof. reflexivity. Qed.

(** ** The controls and the progress display *)

Section DisplayFacts.
Import Py Fs Media Eff StreamPlayer.

Lemma elapsed_paused (now1 now2 : Q) (p : player) :
  pause_flag p = true -> Duration.positive (last_pause_time p) = true ->
  elapsed now1 p = elapsed now2 p.
Proof. intros H1 H2. unfold elapsed. rewrite H1, H2. reflexivity. Qed.

Lemma pause_playing (now : Q) (p : player) (h : handle) :
  playing_session p h ->
  fst (pause now p)
  = set_last_pause_time now
      (set_pause_flag true
         (set_sound (Some (stop_quiet h))
            (set_pause_position (captured_position now p h) p))).
Proof.
  intros [Hs [Hst [_ Hl]]]. unfold pause. rewrite Hs, Hst. cbn.
  apply Qeq_bool_iff in Hl. rewrite Hl. reflexivity.
Qed.

Lemma percent_le_100 (el duration : Q) : percent el duration <= 100.
Proof. unfold percent. apply Q.le_min_l. Qed.

Lemma py_round_comp (a b : Q) : a == b -> DownloaderUI.py_round a = DownloaderUI.py_round b.
Proof.
  intros H. unfold DownloaderUI.py_round.
  rewrite (Qfloor_comp a b H).
  assert (Hc : (a - inject_Z (Qfloor b) ?= 1 # 2) = (b - inject_Z (Qfloor b) ?= 1 # 2)).
  { apply Qcompare_comp; [rewrite H; reflexivity|reflexivity]. }
  rewrite Hc. reflexivity.
Qed.

Lemma format_time_comp (a b : Q) :
  a == b -> DownloaderUI.format_time a = DownloaderUI.format_time b.
Proof. intros H. unfold DownloaderUI.format_time. rewrite (py_round_comp a b H). reflexivity. Qed.

Lemma toggle_local_pause_pauses (now : Q) (u : DownloaderUI.local) :
  DownloaderUI.local_is_paused u = false ->
  fst (DownloaderUI.toggle_local_pause now u)
  = DownloaderUI.mklocal (option_map stop_quiet (DownloaderUI.current_sound u))
      (DownloaderUI.local_play_start_time u) (DownloaderUI.local_total_paused_time u)
      now true.
Proof. intros H. unfold DownloaderUI.toggle_local_pause. rewrite H. reflexivity. Qed.

Lemma toggle_local_pause_resumes (now : Q) (u : DownloaderUI.local) :
  DownloaderUI.local_is_paused u = true ->
  0 < DownloaderUI.local_last_pause_time u ->
  fst (DownloaderUI.toggle_local_pause now u)
  = DownloaderUI.mklocal (option_map DownloaderUI.play_quiet (DownloaderUI.current_sound u))
      (DownloaderUI.local_play_start_time u)
      (DownloaderUI.local_total_paused_time u
       + (now - DownloaderUI.local_last_pause_time u)) 0 false.
Proof.
  intros H1 H2. unfold DownloaderUI.toggle_local_pause.
  rewrite H1, (positive_true _ H2). reflexivity.
Qed.

End DisplayFacts.

(** X13. A paused stream cannot be skipped: pausing stops the sound, and
    [skip_song] acts only on a sound that is playing, so after the pause
    button the skip button leaves the player as it is and only logs that
    there is no active stream. *)
Theorem paused_stream_ignores_skip
    (now : Q) (p : StreamPlayer.player) (h : StreamPlayer.handle) :
  StreamPlayer.sound p = Some h ->
  StreamPlayer.state h = StreamPlayer.Playing ->
  StreamPlayer.stop_raises h = false ->
  StreamPlayer.pause_flag p = false ->
  let paused := fst (StreamControls.toggle_pause now p) in
  StreamPlayer.pause_flag paused = true
  /\ DownloaderUI.skip_song paused
     = (paused, [Eff.Log (Py.codes "No active stream to skip.")]).
Proof.
  intros Hs Hst Hstop Hp paused. subst paused.
  unfold StreamControls.toggle_pause. rewrite Hp.
  unfold StreamPlayer.pause. rewrite Hs, Hst. cbn.
  unfold DownloaderUI.skip_song, StreamPlayer.stop_quiet. rewrite Hstop.
  destruct (Qeq_bool (StreamPlayer.last_pause_time p) 0); split; reflexivity.
Qed.

Lemma paused_stream_ignores_skip_witness :
  let paused := fst (StreamControls.toggle_pause 110 Examples.ten_seconds_in_steady) in
  StreamPlayer.pause_flag paused = true
  /\ DownloaderUI.skip_song paused
     = (paused, [Eff.Log (Py.codes "No active stream to skip.")]).
Proof.
  apply (paused_stream_ignores_skip 110 Examples.ten_seconds_in_steady Examples.steady_sound);
    reflexivity.
Defined.

(** X14. The progress events of [_progress_tick] are safe to display: the
    percentage never exceeds 100, and it is computed from a total only when
    that total is positive; a total of 0 (duration unknown) always comes
    with 0 percent.  In particular a negative declared duration is never
    used as the total. *)
Theorem progress_tick_is_bounded
    (e : StreamPlayer.env) (now : Q) (p : StreamPlayer.player) (pct el total : Q) :
  In (Eff.Progress pct el total) (StreamPlayer._progress_tick e now p) ->
  pct <= 100 /\ (0 < total \/ (total == 0 /\ pct == 0)).
Proof.
  unfold StreamPlayer._progress_tick.
  destruct (StreamPlayer.truthy_path (StreamPlayer.current_file p)) as [cf|]; [|intros []].
  cbv zeta.
  assert (Hsize :
    In (Eff.Progress pct el total)
       match Duration.from_size (StreamPlayer.durations e) cf with
       | Some estimated =>
           [Eff.Progress
              (if Duration.positive estimated
               then StreamPlayer.percent (StreamPlayer.elapsed now p) estimated else 0)
              (StreamPlayer.elapsed now p) estimated]
       | None => [Eff.Progress 0 (StreamPlayer.elapsed now p) 0]
       end ->
    pct <= 100 /\ (0 < total \/ (total == 0 /\ pct == 0))).
  { destruct (Duration.from_size (StreamPlayer.durations e) cf) as [est|] eqn:Es.
    - intros [H|[]]. injection H as <- _ <-.
      pose proof (from_size_positive _ _ _ Es) as Hpos.
      rewrite (positive_true est Hpos).
      split; [apply percent_le_100|left; exact Hpos].
    - intros [H|[]]. injection H as <- _ <-.
      split; [discriminate|right; split; reflexivity]. }
  destruct (Duration.get_duration_best_effort (StreamPlayer.durations e) cf
              (StreamPlayer.current_entry p)) as [duration|]; [|exact Hsize].
  destruct (Duration.truthy duration && Duration.positive duration) eqn:Hd; [|exact Hsize].
  intros [H|[]]. injection H as <- _ <-.
  apply andb_true_iff in Hd. destruct Hd as [_ Hd].
  split; [apply percent_le_100|left].
  unfold Duration.positive in Hd. apply negb_true_iff in Hd.
  apply Qnot_le_lt. intros L. apply Qle_bool_iff in L. congruence.
Qed.

Lemma progress_tick_is_bounded_witness :
  StreamPlayer.percent (110 - 100 - 0) 200 <= 100
  /\ (0 < 200 \/ (200 == 0 /\ StreamPlayer.percent (110 - 100 - 0) 200 == 0)).
Proof.
  apply (progress_tick_is_bounded Examples.cache_env 110 Examples.ten_seconds_in
           (StreamPlayer.percent (110 - 100 - 0) 200) (110 - 100 - 0) 200).
  left. reflexivity.
Defined.

(** X15. While a stream is paused its progress display stands still: after
    [pause()] on a playing session at a positive clock time,
    [_progress_tick] reports the same event whenever it runs. *)
Theorem paused_stream_progress_is_frozen
    (e : StreamPlayer.env) (t1 now1 now2 : Q) (p : StreamPlayer.player)
    (h : StreamPlayer.handle) :
  StreamPlayer.playing_session p h ->
  0 < t1 ->
  let paused := fst (StreamPlayer.pause t1 p) in
  StreamPlayer._progress_tick e now1 paused = StreamPlayer._progress_tick e now2 paused.
Proof.
  intros Hsess Ht paused. subst paused.
  rewrite (pause_playing t1 p h Hsess).
  unfold StreamPlayer._progress_tick.
  match goal with
  | |- context [StreamPlayer.elapsed now1 ?q] =>
      rewrite (elapsed_paused now1 now2 q eq_refl (positive_true t1 Ht))
  end.
  reflexivity.
Qed.

Lemma paused_stream_progress_is_frozen_witness :
  let paused := fst (StreamPlayer.pause 110 Examples.ten_seconds_in_steady) in
  StreamPlayer._progress_tick Examples.cache_env 115 paused
  = StreamPlayer._progress_tick Examples.cache_env 180 paused.
Proof.
  apply (paused_stream_progress_is_frozen Examples.cache_env 110 115 180
           Examples.ten_seconds_in_steady Examples.steady_sound).
  - repeat split; reflexivity.
  - reflexivity.
Defined.

(** X16. Local playback loses no time over a pause: when a playing local
    file is paused at [t1] and resumed at [t2], the labels written by
    [update_local_progress] at the moment of the resume are those it wrote
    at the moment of the pause. *)
Theorem local_resume_continues_where_paused
    (d : Duration.env) (t1 t2 : Q) (filepath : Py.str) (metadata : option Media.entry)
    (u : DownloaderUI.local) (h : StreamPlayer.handle) :
  DownloaderUI.current_sound u = Some h ->
  StreamPlayer.state h = StreamPlayer.Playing ->
  StreamPlayer.play_raises h = false ->
  DownloaderUI.local_is_paused u = false ->
  0 < t1 ->
  let paused := fst (DownloaderUI.toggle_local_pause t1 u) in
  let resumed := fst (DownloaderUI.toggle_local_pause t2 paused) in
  let before := DownloaderUI.update_local_progress d t1 filepath metadata u in
  let after := DownloaderUI.update_local_progress d t2 filepath metadata resumed in
  before <> None
  /\ DownloaderUI.local_is_paused resumed = false
  /\ option_map DownloaderUI.time_label_text after
     = option_map DownloaderUI.time_label_text before
  /\ option_map DownloaderUI.track_duration_text after
     = option_map DownloaderUI.track_duration_text before.
Proof.
  intros Hs Hst Hplay Hp Ht paused resumed before after.
  subst paused resumed before after.
  rewrite (toggle_local_pause_pauses t1 u Hp).
  rewrite (toggle_local_pause_resumes t2
             (DownloaderUI.mklocal
                (option_map StreamPlayer.stop_quiet (DownloaderUI.current_sound u))
                (DownloaderUI.local_play_start_time u)
                (DownloaderUI.local_total_paused_time u) t1 true) eq_refl Ht).
  unfold DownloaderUI.update_local_progress.
  cbn [DownloaderUI.local_is_paused DownloaderUI.current_sound
    DownloaderUI.local_play_start_time DownloaderUI.local_total_paused_time
    DownloaderUI.local_last_pause_time].
  rewrite Hs, Hst, Hp. cbn [option_map].
  assert (Hstate : StreamPlayer.state (DownloaderUI.play_quiet (StreamPlayer.stop_quiet h))
                   = StreamPlayer.Playing).
  { unfold DownloaderUI.play_quiet, StreamPlayer.stop_quiet.
    destruct (StreamPlayer.stop_raises h); cbn; rewrite Hplay; reflexivity. }
  rewrite Hstate. cbn [negb andb].
  set (start := DownloaderUI.local_play_start_time u).
  set (total := DownloaderUI.local_total_paused_time u).
  assert (He : t2 - start - (total + (t2 - t1)) == t1 - start - total) by ring.
  rewrite (format_time_comp _ _ He).
  destruct (Duration.get_duration_best_effort d filepath metadata) as [duration|].
  - destruct (Duration.truthy duration && Duration.positive duration); cbn.
    + repeat split; try discriminate.
      assert (Hl : Qmax 0 (duration - (t2 - start - (total + (t2 - t1))))
                   == Qmax 0 (duration - (t1 - start - total))).
      { rewrite He. reflexivity. }
      rewrite (format_time_comp _ _ Hl). reflexivity.
    + repeat split; discriminate.
  - cbn. repeat split; discriminate.
Qed.

Lemma local_resume_continues_where_paused_witness :
  let u := DownloaderUI.mklocal (Some Examples.steady_sound) 100 0 0 false in
  let paused := fst (DownloaderUI.toggle_local_pause 110 u) in
  let resumed := fst (DownloaderUI.toggle_local_pause 150 paused) in
  let before :=
    DownloaderUI.update_local_progress Examples.two_hundred_seconds 110
      (Py.codes "/music/Band - Song.mp3") None u in
  let after :=
    DownloaderUI.update_local_progress Examples.two_hundred_seconds 150
      (Py.codes "/music/Band - Song.mp3") None resumed in
  before <> None
  /\ DownloaderUI.local_is_paused resumed = false
  /\ option_map DownloaderUI.time_label_text after
     = option_map DownloaderUI.time_label_text before
  /\ option_map DownloaderUI.track_duration_text after
     = option_map DownloaderUI.track_duration_text before.
Proof.
  apply (local_resume_continues_where_paused Examples.two_hundred_seconds 110 150
           (Py.codes "/music/Band - Song.mp3") None
           (DownloaderUI.mklocal (Some Examples.steady_sound) 100 0 0 false)
           Examples.steady_sound); reflexivity.
Defined.

(** X17. The display of local playback does not stand still during a
    pause: after [toggle_local_pause] on a playing local file,
    [update_local_progress] writes at every instant exactly what it would
    have written had the file not been paused, so the elapsed time shown
    keeps running with the clock until the resume takes the pause out. *)
Theorem local_display_runs_on_while_paused
    (d : Duration.env) (t1 now : Q) (filepath : Py.str) (metadata : option Media.entry)
    (u : DownloaderUI.local) (h : StreamPlayer.handle) :
  DownloaderUI.current_sound u = Some h ->
  StreamPlayer.state h = StreamPlayer.Playing ->
  DownloaderUI.local_is_paused u = false ->
  let paused := fst (DownloaderUI.toggle_local_pause t1 u) in
  DownloaderUI.local_is_paused paused = true
  /\ DownloaderUI.update_local_progress d now filepath metadata paused
     = DownloaderUI.update_local_progress d now filepath metadata u
  /\ DownloaderUI.update_local_progress d now filepath metadata u <> None.
Proof.
  intros Hs Hst Hp paused. subst paused.
  unfold DownloaderUI.toggle_local_pause. rewrite Hp. cbn [fst].
  unfold DownloaderUI.update_local_progress.
  cbn [DownloaderUI.local_is_paused DownloaderUI.current_sound
    DownloaderUI.local_play_start_time DownloaderUI.local_total_paused_time].
  rewrite Hs, Hst, Hp. cbn [option_map negb andb].
  split; [reflexivity|]. split.
  - destruct (StreamPlayer.state (StreamPlayer.stop_quiet h)); cbn [negb andb]; reflexivity.
  - destruct (Duration.get_duration_best_effort d filepath metadata) as [duration|];
      [destruct (Duration.truthy duration && Duration.positive duration)|]; discriminate.
Qed.

Lemma local_display_runs_on_while_paused_witness :
  let u := DownloaderUI.mklocal (Some Examples.steady_sound) 100 0 0 false in
  let paused := fst (DownloaderUI.toggle_local_pause 110 u) in
  DownloaderUI.local_is_paused paused = true
  /\ DownloaderUI.update_local_progress Examples.two_hundred_seconds 170
       (Py.codes "/music/Band - Song.mp3") None paused
     = DownloaderUI.update_local_progress Examples.two_hundred_seconds 170
         (Py.codes "/music/Band - Song.mp3") None u
  /\ DownloaderUI.update_local_progress Examples.two_hundred_seconds 170
       (Py.codes "/music/Band - Song.mp3") None u <> None.
Proof.
  apply (local_display_runs_on_while_paused Examples.two_hundred_seconds 110 170
           (Py.codes "/music/Band - Song.mp3") None
           (DownloaderUI.mklocal (Some Examples.steady_sound) 100 0 0 false)
           Examples.steady_sound); reflexivity.
Defined.

Example local_display_during_pause :
  option_map DownloaderUI.time_label_text
    (DownloaderUI.update_local_progress Examples.two_hundred_seconds 170
       (Py.codes "/music/Band - Song.mp3") None
       (fst (DownloaderUI.toggle_local_pause 110
               (DownloaderUI.mklocal (Some Examples.steady_sound) 100 0 0 false))))
  = Some (Py.codes "01:10 / 03:20").
Proof. vm_compute. reflexivity. Qed.

(** ** The time display *)

Section FormatTimeFacts.
Import Py.

Lemma codes_inj (a b : string) : codes a = codes b -> a = b.
Proof.
  revert b. induction a as [|c a IH]; intros [|c' b]; simpl; try discriminate.
  - reflexivity.
  - intros H. injection H as Hc Hr. f_equal; [|apply IH, Hr].
    rewrite <- (ascii_N_embedding c), <- (ascii_N_embedding c'), Hc. reflexivity.
Qed.

Lemma to_int_proper (z : Z) : Z.to_int z <> Decimal.Pos Decimal.Nil /\ Z.to_int z <> Decimal.Neg Decimal.Nil.
Proof.
  destruct z as [|p|p]; simpl; split; try discriminate;
    intros H; injection H as H; apply (DecimalPos.Unsigned.to_uint_nonnil p H).
Qed.

Lemma decimal_inj (x y : Z) : DownloadManager.decimal x = DownloadManager.decimal y -> x = y.
Proof.
  unfold DownloadManager.decimal. intros H. apply codes_inj in H.
  apply DecimalZ.to_int_inj.
  destruct (to_int_proper x) as [Hx1 Hx2]. destruct (to_int_proper y) as [Hy1 Hy2].
  pose proof (NilZero.isi (Z.to_int x) Hx1 Hx2) as Ix.
  pose proof (NilZero.isi (Z.to_int y) Hy1 Hy2) as Iy.
  rewrite H in Ix. congruence.
Qed.

Lemma to_uint_no_leading_zero (p : positive) (d : Decimal.uint) :
  Pos.to_uint p <> Decimal.D0 d.
Proof.
  intros H.
  pose proof (DecimalPos.Unsigned.to_of (Pos.to_uint p)) as Hn.
  rewrite DecimalPos.Unsigned.of_to in Hn. simpl in Hn.
  assert (Hz : Decimal.nzhead (Pos.to_uint p) <> Decimal.Nil).
  { intros Hz. apply DecimalFacts.unorm_0 in Hz. rewrite <- Hn in Hz.
    apply (DecimalPos.Unsigned.to_uint_nonzero p Hz). }
  rewrite (DecimalFacts.unorm_nzhead _ Hz) in Hn.
  apply (DecimalFacts.nzhead_nonzero (Pos.to_uint p) d). congruence.
Qed.

Lemma string_of_uint_head (d : Decimal.uint) (rest : str) :
  d <> Decimal.Nil ->
  codes (NilZero.string_of_uint d) = 48%N :: rest -> exists d', d = Decimal.D0 d'.
Proof.
  intros Hd. destruct d; simpl; try discriminate; intros _.
  - contradiction Hd; reflexivity.
  - eexists; reflexivity.
Qed.

Lemma decimal_leading_zero (y : Z) (rest : str) :
  DownloadManager.decimal y = 48%N :: rest -> rest = [].
Proof.
  unfold DownloadManager.decimal. destruct y as [|p|p]; simpl.
  - intros H. injection H as <-. reflexivity.
  - intros H.
    destruct (string_of_uint_head (Pos.to_uint p) rest
                (DecimalPos.Unsigned.to_uint_nonnil p) H) as [d' Hd'].
    exfalso. apply (to_uint_no_leading_zero p d' Hd').
  - discriminate.
Qed.

Lemma two_digits_inj (x y : Z) :
  DownloaderUI.two_digits x = DownloaderUI.two_digits y -> x = y.
Proof.
  unfold DownloaderUI.two_digits.
  destruct (List.length (DownloadManager.decimal x) <? 2)%nat eqn:Lx;
    destruct (List.length (DownloadManager.decimal y) <? 2)%nat eqn:Ly; intros H.
  - injection H as H. apply decimal_inj, H.
  - symmetry in H. pose proof (decimal_leading_zero y _ H) as Hr.
    rewrite Hr in H. rewrite H in Ly. discriminate.
  - pose proof (decimal_leading_zero x _ H) as Hr.
    rewrite Hr in H. rewrite H in Lx. discriminate.
  - apply decimal_inj, H.
Qed.

Lemma two_digits_of_seconds (n : Z) :
  (0 <= n < 60)%Z -> List.length (DownloaderUI.two_digits n) = 2%nat.
Proof.
  intros Hn.
  assert (Hall : forallb (fun k => (List.length (DownloaderUI.two_digits (Z.of_nat k)) =? 2)%nat)
                   (seq 0 60) = true) by (vm_compute; reflexivity).
  rewrite forallb_forall in Hall.
  specialize (Hall (Z.to_nat n)). rewrite Z2Nat.id in Hall by lia.
  apply Nat.eqb_eq, Hall. apply in_seq. lia.
Qed.

Lemma app_inj_same_length (A : Type) (l1 l1' l2 l2' : list A) :
  l1 ++ l2 = l1' ++ l2' -> List.length l2 = List.length l2' -> l1 = l1' /\ l2 = l2'.
Proof.
  intros H L.
  assert (L1 : List.length l1 = List.length l1').
  { apply (f_equal (@List.length A)) in H. rewrite !length_app in H. lia. }
  clear L. revert l1' H L1.
  induction l1 as [|x l1 IH]; intros [|y l1'] H L1; simpl in *; try discriminate.
  - split; [reflexivity|exact H].
  - injection H as -> H. injection L1 as L1.
    destruct (IH l1' H L1) as [-> ->]. split; reflexivity.
Qed.

End FormatTimeFacts.

(** X18. [format_time] shows a time to the whole second and loses nothing
    else: two times are displayed by the same text exactly when [round]
    sends them to the same number of seconds, however long the minutes run
    and also for negative times. *)
Theorem format_time_shows_the_rounded_second (a b : Q) :
  DownloaderUI.format_time a = DownloaderUI.format_time b
  <-> DownloaderUI.py_round a = DownloaderUI.py_round b.
Proof.
  split; [|intros H; unfold DownloaderUI.format_time; rewrite H; reflexivity].
  unfold DownloaderUI.format_time.
  set (sa := DownloaderUI.py_round a). set (sb := DownloaderUI.py_round b).
  intros H.
  apply app_inj_same_length in H.
  - destruct H as [Hm Hs]. injection Hs as Hs.
    apply two_digits_inj in Hm. apply two_digits_inj in Hs.
    rewrite (Z.div_mod sa 60), (Z.div_mod sb 60) by lia. rewrite Hm, Hs. reflexivity.
  - simpl. rewrite !two_digits_of_seconds by (apply Z.mod_pos_bound; lia). reflexivity.
Qed.

Example format_time_runs :
  DownloaderUI.format_time 75 = Py.codes "01:15"
  /\ DownloaderUI.format_time (7 # 2) = Py.codes "00:04"
  /\ DownloaderUI.format_time (5 # 2) = Py.codes "00:02"
  /\ DownloaderUI.format_time 6000 = Py.codes "100:00".
Proof. repeat split; vm_compute; reflexivity. Qed.

(** ** The cache during a streaming run *)

Section StreamCacheFacts.
Import Py Fs Media Eff Format StreamPlayer.

Variable e : env.

Lemma startswith_app (p s : str) : startswith (p ++ s) p = true.
Proof.
  induction p as [|c p IH]; simpl; [destruct s; reflexivity|].
  rewrite N.eqb_refl. exact IH.
Qed.






End StreamCacheFacts.



(** One pass of the loop body on a single entry: the played file is gone
    from the cache. *)
Example stream_item_deletes_the_played_file :
  Eff.final_fs
    (StreamPlayer.stream_item
       (Examples.stream_env true [Examples.song] Examples.mp3_in_cache
          (StreamPlayer.Loaded Examples.steady_sound))
       0 Examples.song None StreamPlayer.init []) = [].
Proof. reflexivity. Qed.

(** ** What the batch driver hands to the tagger *)

Section TaggerFacts.
Import Py Fs Media Eff Format DownloadManager.

Lemma emits_ret (P : event -> Prop) (A : Type) (a : A) : Frame.emits P (ret a).
Proof. intros t. constructor. Qed.

Lemma emits_emit (P : event -> Prop) (ev : event) : P ev -> Frame.emits P (emit ev).
Proof. intros H t. constructor; [exact H|constructor]. Qed.

Lemma emits_gets (P : event -> Prop) (A : Type) (f : fs -> A) : Frame.emits P (gets f).
Proof. intros t. constructor. Qed.

Lemma emits_put (P : event -> Prop) (t' : fs) : Frame.emits P (put t').
Proof. intros t. constructor. Qed.

Lemma emits_bind (P : event -> Prop) (A B : Type) (m : M A) (k : A -> M B) :
  Frame.emits P m -> (forall a, Frame.emits P (k a)) -> Frame.emits P (bind m k).
Proof.
  intros Hm Hk t. rewrite bind_trace. apply Forall_app. split; [apply Hm|apply Hk].
Qed.

Lemma tags_log (msg : string) : Frame.emits Frame.tags_mp3 (log msg).
Proof. apply emits_emit. exact I. Qed.

Lemma tags_remove_quiet (p : str) : Frame.emits Frame.tags_mp3 (remove_quiet p).
Proof.
  intros t. unfold remove_quiet, trace.
  destruct (os_remove p t); simpl; repeat constructor.
Qed.

Lemma tags_remove_if_exists (p : str) : Frame.emits Frame.tags_mp3 (remove_if_exists p).
Proof.
  intros t. unfold remove_if_exists, remove_quiet, trace.
  destruct (exists_ p t); simpl; [|constructor].
  destruct (os_remove p t); simpl; repeat constructor.
Qed.

Lemma tags_leave (p : str) (w : option file) : Frame.emits Frame.tags_mp3 (Ffmpeg.leave p w).
Proof. intros t. unfold Ffmpeg.leave, trace. destruct w; constructor. Qed.

Lemma tags_ffmpeg_exists (fe : Ffmpeg.env) : Frame.emits Frame.tags_mp3 (Ffmpeg.ffmpeg_exists fe).
Proof.
  unfold Ffmpeg.ffmpeg_exists. apply emits_bind; [apply emits_emit; exact I|].
  intros _. apply emits_ret.
Qed.

Lemma tags_convert (fe : Ffmpeg.env) (src tgt : str) :
  Frame.emits Frame.tags_mp3 (Ffmpeg.convert_to_mp3_with_ffmpeg fe src tgt).
Proof.
  unfold Ffmpeg.convert_to_mp3_with_ffmpeg.
  apply emits_bind; [apply tags_log|]. intros _.
  apply emits_bind; [apply tags_ffmpeg_exists|]. intros available.
  destruct (negb available).
  - apply emits_bind; [apply tags_log|]. intros _. apply emits_ret.
  - apply emits_bind; [apply emits_emit; exact I|]. intros _.
    apply emits_bind; [apply emits_gets|]. intros [rc w|w].
    + apply emits_bind; [apply tags_leave|]. intros _.
      apply emits_bind; [apply emits_gets|]. intros there.
      destruct ((rc =? 0)%Z && there).
      * apply emits_bind; [apply tags_log|]. intros _. apply emits_ret.
      * apply emits_bind; [apply tags_log|]. intros _.
        apply emits_bind; [apply tags_remove_if_exists|]. intros _. apply emits_ret.
    + apply emits_bind; [apply tags_leave|]. intros _.
      apply emits_bind; [apply tags_log|]. intros _.
      apply emits_bind; [apply tags_remove_if_exists|]. intros _. apply emits_ret.
Qed.

Lemma tags_shutil_move (e : env) (src dst : str) :
  Frame.emits Frame.tags_mp3 (shutil_move e src dst).
Proof.
  intros t. unfold shutil_move, trace.
  destruct (move_raises e src dst); [constructor|].
  destruct (move src dst t); constructor.
Qed.

Lemma tags_shutil_copy (e : env) (src dst : str) :
  Frame.emits Frame.tags_mp3 (shutil_copy e src dst).
Proof.
  intros t. unfold shutil_copy, trace.
  destruct (copy_raises e src dst); [constructor|].
  destruct (copy src dst t); constructor.
Qed.

Lemma lower_app (a b : str) : lower (a ++ b) = lower a ++ lower b.
Proof. apply map_app. Qed.

Lemma endswith_app (a b : str) : endswith (a ++ b) b = true.
Proof. unfold endswith. rewrite rev_app_distr. apply startswith_app. Qed.

Lemma mp3_name (d base : str) :
  endswith (lower (join d (base ++ codes ".mp3"))) (codes ".mp3") = true.
Proof.
  unfold join. rewrite !app_assoc, lower_app.
  change (lower (codes ".mp3")) with (codes ".mp3"). apply endswith_app.
Qed.

Lemma tags_final_mp3 (e : env) (title uploader : str) :
  Frame.tags_mp3 (EmbedMetadata (final_mp3_of e title uploader)).
Proof. apply mp3_name. Qed.

Lemma tags_embed_metadata (e : env) (p : str) (md : entry) :
  Frame.tags_mp3 (EmbedMetadata p) -> Frame.emits Frame.tags_mp3 (embed_metadata e p md).
Proof.
  intros H. unfold embed_metadata.
  apply emits_bind; [apply emits_emit, H|]. intros _.
  apply emits_bind; [apply tags_log|]. intros _.
  destruct (negb (HAS_MUTAGEN e)); [apply tags_log|].
  apply emits_bind; [apply emits_gets|]. intros [f|]; [|apply tags_log].
  apply emits_bind; [apply emits_gets|]. intros real.
  destruct (negb real); [apply tags_log|].
  apply emits_bind; [apply emits_gets|]. intros t.
  destruct (mutagen_save e p md f);
    (apply emits_bind; [apply emits_put|]; intros _; apply tags_log).
Qed.

Lemma tags_save_mp3 (e : env) (item : entry) (title uploader d : str) :
  Frame.emits Frame.tags_mp3 (save_mp3 e item d (final_mp3_of e title uploader)).
Proof.
  unfold save_mp3.
  apply emits_bind; [apply tags_shutil_move|]. intros [|].
  - apply emits_bind; [apply tags_log|]. intros _.
    apply tags_embed_metadata, tags_final_mp3.
  - apply emits_bind; [apply tags_shutil_copy|]. intros [|].
    + apply emits_bind; [apply tags_log|]. intros _.
      apply tags_embed_metadata, tags_final_mp3.
    + apply tags_log.
Qed.

Lemma tags_convert_and_save (e : env) (i : nat) (item : entry) (title uploader d : str) :
  Frame.emits Frame.tags_mp3 (convert_and_save e i item d (final_mp3_of e title uploader)).
Proof.
  unfold convert_and_save.
  apply emits_bind; [apply tags_ffmpeg_exists|]. intros [|].
  - apply emits_bind; [apply tags_convert|]. intros converted.
    apply emits_bind; [apply emits_gets|]. intros there.
    destruct (converted && there); [|apply emits_ret].
    apply emits_bind; [apply tags_shutil_move|]. intros [|].
    + apply emits_bind; [apply tags_log|]. intros _.
      apply emits_bind; [apply tags_embed_metadata, tags_final_mp3|]. intros _.
      apply emits_bind; [apply tags_remove_if_exists|]. intros _. apply emits_ret.
    + apply emits_bind; [apply tags_log|]. intros _. apply emits_ret.
  - apply emits_bind; [apply tags_log|]. intros _. apply emits_ret.
Qed.

Lemma tags_keep_original (e : env) (i : nat) (item : entry) (d final_base : str) :
  Frame.emits Frame.tags_mp3 (keep_original e i item d final_base).
Proof.
  unfold keep_original. cbv zeta.
  apply emits_bind; [apply emits_gets|]. intros taken.
  apply emits_bind; [apply tags_shutil_move|]. intros [|]; [|apply tags_log].
  apply emits_bind; [apply tags_log|]. intros _.
  destruct (HAS_MUTAGEN e); [|apply emits_ret].
  match goal with
  | |- context [endswith (lower ?dest) ?x] => destruct (endswith (lower dest) x) eqn:E
  end.
  - apply tags_embed_metadata. exact E.
  - apply tags_log.
Qed.

Lemma tags_process_entry (e : env) (i : nat) (item : entry) :
  Frame.emits Frame.tags_mp3 (process_entry e i item).
Proof.
  unfold process_entry.
  apply emits_bind; [apply emits_gets|]. intros [d|]; [|apply tags_log].
  apply emits_bind; [apply emits_gets|]. intros [[|n|n]|]; try apply tags_log;
    (apply emits_bind; [apply tags_log|]; intros _;
     destruct (uploader_of item) as [uploader|]; [|apply tags_log];
     apply emits_bind; [apply emits_gets|]; intros [|]; [apply tags_save_mp3|];
     apply emits_bind; [apply tags_convert_and_save|]; intros [|];
     [apply emits_ret|apply tags_keep_original]).
Qed.

Lemma tags_process_entries (e : env) (entries : list entry) (i : nat) :
  Frame.emits Frame.tags_mp3 (process_entries e i entries).
Proof.
  revert i. induction entries as [|item rest IH]; intros i; simpl.
  - apply emits_ret.
  - destruct (download_stop_flag e i); [apply tags_log|].
    apply emits_bind; [apply tags_process_entry|]. intros _. apply IH.
Qed.

Lemma tags_remove_each (paths : list str) : Frame.emits Frame.tags_mp3 (remove_each paths).
Proof.
  induction paths as [|p rest IH]; simpl; [apply emits_ret|].
  apply emits_bind; [apply tags_remove_quiet|]. intros _. exact IH.
Qed.

End TaggerFacts.

(** X20. In a whole batch run the tagger is only ever handed a file whose
    name ends in ".mp3" (in any letter case): every [embed_metadata] call
    of [_download_audio], for whatever the fetch returns and whatever
    happens to each entry, is on such a path. *)
Theorem tagger_is_called_on_mp3_names_only
    (e : DownloadManager.env) (url : Py.str) (t : Fs.fs) (path : Py.str) :
  In (Eff.EmbedMetadata path) (Eff.trace (DownloadManager._download_audio e url t)) ->
  Py.endswith (Py.lower path) (Py.codes ".mp3") = true.
Proof.
  assert (H : Frame.emits Frame.tags_mp3 (DownloadManager._download_audio e url)).
  { unfold DownloadManager._download_audio.
    apply emits_bind; [apply tags_log|]. intros _.
    destruct (negb (DownloadManager.HAS_YTDLP e)); [apply tags_log|].
    apply emits_bind; [apply emits_gets|]. intros [t'|info t'].
    - apply emits_bind; [apply emits_put|]. intros _. apply tags_log.
    - apply emits_bind; [apply emits_put|]. intros _.
      apply emits_bind; [apply tags_log|]. intros _.
      apply emits_bind; [apply tags_process_entries|]. intros _.
      unfold DownloadManager.cleanup_temp_files.
      apply emits_bind; [apply emits_gets|]. intros names. apply tags_remove_each. }
  intros Hin. specialize (H t). rewrite Forall_forall in H.
  apply (H _ Hin).
Qed.

Lemma tagger_is_called_on_mp3_names_only_witness :
  Py.endswith (Py.lower (Py.codes "/music/Band - Song.mp3")) (Py.codes ".mp3") = true.
Proof.
  apply (tagger_is_called_on_mp3_names_only
           (Examples.batch_env Examples.mp3_download
              (Some (DownloadManager.InfoSingle Examples.song)))
           (Py.codes "https://example.org/watch?v=1") []
           (Py.codes "/music/Band - Song.mp3")).
  vm_compute. repeat first [left; reflexivity | right].
Defined.

(** ** The file list of the window *)

Section FileListFacts.
Import Py Fs Media Eff.

Lemma lookup_In (p : str) (t : fs) (f : file) : lookup p t = Some f -> In (p, f) t.
Proof.
  induction t as [|[k g] t IH]; simpl; [discriminate|].
  destruct (str_eqb k p) eqn:E.
  - apply str_eqb_eq in E. subst k. intros H; injection H as <-. left. reflexivity.
  - intros H. right. apply IH, H.
Qed.

Lemma insert_sorted_In (x y : str) (l : list str) :
  In y (DownloaderUI.insert_sorted x l) <-> y = x \/ In y l.
Proof.
  induction l as [|z l IH]; simpl.
  - split; intros [H|H]; auto.
  - destruct (DownloaderUI.str_leb x z); simpl; [split; intros [H|H]; auto|].
    rewrite IH. split; intros H; tauto.
Qed.

Lemma sorted_In (y : str) (l : list str) : In y (DownloaderUI.sorted l) <-> In y l.
Proof.
  induction l as [|x l IH]; simpl; [reflexivity|].
  rewrite insert_sorted_In, IH. split; intros [H|H]; auto.
Qed.

Lemma refresh_file_list_In (d : str) (t : fs) (n : str) :
  In n (DownloaderUI.refresh_file_list d t)
  <-> In n (listdir d t) /\ DownloaderUI.is_audio_name n = true.
Proof. unfold DownloaderUI.refresh_file_list. rewrite sorted_In. apply filter_In. Qed.

Lemma mp3_is_audio_name (base : str) : DownloaderUI.is_audio_name (base ++ codes ".mp3") = true.
Proof.
  unfold DownloaderUI.is_audio_name, DownloaderUI.audio_extensions.
  cbn [map existsb]. rewrite lower_app.
  change (lower (codes ".mp3")) with (codes ".mp3"). rewrite endswith_app. reflexivity.
Qed.

Lemma final_mp3_child (e : DownloadManager.env) (title uploader : str) :
  DownloadManager.isalnum e slash = false ->
  child_name (DownloadManager.APP_DIR e) (DownloadManager.final_mp3_of e title uploader)
  = Some (DownloadManager.final_base_of e title uploader ++ codes ".mp3").
Proof.
  intros H. unfold DownloadManager.final_mp3_of. apply child_name_of_join.
  - intros E. apply app_eq_nil in E. destruct E as [_ E]. discriminate.
  - rewrite char_in_app. unfold DownloadManager.final_base_of.
    rewrite (sanitize_no_slash _ _ H). reflexivity.
Qed.

End FileListFacts.

(** X21. A song the batch driver has saved shows in the window's file
    list: when a file is on disk at the final MP3 path built from a title
    and an uploader, [refresh_file_list] builds a card for it, under the
    name the driver gave it. *)
Theorem saved_mp3_shows_in_file_list
    (e : DownloadManager.env) (title uploader : Py.str) (t : Fs.fs) (f : Fs.file) :
  DownloadManager.isalnum e Fs.slash = false ->
  Fs.lookup (DownloadManager.final_mp3_of e title uploader) t = Some f ->
  In (DownloadManager.final_base_of e title uploader ++ Py.codes ".mp3")
     (DownloaderUI.refresh_file_list (DownloadManager.APP_DIR e) t).
Proof.
  intros Hs Hl. apply refresh_file_list_In. split.
  - apply listdir_In. exists (DownloadManager.final_mp3_of e title uploader), f.
    split; [apply lookup_In, Hl|apply final_mp3_child, Hs].
  - apply mp3_is_audio_name.
Qed.

Lemma saved_mp3_shows_in_file_list_witness :
  let e := Examples.batch_env Examples.mp3_download None in
  In (DownloadManager.final_base_of e (Py.codes "Song") (Py.codes "Band") ++ Py.codes ".mp3")
     (DownloaderUI.refresh_file_list (DownloadManager.APP_DIR e) Examples.library_and_temp).
Proof.
  apply (saved_mp3_shows_in_file_list (Examples.batch_env Examples.mp3_download None)
           (Py.codes "Song") (Py.codes "Band") Examples.library_and_temp
           (Examples.id3_file 3));
    reflexivity.
Defined.

Example file_list_runs :
  DownloaderUI.refresh_file_list (Py.codes "/music")
    [(Py.codes "/music/b.MP3", Examples.id3_file 1);
     (Py.codes "/music/notes.txt", Examples.id3_file 1);
     (Py.codes "/music/a.webm", Examples.webm_file);
     (Py.codes "/music/B.ogg", Examples.webm_file);
     (Py.codes "/music/sub/c.mp3", Examples.id3_file 1)]
  = [Py.codes "B.ogg"; Py.codes "a.webm"; Py.codes "b.MP3"].
Proof. reflexivity. Qed.

(** ** The activity log of the window *)

Section LogFacts.
Import Py.

Lemma split_lines_nonempty (s : str) : DownloaderUI.split_lines s <> [].
Proof.
  destruct s as [|c s]; simpl; [discriminate|].
  destruct (c =? DownloaderUI.newline)%N; [discriminate|].
  destruct (DownloaderUI.split_lines s); discriminate.
Qed.

Lemma split_lines_clean (s : str) :
  Forall (fun l => ~ In DownloaderUI.newline l) (DownloaderUI.split_lines s).
Proof.
  induction s as [|c s IH]; simpl.
  - constructor; [intros []|constructor].
  - destruct (c =? DownloaderUI.newline)%N eqn:E.
    + constructor; [intros []|exact IH].
    + apply N.eqb_neq in E.
      destruct (DownloaderUI.split_lines s) as [|l ls].
      * constructor; [|constructor]. intros [H|[]]. apply E. exact H.
      * inversion IH as [|? ? Hl Hls]; subst. constructor; [|exact Hls].
        intros [H|H]; [apply E; exact H|apply Hl, H].
Qed.

Lemma split_lines_line (l s : str) :
  ~ In DownloaderUI.newline l ->
  DownloaderUI.split_lines (l ++ DownloaderUI.newline :: s) = l :: DownloaderUI.split_lines s.
Proof.
  induction l as [|c l IH]; intros H; simpl.
  - reflexivity.
  - destruct (c =? DownloaderUI.newline)%N eqn:E.
    + apply N.eqb_eq in E. exfalso. apply H. left. exact E.
    + rewrite IH; [reflexivity|]. intros Hin. apply H. right. exact Hin.
Qed.

Lemma split_join_lines (ls : list str) (m : str) :
  Forall (fun l => ~ In DownloaderUI.newline l) ls ->
  DownloaderUI.split_lines (DownloaderUI.join_lines (ls ++ [m]))
  = ls ++ DownloaderUI.split_lines m.
Proof.
  induction 1 as [|l ls Hl Hls IH]; [reflexivity|].
  change ((l :: ls) ++ [m]) with (l :: (ls ++ [m])).
  assert (E : DownloaderUI.join_lines (l :: (ls ++ [m]))
              = l ++ DownloaderUI.newline :: DownloaderUI.join_lines (ls ++ [m])).
  { destruct (ls ++ [m]) eqn:A; [destruct ls; discriminate|reflexivity]. }
  rewrite E, (split_lines_line _ _ Hl). simpl. f_equal. exact IH.
Qed.

Lemma join_lines_ends (ls : list str) (m : str) :
  exists before, DownloaderUI.join_lines (ls ++ [m]) = before ++ m.
Proof.
  induction ls as [|l ls [b IH]]; [exists []; reflexivity|].
  change ((l :: ls) ++ [m]) with (l :: (ls ++ [m])).
  exists (l ++ DownloaderUI.newline :: b).
  assert (E : DownloaderUI.join_lines (l :: (ls ++ [m]))
              = l ++ DownloaderUI.newline :: DownloaderUI.join_lines (ls ++ [m])).
  { destruct (ls ++ [m]) eqn:A; [destruct ls; discriminate|reflexivity]. }
  rewrite E, <- app_assoc. simpl. do 2 f_equal. exact IH.
Qed.

Lemma Forall_skipn_lines (A : Type) (P : A -> Prop) (n : nat) (l : list A) :
  Forall P l -> Forall P (skipn n l).
Proof.
  revert l. induction n as [|n IH]; intros l H; [exact H|].
  destruct l as [|x l]; [constructor|]. inversion H; subst. apply IH. assumption.
Qed.

End LogFacts.

(** X23. The log label of the window keeps the end of what it held and
    cannot grow without bound.  Read line by line, the label after
    [log(message)] is a final stretch of the lines it held before (all of
    them when there were at most 300, exactly the last 200 otherwise)
    followed by the lines of the message; so it never holds more than 300
    old lines, and the message is always its end. *)
Theorem log_label_is_bounded (text message : Py.str) :
  let old := match text with [] => [] | _ :: _ => DownloaderUI.split_lines text end in
  let text' := DownloaderUI.log_label text message in
  (exists dropped kept,
      old = dropped ++ kept
      /\ DownloaderUI.split_lines text' = kept ++ DownloaderUI.split_lines message
      /\ (if (300 <? List.length old)%nat
          then List.length kept = 200%nat
          else dropped = []))
  /\ (List.length (DownloaderUI.split_lines text')
      <= 300 + List.length (DownloaderUI.split_lines message))%nat
  /\ (exists before, text' = before ++ message).
Proof.
  intros old text'. subst text'. unfold DownloaderUI.log_label. fold old.
  assert (Hclean : Forall (fun l => ~ In DownloaderUI.newline l) old).
  { subst old. destruct text; [constructor|apply split_lines_clean]. }
  destruct (300 <? List.length old)%nat eqn:L.
  - apply Nat.ltb_lt in L. unfold DownloaderUI.last_lines.
    set (n := (List.length old - 200)%nat).
    assert (Hsplit : DownloaderUI.split_lines (DownloaderUI.join_lines (skipn n old ++ [message]))
                     = skipn n old ++ DownloaderUI.split_lines message)
      by (apply split_join_lines, Forall_skipn_lines, Hclean).
    assert (Hlen : List.length (skipn n old) = 200%nat)
      by (rewrite length_skipn; subst n; lia).
    split; [|split].
    + exists (firstn n old), (skipn n old).
      split; [symmetry; apply firstn_skipn|]. split; [exact Hsplit|exact Hlen].
    + rewrite Hsplit, length_app, Hlen. lia.
    + apply join_lines_ends.
  - apply Nat.ltb_ge in L.
    assert (Hsplit : DownloaderUI.split_lines (DownloaderUI.join_lines (old ++ [message]))
                     = old ++ DownloaderUI.split_lines message)
      by (apply split_join_lines, Hclean).
    split; [|split].
    + exists [], old. split; [reflexivity|]. split; [exact Hsplit|reflexivity].
    + rewrite Hsplit, length_app. lia.
    + apply join_lines_ends.
Qed.

(** A label of 301 lines, numbered by their length: the call keeps the last
    200 of them, the lines of length 101 to 300, and adds the message. *)
Example log_label_keeps_the_last_lines :
  let numbered := map (fun n => repeat 46%N n) (seq 0 301) in
  DownloaderUI.split_lines
    (DownloaderUI.log_label (DownloaderUI.join_lines numbered) (Py.codes "Playback stopped."))
  = map (fun n => repeat 46%N n) (seq 101 200) ++ [Py.codes "Playback stopped."].
Proof. vm_compute. reflexivity. Qed.

Example log_label_runs :
  DownloaderUI.log_label (Py.codes "Saved MP3") (Py.codes "Download worker finished.")
  = [83; 97; 118; 101; 100; 32; 77; 80; 51; 10]%N ++ Py.codes "Download worker finished.".
Proof. reflexivity. Qed.
